(** * Feature engineering of the Zillow valuation data set

    A shallow embedding of [src/components/data_transformation.py]
    ([DataTransformation.feature_engineering] and
    [DataTransformation.initiate_data_transformation]) and the properties
    of it that the specification states, and further properties of the
    code.

    Conventions of the embedding.

    - A number is held as the binary64 value pandas computes with
      ([spec_float] at precision 53, [emax] 1024); [NaN] is the missing
      value.  Integer and boolean columns (int64, uint8, bool) are held by
      the binary64 of the same value, so a 0/1 indicator is [Num 0]/[Num 1].
    - A column is the list of its cells, a table is its row count and its
      ordered, named columns.  A column with a text cell has dtype object;
      a column of numbers has a numeric dtype.
    - The measures the transformation computes with must be numeric
      columns: pandas' arithmetic on object columns is not embedded, a
      measure column with a text cell is a [TypeError] here.
    - An exception is a value of [Exception]; code that may raise returns
      [Exception + A].
    - pandas is the one of version 1.5 and later: [groupby(...).transform]
      gives a missing value to a row whose key is missing. *)

From Stdlib Require Import ZArith List String Ascii Bool Arith Lia.
From Stdlib Require Import DecimalString.
From Stdlib Require Import Floats.SpecFloat.
Import ListNotations.
Open Scope string_scope.
Open Scope list_scope.

(** ** binary64 arithmetic *)

Module F64.

Definition float64 := spec_float.

Definition prec : Z := 53.
Definition emax : Z := 1024.

Definition add : float64 -> float64 -> float64 := SFadd prec emax.
Definition sub : float64 -> float64 -> float64 := SFsub prec emax.
Definition div : float64 -> float64 -> float64 := SFdiv prec emax.

(** [x == y], [x <= y] and [x > y] of IEEE 754: false on NaN. *)
Definition eqb : float64 -> float64 -> bool := SFeqb.
Definition leb : float64 -> float64 -> bool := SFleb.
Definition gtb (x y : float64) : bool := SFltb y x.

Definition nan : float64 := S754_nan.

Definition is_nan (x : float64) : bool :=
  match x with S754_nan => true | _ => false end.

Definition is_finite (x : float64) : bool :=
  match x with
  | S754_zero _ | S754_finite _ _ _ => true
  | S754_infinity _ | S754_nan => false
  end.

(** The binary64 of an integer literal. *)
Definition of_Z (z : Z) : float64 := binary_normalize prec emax z 0 false.

(** The literal [1e-5]: the binary64 nearest to it,
    [0x1.4f8b588e368f1p-17]. *)
Definition eps : float64 := S754_finite false 5902958103587057 (-69).

Definition valid (x : float64) : bool := valid_binary prec emax x.

End F64.

Import F64.

(** ** Cells, columns and tables *)

Inductive cell : Type :=
  | Num (x : float64)
  | Str (s : string).

Definition Series := list cell.

Record DataFrame : Type := mkDataFrame {
  nrows : nat;
  columns : list (string * Series)
}.

Definition names (df : DataFrame) : list string := map fst (columns df).

(** Every column has one cell per row. *)
Definition well_formed (df : DataFrame) : Prop :=
  Forall (fun c => List.length (snd c) = nrows df) (columns df).

Definition is_num (c : cell) : bool :=
  match c with Num _ => true | Str _ => false end.

(** [pd.isna]. *)
Definition is_null (c : cell) : bool :=
  match c with Num x => is_nan x | Str _ => false end.

(** Equality of two cells as keys of a hash table or members of [isin]:
    numbers by [==] (so [0.0] and [-0.0] are one key), texts by content;
    a missing value is no key. *)
Definition cell_eqb (a b : cell) : bool :=
  match a, b with
  | Num x, Num y => F64.eqb x y
  | Str s, Str t => String.eqb s t
  | _, _ => false
  end.

(** ** Exceptions *)

(** Modelled from the spec: the class [CustomException] of
    [src/exception.py], which is not among the sources; the facility that
    "captures the original failure" and is raised to the caller.  It is
    an exception as the others are, and holds the exception it was made
    from.  [KeyError] is a column that is not there, [TypeError] a column
    of the wrong type, [OSError] a file that cannot be read or written. *)
Inductive Exception : Type :=
  | KeyError (label : string)
  | TypeError
  | OSError (path : string)
  | CustomException (cause : Exception).

Definition result (A : Type) : Type := (Exception + A)%type.

Definition ret {A} (a : A) : result A := inr a.
Definition raise {A} (e : Exception) : result A := inl e.

Definition bind {A B} (m : result A) (k : A -> result B) : result B :=
  match m with
  | inl e => inl e
  | inr a => k a
  end.

Notation "x <- m ;; k" := (bind m (fun x => k))
  (at level 61, m at next level, right associativity).

(** [try: ... except Exception as e: raise CustomException(e, sys)]. *)
Definition try_except {A} (m : result A) : result A :=
  match m with
  | inl e => inl (CustomException e)
  | inr a => inr a
  end.

(** ** Column access *)

Fixpoint lookup (n : string) (cs : list (string * Series)) : option Series :=
  match cs with
  | [] => None
  | (m, s) :: r => if String.eqb m n then Some s else lookup n r
  end.

(** [df[n]]. *)
Definition getitem (df : DataFrame) (n : string) : result Series :=
  match lookup n (columns df) with
  | Some s => ret s
  | None => raise (KeyError n)
  end.

Fixpoint assign (n : string) (s : Series) (cs : list (string * Series))
  : list (string * Series) :=
  match cs with
  | [] => [(n, s)]
  | (m, t) :: r =>
      if String.eqb m n then (n, s) :: r else (m, t) :: assign n s r
  end.

(** [df[n] = s]: the column is replaced where it stands, or added last. *)
Definition setitem (df : DataFrame) (n : string) (s : Series) : DataFrame :=
  mkDataFrame (nrows df) (assign n s (columns df)).

Definition mem (n : string) (l : list string) : bool :=
  existsb (String.eqb n) l.

Definition remove_columns (l : list string) (cs : list (string * Series))
  : list (string * Series) :=
  filter (fun c => negb (mem (fst c) l)) cs.

(** The first label of [l] that is no column of [cs]. *)
Fixpoint first_missing (l : list string) (cs : list (string * Series))
  : option string :=
  match l with
  | [] => None
  | n :: r =>
      match lookup n cs with
      | None => Some n
      | Some _ => first_missing r cs
      end
  end.

(** [df.drop(columns=l)]: a label that is no column is a [KeyError]. *)
Definition drop (df : DataFrame) (l : list string) : result DataFrame :=
  match first_missing l (columns df) with
  | Some n => raise (KeyError n)
  | None => ret (mkDataFrame (nrows df) (remove_columns l (columns df)))
  end.

(** The cells of a numeric column. *)
Fixpoint as_float64 (s : Series) : result (list float64) :=
  match s with
  | [] => ret []
  | Num x :: r => xs <- as_float64 r ;; ret (x :: xs)
  | Str _ :: _ => raise TypeError
  end.

Definition of_floats (xs : list float64) : Series := map Num xs.

(** Element-wise operation on two aligned columns. *)
Definition map2 {A B C} (f : A -> B -> C) (l1 : list A) (l2 : list B)
  : list C :=
  map (fun p => f (fst p) (snd p)) (combine l1 l2).

(** ** Step 1: room count (lines 69 to 74) *)

(** One row of
    [np.where(roomcnt > 0, roomcnt, bedroomcnt + bathroomcnt + 1)]. *)
Definition roomcnt_fixed (roomcnt bedroomcnt bathroomcnt : float64)
  : float64 :=
  if gtb roomcnt (of_Z 0) then roomcnt
  else add (add bedroomcnt bathroomcnt) (of_Z 1).

Definition roomcnt_fixed_col (room bed bath : list float64) : list float64 :=
  map2 (fun r alt => if gtb r (of_Z 0) then r else alt) room
       (map (fun x => add x (of_Z 1)) (map2 add bed bath)).

Definition fix_room_count (df : DataFrame) : result DataFrame :=
  s_room <- getitem df "roomcnt" ;;
  room <- as_float64 s_room ;;
  s_bed <- getitem df "bedroomcnt" ;;
  s_bath <- getitem df "bathroomcnt" ;;
  bed <- as_float64 s_bed ;;
  bath <- as_float64 s_bath ;;
  drop (setitem df "roomcnt_fixed" (of_floats (roomcnt_fixed_col room bed bath)))
       ["roomcnt"].

(** ** Step 2: garage area (lines 82 to 84) *)

(** One row of
    [df.loc[(garagetotalsqft == 0) & (garagecarcnt > 0), "garagetotalsqft"] = nan]. *)
Definition mark_sentinel (garagetotalsqft garagecarcnt : float64) : float64 :=
  if F64.eqb garagetotalsqft (of_Z 0) && gtb garagecarcnt (of_Z 0)
  then nan else garagetotalsqft.

Fixpoint insert_sorted (x : float64) (l : list float64) : list float64 :=
  match l with
  | [] => [x]
  | y :: r => if F64.leb x y then x :: l else y :: insert_sorted x r
  end.

Definition sort_floats (l : list float64) : list float64 :=
  fold_right insert_sorted [] l.

(** [x.median()]: missing values are skipped; the middle value of the
    rest, the mean of the two middle values when their number is even,
    NaN when there is none. *)
Definition median (xs : list float64) : float64 :=
  let v := sort_floats (filter (fun x => negb (is_nan x)) xs) in
  let n := List.length v in
  match n with
  | O => nan
  | _ =>
      if Nat.even n
      then div (add (nth (n / 2 - 1) v nan) (nth (n / 2) v nan)) (of_Z 2)
      else nth (n / 2) v nan
  end.

(** [x.fillna(v)] on one cell. *)
Definition fillna (x v : float64) : float64 :=
  if is_nan x then v else x.

(** The values of the rows whose key is [k]. *)
Definition group_values (keys vals : list float64) (k : float64)
  : list float64 :=
  map snd (filter (fun kv => F64.eqb (fst kv) k) (combine keys vals)).

(** [df.groupby(key)[val].transform(lambda x: x.fillna(x.median()))]:
    the rows are grouped by key; a row whose key is missing belongs to no
    group and has a missing result. *)
Definition groupby_fillna_median (keys vals : list float64) : list float64 :=
  map2 (fun k v =>
          if is_nan k then nan
          else fillna v (median (group_values keys vals k)))
       keys vals.

Definition clean_garage_col (sqft carcnt : list float64) : list float64 :=
  groupby_fillna_median carcnt (map2 mark_sentinel sqft carcnt).

Definition clean_garage_sqft (df : DataFrame) : result DataFrame :=
  s_sqft <- getitem df "garagetotalsqft" ;;
  s_car <- getitem df "garagecarcnt" ;;
  car <- as_float64 s_car ;;
  sqft <- as_float64 s_sqft ;;
  ret (setitem df "garagetotalsqft" (of_floats (clean_garage_col sqft car))).

(** ** Step 3: engineered features (lines 90 to 94) *)

(** [num / (den + 1e-5)]. *)
Definition ratio (num den : float64) : float64 := div num (add den eps).

(** [2025 - yearbuilt]. *)
Definition age_of_home (yearbuilt : float64) : float64 :=
  sub (of_Z 2025) yearbuilt.

(** [df[out] = df[num] / (df[den] + 1e-5)]. *)
Definition add_ratio (out num den : string) (df : DataFrame)
  : result DataFrame :=
  s_num <- getitem df num ;;
  s_den <- getitem df den ;;
  d <- as_float64 s_den ;;
  n <- as_float64 s_num ;;
  ret (setitem df out (of_floats (map2 ratio n d))).

Definition add_age_of_home (df : DataFrame) : result DataFrame :=
  s_year <- getitem df "yearbuilt" ;;
  year <- as_float64 s_year ;;
  ret (setitem df "age_of_home" (of_floats (map age_of_home year))).

Definition engineered_features (df : DataFrame) : result DataFrame :=
  df <- add_ratio "price_per_sqft" "taxvaluedollarcnt"
                  "calculatedfinishedsquarefeet" df ;;
  df <- add_age_of_home df ;;
  df <- add_ratio "bath_per_bed" "bathroomcnt" "bedroomcnt" df ;;
  df <- add_ratio "rooms_per_sqft" "roomcnt_fixed"
                  "calculatedfinishedsquarefeet" df ;;
  add_ratio "garage_sqft_ratio" "garagetotalsqft"
            "calculatedfinishedsquarefeet" df.

(** ** Step 4: binary flags (lines 100 to 102) *)

(** [b.astype(int)]. *)
Definition of_bool (b : bool) : float64 := if b then of_Z 1 else of_Z 0.

(** One row of [(unitcnt > 1).astype(int)]. *)
Definition multi_unit (unitcnt : float64) : float64 :=
  of_bool (gtb unitcnt (of_Z 1)).

(** One row of
    [((garagecarcnt.fillna(0) > 0) | (garagetotalsqft.fillna(0) > 0)).astype(int)]. *)
Definition has_garage (garagecarcnt garagetotalsqft : float64) : float64 :=
  of_bool (gtb (fillna garagecarcnt (of_Z 0)) (of_Z 0)
           || gtb (fillna garagetotalsqft (of_Z 0)) (of_Z 0)).

Definition binary_flags (df : DataFrame) : result DataFrame :=
  s_unit <- getitem df "unitcnt" ;;
  unit <- as_float64 s_unit ;;
  let df := setitem df "multi_unit" (of_floats (map multi_unit unit)) in
  s_car <- getitem df "garagecarcnt" ;;
  car <- as_float64 s_car ;;
  s_sqft <- getitem df "garagetotalsqft" ;;
  sqft <- as_float64 s_sqft ;;
  ret (setitem df "has_garage" (of_floats (map2 has_garage car sqft))).

(** ** Steps 5 to 9: encodings (lines 108 to 145) *)

(** The distinct values of a column in the order of their first
    appearance, missing values left out. *)
Fixpoint uniques (s : Series) : list cell :=
  match s with
  | [] => []
  | c :: r =>
      if is_null c then uniques r
      else c :: filter (fun d => negb (cell_eqb c d)) (uniques r)
  end.

Definition count_cell (c : cell) (s : Series) : nat :=
  List.length (filter (cell_eqb c) s).

Fixpoint insert_count (x : cell * nat) (l : list (cell * nat))
  : list (cell * nat) :=
  match l with
  | [] => [x]
  | y :: r => if Nat.leb (snd y) (snd x) then x :: l else y :: insert_count x r
  end.

(** Descending by count; values of one count stay in the order of their
    first appearance. *)
Definition sort_counts (l : list (cell * nat)) : list (cell * nat) :=
  fold_right insert_count [] l.

(** [s.value_counts()]: the count of each value, most frequent first. *)
Definition value_counts (s : Series) : list (cell * nat) :=
  sort_counts (map (fun c => (c, count_cell c s)) (uniques s)).

(** [s.value_counts().nlargest(k).index]. *)
Definition top_values (k : nat) (s : Series) : list cell :=
  map fst (firstn k (value_counts s)).

(** One cell of [s.isin(top)]. *)
Definition isin (c : cell) (top : list cell) : bool :=
  existsb (cell_eqb c) top.

Definition is_object (s : Series) : bool :=
  existsb (fun c => negb (is_num c)) s.

(** Order of the levels of a categorical: numbers ascending, then texts
    in lexicographic order. *)
Definition cell_leb (a b : cell) : bool :=
  match a, b with
  | Num x, Num y => F64.leb x y
  | Num _, Str _ => true
  | Str _, Num _ => false
  | Str s, Str t => String.leb s t
  end.

Fixpoint insert_cell (x : cell) (l : list cell) : list cell :=
  match l with
  | [] => [x]
  | y :: r => if cell_leb x y then x :: l else y :: insert_cell x r
  end.

Definition sort_cells (l : list cell) : list cell :=
  fold_right insert_cell [] l.

(** The categories [pd.get_dummies] finds in a column. *)
Definition levels (s : Series) : list cell := sort_cells (uniques s).

Section Encoding.

(** The text Python prints for a number, as in [f"{prefix}_{level}"] and
    in numpy's conversion of a number to a text. *)
Variable str_of_float : float64 -> string.

Definition cell_str (c : cell) : string :=
  match c with
  | Num x => str_of_float x
  | Str s => s
  end.

(** [np.where(s.isin(top), s, -1)]. *)
Definition where_isin_minus_one (top : list cell) (s : Series) : Series :=
  map (fun c => if isin c top then c else Num (of_Z (-1))) s.

(** [np.where(s.isin(top), s, "other")]: on a numeric column numpy turns
    every number it keeps into its text; an object column keeps its
    cells. *)
Definition where_isin_other (top : list cell) (s : Series) : Series :=
  if is_object s
  then map (fun c => if isin c top then c else Str "other") s
  else map (fun c => Str (if isin c top then cell_str c else "other")) s.

Definition dummy_name (prefix : string) (level : cell) : string :=
  (prefix ++ "_" ++ cell_str level)%string.

Definition indicator (level : cell) (s : Series) : Series :=
  map (fun c => Num (of_bool (cell_eqb c level))) s.

(** The indicator columns of one column with [drop_first=True]: one for
    each category but the first; a missing cell is 0 in each. *)
Definition dummies_1d (prefix : string) (s : Series)
  : list (string * Series) :=
  map (fun level => (dummy_name prefix level, indicator level s))
      (tl (levels s)).

Definition dummies_of (cs : list (string * Series)) (n : string)
  : list (string * Series) :=
  match lookup n cs with
  | Some s => dummies_1d n s
  | None => []
  end.

(** [pd.get_dummies(df, columns=l, drop_first=True)]: the columns of [l]
    are taken out and their indicator columns are added last. *)
Definition get_dummies (df : DataFrame) (l : list string)
  : result DataFrame :=
  match first_missing l (columns df) with
  | Some n => raise (KeyError n)
  | None =>
      ret (mkDataFrame (nrows df)
             (remove_columns l (columns df)
              ++ flat_map (dummies_of (columns df)) l))
  end.

(** One round of the loop over the region identifiers (lines 110 to
    112): the reduced column is set under the name [col + "_top"] and that
    column is the one [get_dummies] encodes. *)
Definition encode_top_k (col : string) (k : nat) (df : DataFrame)
  : result DataFrame :=
  s <- getitem df col ;;
  let top_vals := top_values k s in
  let df := setitem df (col ++ "_top")%string (where_isin_minus_one top_vals s) in
  get_dummies df [(col ++ "_top")%string].

(** The land-use steps (lines 118 to 121 and 127 to 130). *)
Definition encode_top_k_other (col new : string) (k : nat) (df : DataFrame)
  : result DataFrame :=
  s <- getitem df col ;;
  let top := top_values k s in
  let df := setitem df new (where_isin_other top s) in
  get_dummies df [new].

Definition low_card : list string :=
  ["airconditioningtypeid"; "heatingorsystemtypeid"; "fips";
   "regionidcounty"].

(** Lines 143 to 145. *)
Definition drop_messy (df : DataFrame) : result DataFrame :=
  if mem "propertyzoningdesc" (names df)
  then drop df ["propertyzoningdesc"]
  else ret df.

Definition encode_categoricals (df : DataFrame) : result DataFrame :=
  df <- encode_top_k "regionidcity" 50 df ;;
  df <- encode_top_k "regionidzip" 50 df ;;
  df <- encode_top_k "regionidneighborhood" 50 df ;;
  df <- encode_top_k_other "propertycountylandusecode"
                           "propertycountylanduse_top" 15 df ;;
  df <- encode_top_k_other "propertylandusetypeid"
                           "propertylandusetype_top" 5 df ;;
  df <- get_dummies df low_card ;;
  drop_messy df.

(** ** The transformation *)

(** The table before its categorical columns are encoded. *)
Definition clean_and_derive (df : DataFrame) : result DataFrame :=
  df <- fix_room_count df ;;
  df <- clean_garage_sqft df ;;
  df <- engineered_features df ;;
  binary_flags df.

Definition feature_engineering_body (df : DataFrame) : result DataFrame :=
  df <- clean_and_derive df ;;
  encode_categoricals df.

Definition feature_engineering (df : DataFrame) : result DataFrame :=
  try_except (feature_engineering_body df).

(** ** The pipeline (lines 165 to 194) *)

Definition target_col : string := "taxvaluedollarcnt".
Definition transformed_train_path : string := "artifacts/train_transformed.csv".
Definition transformed_test_path : string := "artifacts/test_transformed.csv".
Definition artifacts_dir : string := "artifacts".

(** [pd.concat([X, y], axis=1)]. *)
Definition concat_target (X : DataFrame) (y : Series) : DataFrame :=
  mkDataFrame (nrows X) (columns X ++ [(target_col, y)]).

Section Pipeline.

(** The file system and the functions of pandas and [os] that reach it:
    the state of the files, [pd.read_csv], [os.makedirs] with
    [exist_ok=True] and [DataFrame.to_csv]. *)
Variable World : Type.
Variable read_csv : string -> World -> result DataFrame.
Variable makedirs : string -> World -> result World.
Variable to_csv : DataFrame -> string -> World -> result World.

Definition Outputs : Type := (DataFrame * DataFrame * Series * Series)%type.

(** The body of the [try] block; the world it leaves is the one of the
    last write that succeeded. *)
Definition initiate_body (train_path test_path : string) (w : World)
  : World * result Outputs :=
  match read_csv train_path w with
  | inl e => (w, inl e)
  | inr train_df =>
  match read_csv test_path w with
  | inl e => (w, inl e)
  | inr test_df =>
  match feature_engineering train_df with
  | inl e => (w, inl e)
  | inr train_df =>
  match feature_engineering test_df with
  | inl e => (w, inl e)
  | inr test_df =>
  match drop train_df [target_col], getitem train_df target_col with
  | inl e, _ | _, inl e => (w, inl e)
  | inr X_train, inr y_train =>
  match drop test_df [target_col], getitem test_df target_col with
  | inl e, _ | _, inl e => (w, inl e)
  | inr X_test, inr y_test =>
  match makedirs artifacts_dir w with
  | inl e => (w, inl e)
  | inr w1 =>
  match to_csv (concat_target X_train y_train) transformed_train_path w1 with
  | inl e => (w1, inl e)
  | inr w2 =>
  match to_csv (concat_target X_test y_test) transformed_test_path w2 with
  | inl e => (w2, inl e)
  | inr w3 => (w3, inr (X_train, X_test, y_train, y_test))
  end end end end end end end end end.

Definition initiate_data_transformation (train_path test_path : string)
  (w : World) : World * result Outputs :=
  let (w', r) := initiate_body train_path test_path w in
  (w', try_except r).

End Pipeline.

End Encoding.

(** ** The table that is passed in

    The statements of [feature_engineering] before the first
    [pd.get_dummies] (lines 69 to 111) work on the table they are given:
    each sets a column of it, or drops one with [inplace=True].
    [pd.get_dummies] (line 112) returns a table of its own, and [df] is
    that table from then on.  So the table of the caller is left as the
    last of these statements that completed has left it, whether the
    function returns or raises. *)

Definition statement : Type := DataFrame -> result DataFrame.

(** Lines 69 to 73. *)
Definition set_roomcnt_fixed : statement := fun df =>
  s_room <- getitem df "roomcnt" ;;
  room <- as_float64 s_room ;;
  s_bed <- getitem df "bedroomcnt" ;;
  s_bath <- getitem df "bathroomcnt" ;;
  bed <- as_float64 s_bed ;;
  bath <- as_float64 s_bath ;;
  ret (setitem df "roomcnt_fixed"
         (of_floats (roomcnt_fixed_col room bed bath))).

(** Line 74. *)
Definition drop_roomcnt : statement := fun df => drop df ["roomcnt"].

(** One cell of line 82; a text is not [== 0]. *)
Definition mark_cell (c : cell) (garagecarcnt : float64) : cell :=
  match c with
  | Num g => Num (mark_sentinel g garagecarcnt)
  | Str _ => c
  end.

(** Line 82. *)
Definition mark_garagetotalsqft : statement := fun df =>
  s_sqft <- getitem df "garagetotalsqft" ;;
  s_car <- getitem df "garagecarcnt" ;;
  car <- as_float64 s_car ;;
  ret (setitem df "garagetotalsqft" (map2 mark_cell s_sqft car)).

(** Lines 83 and 84. *)
Definition impute_garagetotalsqft : statement := fun df =>
  s_car <- getitem df "garagecarcnt" ;;
  s_sqft <- getitem df "garagetotalsqft" ;;
  car <- as_float64 s_car ;;
  sqft <- as_float64 s_sqft ;;
  ret (setitem df "garagetotalsqft"
         (of_floats (groupby_fillna_median car sqft))).

(** Line 100. *)
Definition set_multi_unit : statement := fun df =>
  s_unit <- getitem df "unitcnt" ;;
  unit <- as_float64 s_unit ;;
  ret (setitem df "multi_unit" (of_floats (map multi_unit unit))).

(** Lines 101 and 102. *)
Definition set_has_garage : statement := fun df =>
  s_car <- getitem df "garagecarcnt" ;;
  car <- as_float64 s_car ;;
  s_sqft <- getitem df "garagetotalsqft" ;;
  sqft <- as_float64 s_sqft ;;
  ret (setitem df "has_garage" (of_floats (map2 has_garage car sqft))).

(** Lines 110 and 111, in the first round of the loop. *)
Definition set_regionidcity_top : statement := fun df =>
  s <- getitem df "regionidcity" ;;
  ret (setitem df "regionidcity_top"
         (where_isin_minus_one (top_values 50 s) s)).

Definition in_place_statements : list statement :=
  [set_roomcnt_fixed; drop_roomcnt;
   mark_garagetotalsqft; impute_garagetotalsqft;
   add_ratio "price_per_sqft" "taxvaluedollarcnt"
             "calculatedfinishedsquarefeet";
   add_age_of_home;
   add_ratio "bath_per_bed" "bathroomcnt" "bedroomcnt";
   add_ratio "rooms_per_sqft" "roomcnt_fixed" "calculatedfinishedsquarefeet";
   add_ratio "garage_sqft_ratio" "garagetotalsqft"
             "calculatedfinishedsquarefeet";
   set_multi_unit; set_has_garage;
   set_regionidcity_top].

(** The statements on one table, until one raises: the table as it is
    left, and the exception if there is one. *)
Fixpoint run_in_place (stmts : list statement) (df : DataFrame)
  : DataFrame * option Exception :=
  match stmts with
  | [] => (df, None)
  | st :: rest =>
      match st df with
      | inl e => (df, Some e)
      | inr df' => run_in_place rest df'
      end
  end.

(** The table given to [feature_engineering], after the call. *)
Definition argument_after (df : DataFrame) : DataFrame :=
  fst (run_in_place in_place_statements df).

(** ** Sample tables

    A printer of numbers and small tables on which the transformation is
    run below.  [show_float] prints an integral value as Python does
    (["261.0"]); the examples hold no other value in an encoded column. *)

Module Sample.

(** The integer a binary64 holds, when it holds one. *)
Definition integral (x : float64) : option Z :=
  match x with
  | S754_zero _ => Some 0%Z
  | S754_finite s m e =>
      let v := if s then Z.neg m else Z.pos m in
      if (0 <=? e)%Z then Some (v * 2 ^ e)%Z
      else if (Z.pos m mod 2 ^ (- e) =? 0)%Z then Some (v / 2 ^ (- e))%Z
      else None
  | S754_infinity _ | S754_nan => None
  end.

Definition show_float (x : float64) : string :=
  match x with
  | S754_nan => "nan"
  | S754_infinity s => if s then "-inf" else "inf"
  | _ =>
      match integral x with
      | Some z => NilZero.string_of_int (Z.to_int z) ++ ".0"
      | None => "?"
      end
  end%string.

Definition N (z : Z) : cell := Num (of_Z z).
Definition NaN : cell := Num nan.

(** A table of three rows with every column the transformation reads. *)
Definition train : DataFrame := mkDataFrame 3
  [("roomcnt", [N 0; N 5; NaN]);
   ("bedroomcnt", [N 2; N 3; N 1]);
   ("bathroomcnt", [N 1; N 2; N 1]);
   ("garagetotalsqft", [N 0; N 400; N 600]);
   ("garagecarcnt", [N 2; N 2; N 2]);
   ("taxvaluedollarcnt", [N 100000; N 200000; NaN]);
   ("calculatedfinishedsquarefeet", [N 0; N 1000; N 0]);
   ("yearbuilt", [N 2000; N 1990; NaN]);
   ("unitcnt", [NaN; N 2; N 1]);
   ("regionidcity", [N 12447; N 12447; N 5534]);
   ("regionidzip", [N 96370; N 96371; N 96370]);
   ("regionidneighborhood", [NaN; NaN; N 27080]);
   ("propertycountylandusecode", [Str "0100"; Str "010C"; Str "0100"]);
   ("propertylandusetypeid", [N 261; N 261; N 266]);
   ("airconditioningtypeid", [N 1; NaN; N 13]);
   ("heatingorsystemtypeid", [N 2; N 2; N 7]);
   ("fips", [N 6037; N 6059; N 6037]);
   ("regionidcounty", [N 3101; N 1286; N 3101]);
   ("propertyzoningdesc", [Str "LAR1"; Str "LAR3"; NaN])].

(** A table of two rows. *)
Definition test : DataFrame := mkDataFrame 2
  [("roomcnt", [N 6; N 0]);
   ("bedroomcnt", [N 3; N 2]);
   ("bathroomcnt", [N 2; N 1]);
   ("garagetotalsqft", [N 300; N 0]);
   ("garagecarcnt", [N 0; NaN]);
   ("taxvaluedollarcnt", [N 350000; N 120000]);
   ("calculatedfinishedsquarefeet", [N 1500; N 800]);
   ("yearbuilt", [N 1975; N 2010]);
   ("unitcnt", [N 1; NaN]);
   ("regionidcity", [N 12447; N 5534]);
   ("regionidzip", [N 96370; N 96371]);
   ("regionidneighborhood", [NaN; N 27080]);
   ("propertycountylandusecode", [Str "0100"; Str "0101"]);
   ("propertylandusetypeid", [N 261; N 266]);
   ("airconditioningtypeid", [N 1; N 13]);
   ("heatingorsystemtypeid", [N 2; N 7]);
   ("fips", [N 6037; N 6059]);
   ("regionidcounty", [N 3101; N 1286]);
   ("propertyzoningdesc", [Str "LAR1"; Str "LAR3"])].

Definition out_of (df : DataFrame) : DataFrame :=
  match feature_engineering show_float df with
  | inr out => out
  | inl _ => mkDataFrame 0 []
  end.

Definition train_out : DataFrame := Eval vm_compute in out_of train.
Definition test_out : DataFrame := Eval vm_compute in out_of test.

(** Seven land-use types of counts 7, 6, 5, 4, 3, 2 and 1. *)
Definition landuse_types : Series :=
  repeat (N 261) 7 ++ repeat (N 266) 6 ++ repeat (N 246) 5
  ++ repeat (N 269) 4 ++ repeat (N 248) 3 ++ repeat (N 247) 2
  ++ repeat (N 31) 1.

Definition landuse : DataFrame :=
  mkDataFrame 28 [("propertylandusetypeid", landuse_types)].

Definition landuse_out : DataFrame :=
  Eval vm_compute in
    match encode_top_k_other show_float "propertylandusetypeid"
            "propertylandusetype_top" 5 landuse with
    | inr out => out
    | inl _ => mkDataFrame 0 []
    end.

(** Files held in memory: reading a path that holds no table fails,
    writing a table adds it. *)
Definition Files : Type := list (string * DataFrame).

Fixpoint find_file (path : string) (w : Files) : option DataFrame :=
  match w with
  | [] => None
  | (p, df) :: r => if String.eqb p path then Some df else find_file path r
  end.

Definition read_csv (path : string) (w : Files) : result DataFrame :=
  match find_file path w with
  | Some df => ret df
  | None => raise (OSError path)
  end.

Definition makedirs (path : string) (w : Files) : result Files := ret w.

Definition to_csv (df : DataFrame) (path : string) (w : Files)
  : result Files :=
  ret ((path, df) :: w).

Definition files : Files := [("train.csv", train); ("test.csv", test)].

End Sample.

(** * Properties *)

(** ** The error monad *)

Lemma bind_inr {A B} (m : result A) (k : A -> result B) (b : B) :
  bind m k = inr b -> exists a, m = inr a /\ k a = inr b.
Proof.
  destruct m as [e | a]; simpl; intros H; [discriminate | eauto].
Qed.

Lemma try_except_inr {A} (m : result A) (a : A) :
  try_except m = inr a <-> m = inr a.
Proof.
  destruct m; simpl; split; intros H; congruence.
Qed.

Lemma try_except_inl {A} (m : result A) (err : Exception) :
  try_except m = inl err <-> exists e, err = CustomException e /\ m = inl e.
Proof.
  destruct m as [e | a]; simpl; split.
  - intros H; inversion H; eauto.
  - intros (e' & -> & H); congruence.
  - discriminate.
  - intros (e' & _ & H); discriminate.
Qed.

(** Splits a successful chain of steps into its steps. *)
Ltac inv_bind H :=
  repeat match type of H with
  | bind _ _ = inr _ =>
      let a := fresh "a" in
      let Ha := fresh "Ha" in
      apply bind_inr in H; destruct H as (a & Ha & H)
  end.

(** ** Columns by name *)

Lemma lookup_assign_same n s cs : lookup n (assign n s cs) = Some s.
Proof.
  induction cs as [| [m t] r IH]; simpl.
  - now rewrite String.eqb_refl.
  - destruct (String.eqb m n) eqn:E; simpl.
    + now rewrite String.eqb_refl.
    + now rewrite E.
Qed.

Lemma lookup_assign_other n m s cs :
  String.eqb m n = false -> lookup n (assign m s cs) = lookup n cs.
Proof.
  intros Hmn; induction cs as [| [k t] r IH]; simpl.
  - now rewrite Hmn.
  - destruct (String.eqb k m) eqn:E; simpl.
    + apply String.eqb_eq in E; subst k. now rewrite Hmn.
    + now rewrite IH.
Qed.

Lemma lookup_remove_other n l cs :
  mem n l = false -> lookup n (remove_columns l cs) = lookup n cs.
Proof.
  intros Hn; induction cs as [| [k t] r IH]; simpl; [reflexivity |].
  destruct (mem k l) eqn:E; simpl.
  - destruct (String.eqb k n) eqn:Ek; [| exact IH].
    apply String.eqb_eq in Ek; subst k; congruence.
  - now rewrite IH.
Qed.

Lemma lookup_remove_same n l cs :
  mem n l = true -> lookup n (remove_columns l cs) = None.
Proof.
  intros Hn; induction cs as [| [k t] r IH]; simpl; [reflexivity |].
  destruct (mem k l) eqn:E; simpl; [exact IH |].
  destruct (String.eqb k n) eqn:Ek; [| exact IH].
  apply String.eqb_eq in Ek; subst k; congruence.
Qed.

Lemma lookup_app n cs ds :
  lookup n (cs ++ ds) =
  match lookup n cs with Some s => Some s | None => lookup n ds end.
Proof.
  induction cs as [| [k t] r IH]; simpl; [reflexivity |].
  now destruct (String.eqb k n).
Qed.

Lemma lookup_None n cs : lookup n cs = None <-> ~ In n (map fst cs).
Proof.
  induction cs as [| [k t] r IH]; simpl.
  - split; [intros _ [] | reflexivity].
  - destruct (String.eqb k n) eqn:E.
    + apply String.eqb_eq in E; subst; split; [discriminate | tauto].
    + apply String.eqb_neq in E; rewrite IH; tauto.
Qed.

Lemma lookup_In n s cs : lookup n cs = Some s -> In (n, s) cs.
Proof.
  induction cs as [| [k t] r IH]; simpl; [discriminate |].
  destruct (String.eqb k n) eqn:E.
  - apply String.eqb_eq in E; subst; intros H; inversion H; auto.
  - auto.
Qed.

Lemma In_assign c n s cs :
  In c (assign n s cs) -> c = (n, s) \/ In c cs.
Proof.
  induction cs as [| [k t] r IH]; simpl.
  - intros [H | []]; left; now symmetry.
  - destruct (String.eqb k n); simpl.
    + intros [H | H]; [left; now symmetry | right; now right].
    + intros [H | H]; [right; now left |].
      destruct (IH H); [now left | right; now right].
Qed.

Lemma In_remove_columns c l cs :
  In c (remove_columns l cs) <-> In c cs /\ mem (fst c) l = false.
Proof.
  unfold remove_columns; rewrite filter_In, negb_true_iff; reflexivity.
Qed.

Lemma getitem_inr df n s : getitem df n = inr s <-> lookup n (columns df) = Some s.
Proof.
  unfold getitem, ret, raise; destruct (lookup n (columns df)); split;
    intros H; inversion H; reflexivity.
Qed.

Lemma drop_inr df l df' :
  drop df l = inr df' ->
  df' = mkDataFrame (nrows df) (remove_columns l (columns df)).
Proof.
  unfold drop, ret, raise; destruct (first_missing l (columns df));
    intros H; inversion H; reflexivity.
Qed.

Lemma as_float64_inr s xs : as_float64 s = inr xs -> s = of_floats xs.
Proof.
  revert xs; induction s as [| [x | t] r IH]; simpl; intros xs H.
  - inversion H; reflexivity.
  - apply bind_inr in H; destruct H as (ys & Hys & H).
    inversion H; subst; simpl; f_equal; auto.
  - discriminate.
Qed.

Lemma as_float64_of_floats xs : as_float64 (of_floats xs) = inr xs.
Proof.
  induction xs as [| x r IH]; simpl; [reflexivity |].
  now rewrite IH.
Qed.

Lemma of_floats_length xs : List.length (of_floats xs) = List.length xs.
Proof. apply length_map. Qed.

Lemma map2_length {A B C} (f : A -> B -> C) l1 l2 :
  List.length (map2 f l1 l2) = Nat.min (List.length l1) (List.length l2).
Proof. unfold map2; now rewrite length_map, length_combine. Qed.

Lemma nth_error_map2 {A B C} (f : A -> B -> C) l1 l2 i a b :
  nth_error l1 i = Some a -> nth_error l2 i = Some b ->
  nth_error (map2 f l1 l2) i = Some (f a b).
Proof.
  revert l2 i; induction l1 as [| x r IH]; intros [| y t] [| i]; simpl;
    try discriminate.
  - intros H1 H2; inversion H1; inversion H2; reflexivity.
  - apply IH.
Qed.

Lemma well_formed_lookup df n s :
  well_formed df -> lookup n (columns df) = Some s ->
  List.length s = nrows df.
Proof.
  intros Hwf H; apply lookup_In in H.
  unfold well_formed in Hwf; rewrite Forall_forall in Hwf.
  exact (Hwf _ H).
Qed.

(** ** Rounding to binary64

    A quotient by [1e-5] overflows only for a dividend of magnitude
    [2^1006] or more. *)

Section Rounding.

Local Open Scope Z_scope.

Lemma digits2_pos_bounds p :
  2 ^ (Zpos (digits2_pos p) - 1) <= Zpos p < 2 ^ Zpos (digits2_pos p).
Proof.
  induction p as [p IH | p IH |]; simpl digits2_pos.
  - rewrite Pos2Z.inj_succ.
    replace (Z.succ (Zpos (digits2_pos p)) - 1) with (Z.succ (Zpos (digits2_pos p) - 1)) by lia.
    rewrite !Z.pow_succ_r by lia. lia.
  - rewrite Pos2Z.inj_succ.
    replace (Z.succ (Zpos (digits2_pos p)) - 1) with (Z.succ (Zpos (digits2_pos p) - 1)) by lia.
    rewrite !Z.pow_succ_r by lia. lia.
  - simpl. lia.
Qed.

Lemma Zdigits2_nonneg n : 0 <= Zdigits2 n.
Proof. destruct n; simpl; lia. Qed.

Lemma Zdigits2_gt n : 0 <= n -> n < 2 ^ Zdigits2 n.
Proof.
  destruct n as [| p | p]; simpl; intros H; try lia.
  apply digits2_pos_bounds.
Qed.

Lemma Zdigits2_le n k : 0 <= n -> 0 <= k -> n < 2 ^ k -> Zdigits2 n <= k.
Proof.
  destruct n as [| p | p]; simpl; intros Hn Hk H; try lia.
  destruct (digits2_pos_bounds p) as [Hlo _].
  assert (2 ^ (Zpos (digits2_pos p) - 1) < 2 ^ k) by lia.
  apply Z.pow_lt_mono_r_iff in H0; lia.
Qed.

Lemma shr_1_m r : 0 <= shr_m r -> shr_m (shr_1 r) = shr_m r / 2.
Proof.
  destruct r as [m b s]; simpl; intros H.
  destruct m as [| [p | p |] | p]; simpl; try lia; try reflexivity.
  - rewrite Pos2Z.inj_xI. apply Z.div_unique with 1; lia.
  - rewrite Pos2Z.inj_xO. apply Z.div_unique with 0; lia.
Qed.

Lemma iter_shr_1_m p : forall r,
  0 <= shr_m r -> shr_m (iter_pos shr_1 p r) = shr_m r / 2 ^ Zpos p.
Proof.
  induction p as [p IH | p IH |]; intros r Hr; simpl iter_pos.
  - assert (H1 : 0 <= shr_m (shr_1 r)) by (rewrite shr_1_m by assumption; apply Z.div_pos; lia).
    assert (H2 : 0 <= shr_m (iter_pos shr_1 p (shr_1 r))) by (rewrite IH by assumption; apply Z.div_pos; lia).
    rewrite IH, IH, shr_1_m by assumption.
    rewrite !Z.div_div by lia.
    f_equal. rewrite Pos2Z.inj_xI. rewrite <- !Z.pow_add_r by lia. rewrite <- Z.pow_succ_r by lia. f_equal; lia.
  - assert (H2 : 0 <= shr_m (iter_pos shr_1 p r)) by (rewrite IH by assumption; apply Z.div_pos; lia).
    rewrite IH, IH by assumption.
    rewrite !Z.div_div by lia.
    f_equal. rewrite Pos2Z.inj_xO. rewrite <- !Z.pow_add_r by lia. f_equal; lia.
  - rewrite shr_1_m by assumption. reflexivity.
Qed.

Definition fx : Z -> Z := fexp 53 1024.

Lemma fexp_le x : fx x = Z.max (x - 53) (-1074).
Proof. reflexivity. Qed.

Lemma shr_record_of_loc_m m l : shr_m (shr_record_of_loc m l) = m.
Proof. destruct l as [| []]; reflexivity. Qed.

Lemma Zdigits2_div_pow m p :
  0 <= m ->
  0 <= m / 2 ^ Zpos p /\
  Zdigits2 (m / 2 ^ Zpos p) <= Z.max (Zdigits2 m - Zpos p) 0.
Proof.
  intros Hm.
  assert (Hp : 0 < 2 ^ Zpos p) by (apply Z.pow_pos_nonneg; lia).
  split; [apply Z.div_pos; lia |].
  pose proof (Zdigits2_gt m Hm) as Hd.
  pose proof (Zdigits2_nonneg m) as Hd0.
  destruct (Z_le_gt_dec (Zpos p) (Zdigits2 m)) as [Hle | Hgt].
  - rewrite Z.max_l by lia.
    apply Zdigits2_le; [apply Z.div_pos; lia | lia |].
    apply Z.div_lt_upper_bound; [lia |].
    rewrite <- Z.pow_add_r by lia.
    now replace (Zpos p + (Zdigits2 m - Zpos p)) with (Zdigits2 m) by lia.
  - rewrite Z.div_small; [simpl; lia |].
    split; [lia |].
    apply Z.lt_le_trans with (2 ^ Zdigits2 m); [exact Hd |].
    apply Z.pow_le_mono_r; lia.
Qed.

Lemma shr_fexp_bounds m e l :
  0 <= m ->
  0 <= shr_m (fst (shr_fexp 53 1024 m e l)) /\
  Zdigits2 (shr_m (fst (shr_fexp 53 1024 m e l))) + snd (shr_fexp 53 1024 m e l)
    <= Z.max (Zdigits2 m + e) (fx (Zdigits2 m + e)) /\
  snd (shr_fexp 53 1024 m e l) <= Z.max e (fx (Zdigits2 m + e)).
Proof.
  intros Hm; unfold shr_fexp, shr; fold fx.
  destruct (fx (Zdigits2 m + e) - e) as [| p | p] eqn:E; simpl fst; simpl snd;
    rewrite ?shr_record_of_loc_m; try (repeat split; lia).
  rewrite iter_shr_1_m by (rewrite shr_record_of_loc_m; exact Hm).
  rewrite shr_record_of_loc_m.
  destruct (Zdigits2_div_pow m p Hm) as [H0 H1].
  repeat split; lia.
Qed.

Lemma round_nearest_even_bounds m l :
  m <= round_nearest_even m l <= m + 1.
Proof.
  destruct l as [| []]; simpl; try lia.
  destruct (Z.even m); lia.
Qed.

Lemma Zdigits2_succ_le m n : 0 <= m -> m <= n <= m + 1 -> Zdigits2 n <= Zdigits2 m + 1.
Proof.
  intros Hm Hn.
  pose proof (Zdigits2_gt m Hm) as Hd.
  pose proof (Zdigits2_nonneg m) as Hd0.
  apply Zdigits2_le; [lia | lia |].
  replace (Zdigits2 m + 1) with (Z.succ (Zdigits2 m)) by lia.
  rewrite Z.pow_succ_r by lia; lia.
Qed.

Lemma binary_round_aux_finite sx mx ex lx :
  0 <= mx -> ex <= 971 -> Zdigits2 mx + ex <= 1023 ->
  match binary_round_aux 53 1024 sx mx ex lx with
  | S754_zero _ | S754_finite _ _ _ => True
  | _ => False
  end.
Proof.
  intros Hm He Hd; unfold binary_round_aux.
  pose proof (shr_fexp_bounds mx ex lx Hm) as (A0 & A1 & A2).
  destruct (shr_fexp 53 1024 mx ex lx) as [mrs' e'] eqn:E1.
  simpl fst in *; simpl snd in *.
  pose proof (round_nearest_even_bounds (shr_m mrs') (loc_of_shr_record mrs')) as Hr.
  set (mx1 := round_nearest_even (shr_m mrs') (loc_of_shr_record mrs')) in *.
  assert (H1 : 0 <= mx1) by lia.
  pose proof (Zdigits2_succ_le _ _ A0 Hr) as Hd1.
  pose proof (shr_fexp_bounds mx1 e' loc_Exact H1) as (B0 & B1 & B2).
  destruct (shr_fexp 53 1024 mx1 e' loc_Exact) as [mrs'' e''] eqn:E2.
  simpl fst in *; simpl snd in *.
  rewrite fexp_le in *.
  destruct (shr_m mrs'') as [| p | p]; [exact I | | lia].
  assert (Hle : e'' <= 971) by lia.
  apply Z.leb_le in Hle.
  change (Z.sub 1024 53) with 971. now rewrite Hle.
Qed.

Lemma div_by_eps_finite s m e :
  Zpos (digits2_pos m) + e <= 1006 ->
  match div (S754_finite s m e) eps with
  | S754_zero _ | S754_finite _ _ _ => True
  | _ => False
  end.
Proof.
  intros Hv; unfold div, F64.prec, F64.emax, eps, SFdiv, SFdiv_core_binary.
  change (Zdigits2 (Zpos 5902958103587057)) with 53.
  change (Zdigits2 (Zpos m)) with (Zpos (digits2_pos m)).
  fold fx.
  set (d1 := Zpos (digits2_pos m)) in *.
  set (e' := Z.min (fx (d1 + e - (53 + -69))) (e - -69)).
  set (sh := e - -69 - e').
  set (m' := match sh with Z0 => Zpos m | Zpos _ => Z.shiftl (Zpos m) sh | Zneg _ => 0 end).
  assert (He' : e' <= 969 /\ e' <= e + 69).
  { unfold e'; rewrite fexp_le; lia. }
  assert (Hsh : 0 <= sh) by (unfold sh; lia).
  assert (Hm' : m' = Zpos m * 2 ^ sh).
  { unfold m'; destruct sh as [| p | p] eqn:E; [simpl; lia | | lia].
    now rewrite Z.shiftl_mul_pow2 by lia. }
  destruct (Z.div_eucl m' (Zpos 5902958103587057)) as [q r] eqn:E.
  assert (Hq : q = m' / Zpos 5902958103587057) by (unfold Z.div; now rewrite E).
  destruct (digits2_pos_bounds m) as [_ Hhi]; fold d1 in Hhi.
  assert (Hd1 : 0 < d1) by (unfold d1; lia).
  assert (Hpow : 0 < 2 ^ sh) by (apply Z.pow_pos_nonneg; lia).
  assert (Hm'0 : 0 <= m') by (rewrite Hm'; lia).
  assert (Hm'hi : m' < 2 ^ (d1 + sh)).
  { rewrite Hm', Z.pow_add_r by lia. apply Z.mul_lt_mono_pos_r; lia. }
  assert (Hq0 : 0 <= q) by (rewrite Hq; apply Z.div_pos; lia).
  assert (Hqd : Zdigits2 q <= Z.max (d1 + sh - 52) 0).
  { destruct (Z_le_gt_dec 52 (d1 + sh)) as [Hle | Hgt].
    - rewrite Z.max_l by lia.
      apply Zdigits2_le; [exact Hq0 | lia |].
      rewrite Hq; apply Z.div_lt_upper_bound; [lia |].
      apply Z.lt_le_trans with (2 ^ 52 * 2 ^ (d1 + sh - 52)).
      + rewrite <- Z.pow_add_r by lia.
        now replace (52 + (d1 + sh - 52)) with (d1 + sh) by lia.
      + apply Z.mul_le_mono_nonneg_r; [apply Z.pow_nonneg; lia |].
        change (2 ^ 52) with 4503599627370496; lia.
    - assert (Hz : q = 0); [| rewrite Hz; simpl; lia].
      rewrite Hq; apply Z.div_small; split; [exact Hm'0 |].
      apply Z.lt_le_trans with (2 ^ 52).
      + apply Z.lt_le_trans with (2 ^ (d1 + sh)); [exact Hm'hi |].
        apply Z.pow_le_mono_r; lia.
      + change (2 ^ 52) with 4503599627370496; lia. }
  apply binary_round_aux_finite; [exact Hq0 | lia |].
  unfold sh in *; lia.
Qed.

End Rounding.

(** [v] is finite and [|v| < 2^k]: a mantissa of [d] binary digits at
    exponent [e] is a magnitude in [[2^(d+e-1), 2^(d+e))]. *)
Definition magnitude_below (k : Z) (v : float64) : bool :=
  match v with
  | S754_zero _ => true
  | S754_finite _ m e => (Zpos (digits2_pos m) + e <=? k)%Z
  | S754_infinity _ | S754_nan => false
  end.

Lemma magnitude_below_finite k s m e :
  (e <= k)%Z ->
  magnitude_below k (S754_finite s m e) = true <->
  (Zpos m < 2 ^ (k - e))%Z.
Proof.
  intros Hk; cbn [magnitude_below]; rewrite Z.leb_le.
  destruct (digits2_pos_bounds m) as [Hlo Hhi]; split; intros H.
  - apply Z.lt_le_trans with (2 ^ Zpos (digits2_pos m))%Z; [exact Hhi |].
    apply Z.pow_le_mono_r; lia.
  - assert (Hlt : (2 ^ (Zpos (digits2_pos m) - 1) < 2 ^ (k - e))%Z) by lia.
    apply Z.pow_lt_mono_r_iff in Hlt; lia.
Qed.

(** [eps] is a binary64 and [1e-5] is within half a unit in its last
    place, [2^-70]: [|eps * 2^70 * 10^5 - 2^70| <= 10^5]. *)
Lemma eps_nearest :
  valid eps = true /\
  (Z.abs (2 * 5902958103587057 * 10 ^ 5 - 2 ^ 70) <= 10 ^ 5)%Z.
Proof. split; [reflexivity | apply Z.leb_le; reflexivity]. Qed.

Lemma ratio_zero_den v : ratio v (of_Z 0) = div v eps.
Proof. reflexivity. Qed.

Lemma div_eps_finite v :
  magnitude_below 1006 v = true -> is_finite (div v eps) = true.
Proof.
  destruct v as [s | s | | s m e]; cbn [magnitude_below]; try discriminate.
  - reflexivity.
  - intros H; apply Z.leb_le in H.
    pose proof (div_by_eps_finite s m e H) as Hf.
    now destruct (div (S754_finite s m e) eps).
Qed.

(** ** The transformation as a sequence of column operations

    Every statement of [feature_engineering] that changes the table sets
    one column, removes columns, or replaces columns by their indicator
    columns.  A step of the transformation is followed through the
    operations it performs; what the properties below need of the other
    steps is only which columns they leave alone. *)

Section Properties.

Variable str_of_float : float64 -> string.

Inductive op : Type :=
  | Assign (n : string)
  | Remove (l : list string)
  | Dummies (l : list string).

Inductive performs : op -> DataFrame -> DataFrame -> Prop :=
  | performs_assign df n s :
      (well_formed df -> List.length s = nrows df) ->
      performs (Assign n) df (setitem df n s)
  | performs_remove df l :
      performs (Remove l) df
        (mkDataFrame (nrows df) (remove_columns l (columns df)))
  | performs_dummies df l :
      performs (Dummies l) df
        (mkDataFrame (nrows df)
           (remove_columns l (columns df)
            ++ flat_map (dummies_of str_of_float (columns df)) l)).

Inductive run : list op -> DataFrame -> DataFrame -> Prop :=
  | run_nil df : run [] df df
  | run_cons o ops df1 df2 df3 :
      performs o df1 df2 -> run ops df2 df3 -> run (o :: ops) df1 df3.

Lemma run_one o df df' : performs o df df' -> run [o] df df'.
Proof. intros H; eapply run_cons; [exact H | apply run_nil]. Qed.

Lemma run_app ops1 ops2 df1 df2 df3 :
  run ops1 df1 df2 -> run ops2 df2 df3 -> run (ops1 ++ ops2) df1 df3.
Proof.
  induction 1 as [| o ops a b c Hp Hr IH]; simpl; intros H2; [exact H2 |].
  eapply run_cons; [exact Hp | auto].
Qed.

(** *** Row count and shape *)

Lemma performs_nrows o df df' : performs o df df' -> nrows df' = nrows df.
Proof. now destruct 1. Qed.

Lemma run_nrows ops df df' : run ops df df' -> nrows df' = nrows df.
Proof.
  induction 1 as [| o ops a b c Hp Hr IH]; [reflexivity |].
  rewrite IH; eapply performs_nrows; eauto.
Qed.

Lemma Forall_assign (P : string * Series -> Prop) n s cs :
  P (n, s) -> Forall P cs -> Forall P (assign n s cs).
Proof.
  intros Hn Hcs; rewrite Forall_forall in *; intros c Hc.
  apply In_assign in Hc; destruct Hc as [-> | Hc]; auto.
Qed.

Lemma Forall_remove_columns (P : string * Series -> Prop) l cs :
  Forall P cs -> Forall P (remove_columns l cs).
Proof.
  rewrite !Forall_forall; intros H c Hc.
  apply In_remove_columns in Hc; apply H, Hc.
Qed.

Lemma In_dummies_1d c prefix s :
  In c (dummies_1d str_of_float prefix s) ->
  exists level,
    In level (tl (levels s)) /\
    c = (dummy_name str_of_float prefix level, indicator level s).
Proof.
  unfold dummies_1d; rewrite in_map_iff.
  intros (level & <- & Hl); eauto.
Qed.

Lemma In_dummies c cs l :
  In c (flat_map (dummies_of str_of_float cs) l) ->
  exists n s level,
    In n l /\ lookup n cs = Some s /\ In level (tl (levels s)) /\
    c = (dummy_name str_of_float n level, indicator level s).
Proof.
  rewrite in_flat_map; intros (n & Hn & Hc).
  unfold dummies_of in Hc.
  destruct (lookup n cs) as [s |] eqn:E; [| contradiction].
  apply In_dummies_1d in Hc; destruct Hc as (level & Hl & ->).
  exists n, s, level; auto.
Qed.

Lemma indicator_length level s :
  List.length (indicator level s) = List.length s.
Proof. apply length_map. Qed.

Lemma performs_well_formed o df df' :
  performs o df df' -> well_formed df -> well_formed df'.
Proof.
  destruct 1 as [df n s Hs | df l | df l]; unfold well_formed; simpl;
    intros Hwf.
  - apply Forall_assign; [simpl; auto | exact Hwf].
  - now apply Forall_remove_columns.
  - apply Forall_app; split; [now apply Forall_remove_columns |].
    rewrite Forall_forall; intros c Hc.
    apply In_dummies in Hc; destruct Hc as (n & s & level & _ & Hs & _ & ->).
    simpl; rewrite indicator_length.
    eapply well_formed_lookup; eauto.
Qed.

Lemma run_well_formed ops df df' :
  run ops df df' -> well_formed df -> well_formed df'.
Proof.
  induction 1 as [| o ops a b c Hp Hr IH]; [auto |].
  intros Hwf; apply IH; eapply performs_well_formed; eauto.
Qed.

(** *** Columns an operation leaves alone *)

Lemma prefix_append (p q x : string) :
  String.prefix (p ++ q) (p ++ (q ++ x)) = true.
Proof.
  induction p as [| a p IH]; simpl.
  - induction q as [| b q IHq]; simpl; [now destruct x |].
    destruct (ascii_dec b b); [exact IHq | congruence].
  - destruct (ascii_dec a a); [exact IH | congruence].
Qed.

(** [n] begins like an indicator column of one of the columns [l]. *)
Definition dummy_prefixed (l : list string) (n : string) : bool :=
  existsb (fun p => String.prefix (p ++ "_") n) l.

Definition inert (n : string) (o : op) : bool :=
  match o with
  | Assign m => negb (String.eqb m n)
  | Remove l => negb (mem n l)
  | Dummies l => negb (mem n l) && negb (dummy_prefixed l n)
  end.

Lemma lookup_dummies_None n cs l :
  dummy_prefixed l n = false ->
  lookup n (flat_map (dummies_of str_of_float cs) l) = None.
Proof.
  intros Hn; apply lookup_None; intros Hin.
  apply in_map_iff in Hin; destruct Hin as (c & <- & Hc).
  apply In_dummies in Hc; destruct Hc as (m & s & level & Hm & _ & _ & ->).
  simpl in Hn.
  assert (H : dummy_prefixed l (dummy_name str_of_float m level) = true).
  { unfold dummy_prefixed; apply existsb_exists; exists m; split; [exact Hm |].
    apply prefix_append. }
  simpl in *; congruence.
Qed.

Lemma performs_lookup n o df df' :
  performs o df df' -> inert n o = true ->
  lookup n (columns df') = lookup n (columns df).
Proof.
  destruct 1 as [df m s Hs | df l | df l]; simpl; intros Hi.
  - apply lookup_assign_other; now apply negb_true_iff.
  - apply lookup_remove_other; now apply negb_true_iff.
  - apply andb_true_iff in Hi; destruct Hi as [H1 H2].
    apply negb_true_iff in H1, H2.
    rewrite lookup_app, lookup_remove_other, lookup_dummies_None by assumption.
    now destruct (lookup n (columns df)).
Qed.

Lemma run_lookup n ops df df' :
  run ops df df' -> forallb (inert n) ops = true ->
  lookup n (columns df') = lookup n (columns df).
Proof.
  induction 1 as [| o ops a b c Hp Hr IH]; simpl; [reflexivity |].
  intros Hi; apply andb_true_iff in Hi; destruct Hi as [H1 H2].
  rewrite (IH H2); eapply performs_lookup; eauto.
Qed.

(** *** What each step performs *)

Lemma numeric_length df n s xs :
  well_formed df -> getitem df n = inr s -> as_float64 s = inr xs ->
  List.length xs = nrows df.
Proof.
  intros Hwf Hs Hxs; apply getitem_inr in Hs; apply as_float64_inr in Hxs.
  rewrite <- (well_formed_lookup _ _ _ Hwf Hs); subst s.
  now rewrite of_floats_length.
Qed.

Lemma fix_room_count_run df df' :
  fix_room_count df = inr df' ->
  run [Assign "roomcnt_fixed"; Remove ["roomcnt"]] df df'.
Proof.
  unfold fix_room_count; intros H; inv_bind H.
  apply drop_inr in H; subst df'.
  eapply run_cons; [apply performs_assign | apply run_one, performs_remove].
  intros Hwf; unfold roomcnt_fixed_col.
  rewrite of_floats_length, map2_length, length_map, map2_length.
  rewrite (numeric_length _ _ _ _ Hwf Ha Ha0), (numeric_length _ _ _ _ Hwf Ha1 Ha3),
    (numeric_length _ _ _ _ Hwf Ha2 Ha4); lia.
Qed.

Lemma clean_garage_sqft_run df df' :
  clean_garage_sqft df = inr df' -> run [Assign "garagetotalsqft"] df df'.
Proof.
  unfold clean_garage_sqft; intros H; inv_bind H.
  inversion H; subst df'; apply run_one, performs_assign.
  intros Hwf; unfold clean_garage_col, groupby_fillna_median.
  rewrite of_floats_length, !map2_length.
  rewrite (numeric_length _ _ _ _ Hwf Ha Ha2), (numeric_length _ _ _ _ Hwf Ha0 Ha1);
    lia.
Qed.

Lemma add_ratio_run out num den df df' :
  add_ratio out num den df = inr df' -> run [Assign out] df df'.
Proof.
  unfold add_ratio; intros H; inv_bind H.
  inversion H; subst df'; apply run_one, performs_assign.
  intros Hwf; rewrite of_floats_length, map2_length.
  rewrite (numeric_length _ _ _ _ Hwf Ha Ha2), (numeric_length _ _ _ _ Hwf Ha0 Ha1);
    lia.
Qed.

Lemma add_age_of_home_run df df' :
  add_age_of_home df = inr df' -> run [Assign "age_of_home"] df df'.
Proof.
  unfold add_age_of_home; intros H; inv_bind H.
  inversion H; subst df'; apply run_one, performs_assign.
  intros Hwf; rewrite of_floats_length, length_map.
  exact (numeric_length _ _ _ _ Hwf Ha Ha0).
Qed.

Definition engineered_ops : list op :=
  [Assign "price_per_sqft"; Assign "age_of_home"; Assign "bath_per_bed";
   Assign "rooms_per_sqft"; Assign "garage_sqft_ratio"].

Lemma engineered_features_run df df' :
  engineered_features df = inr df' -> run engineered_ops df df'.
Proof.
  unfold engineered_features; intros H; inv_bind H.
  apply add_ratio_run in Ha, Ha1, Ha2, H; apply add_age_of_home_run in Ha0.
  exact (run_app _ _ _ _ _ Ha
           (run_app _ _ _ _ _ Ha0
              (run_app _ _ _ _ _ Ha1 (run_app _ _ _ _ _ Ha2 H)))).
Qed.

Definition flag_ops : list op := [Assign "multi_unit"; Assign "has_garage"].

Lemma binary_flags_run df df' :
  binary_flags df = inr df' -> run flag_ops df df'.
Proof.
  unfold binary_flags; intros H; inv_bind H.
  inversion H; subst df'.
  assert (H1 : performs (Assign "multi_unit") df
                 (setitem df "multi_unit" (of_floats (map multi_unit a0)))).
  { apply performs_assign; intros Hwf.
    rewrite of_floats_length, length_map.
    exact (numeric_length _ _ _ _ Hwf Ha Ha0). }
  eapply run_cons; [exact H1 | apply run_one, performs_assign].
  intros Hwf; rewrite of_floats_length, map2_length.
  rewrite (numeric_length _ _ _ _ Hwf Ha1 Ha2), (numeric_length _ _ _ _ Hwf Ha3 Ha4).
  rewrite Nat.min_id; reflexivity.
Qed.

Definition clean_ops : list op :=
  [Assign "roomcnt_fixed"; Remove ["roomcnt"]; Assign "garagetotalsqft"]
  ++ engineered_ops ++ flag_ops.

Lemma clean_and_derive_run df df' :
  clean_and_derive df = inr df' -> run clean_ops df df'.
Proof.
  unfold clean_and_derive; intros H; inv_bind H.
  apply fix_room_count_run in Ha; apply clean_garage_sqft_run in Ha0.
  apply engineered_features_run in Ha1; apply binary_flags_run in H.
  exact (run_app _ _ _ _ _ (run_app _ _ _ _ _ Ha Ha0) (run_app _ _ _ _ _ Ha1 H)).
Qed.

Lemma get_dummies_inr df l df' :
  get_dummies str_of_float df l = inr df' ->
  df' = mkDataFrame (nrows df)
          (remove_columns l (columns df)
           ++ flat_map (dummies_of str_of_float (columns df)) l).
Proof.
  unfold get_dummies, ret, raise; destruct (first_missing l (columns df));
    intros H; inversion H; reflexivity.
Qed.

Lemma get_dummies_run df l df' :
  get_dummies str_of_float df l = inr df' -> run [Dummies l] df df'.
Proof.
  intros H; apply get_dummies_inr in H; subst df'.
  apply run_one, performs_dummies.
Qed.

Lemma where_isin_other_length top s :
  List.length (where_isin_other str_of_float top s) = List.length s.
Proof.
  unfold where_isin_other; destruct (is_object s); apply length_map.
Qed.

Lemma encode_top_k_run col k df df' :
  encode_top_k str_of_float col k df = inr df' ->
  run [Assign (col ++ "_top")%string; Dummies [(col ++ "_top")%string]] df df'.
Proof.
  unfold encode_top_k; intros H; inv_bind H.
  apply get_dummies_run in H.
  eapply run_cons; [apply performs_assign | exact H].
  intros Hwf; unfold where_isin_minus_one; rewrite length_map.
  apply getitem_inr in Ha; eapply well_formed_lookup; eauto.
Qed.

Lemma encode_top_k_other_run col new k df df' :
  encode_top_k_other str_of_float col new k df = inr df' ->
  run [Assign new; Dummies [new]] df df'.
Proof.
  unfold encode_top_k_other; intros H; inv_bind H.
  apply get_dummies_run in H.
  eapply run_cons; [apply performs_assign | exact H].
  intros Hwf; rewrite where_isin_other_length.
  apply getitem_inr in Ha; eapply well_formed_lookup; eauto.
Qed.

Lemma remove_columns_absent l cs :
  (forall n, In n l -> ~ In n (map fst cs)) -> remove_columns l cs = cs.
Proof.
  intros H; induction cs as [| [k t] r IH]; simpl; [reflexivity |].
  destruct (mem k l) eqn:E.
  - exfalso; unfold mem in E; apply existsb_exists in E.
    destruct E as (m & Hm & E); apply String.eqb_eq in E; subst m.
    apply (H k Hm); simpl; auto.
  - simpl; f_equal; apply IH; intros n Hn Hin; apply (H n Hn); simpl; auto.
Qed.

Lemma drop_messy_run df df' :
  drop_messy df = inr df' -> run [Remove ["propertyzoningdesc"]] df df'.
Proof.
  unfold drop_messy; destruct (mem "propertyzoningdesc" (names df)) eqn:E;
    intros H.
  - apply drop_inr in H; subst df'; apply run_one, performs_remove.
  - inversion H; subst df'.
    replace df with
      (mkDataFrame (nrows df)
         (remove_columns ["propertyzoningdesc"] (columns df))) at 2.
    + apply run_one, performs_remove.
    + rewrite remove_columns_absent; [now destruct df |].
      intros n [<- | []] Hin.
      assert (mem "propertyzoningdesc" (names df) = true); [| congruence].
      unfold mem; apply existsb_exists; eexists; split; [exact Hin |].
      apply String.eqb_refl.
Qed.

Definition encode_ops : list op :=
  [Assign "regionidcity_top"; Dummies ["regionidcity_top"];
   Assign "regionidzip_top"; Dummies ["regionidzip_top"];
   Assign "regionidneighborhood_top"; Dummies ["regionidneighborhood_top"];
   Assign "propertycountylanduse_top"; Dummies ["propertycountylanduse_top"];
   Assign "propertylandusetype_top"; Dummies ["propertylandusetype_top"];
   Dummies low_card; Remove ["propertyzoningdesc"]].

Lemma encode_categoricals_run df df' :
  encode_categoricals str_of_float df = inr df' -> run encode_ops df df'.
Proof.
  unfold encode_categoricals; intros H; inv_bind H.
  apply encode_top_k_run in Ha, Ha0, Ha1.
  apply encode_top_k_other_run in Ha2, Ha3.
  apply get_dummies_run in Ha4; apply drop_messy_run in H.
  exact (run_app _ _ _ _ _ Ha
          (run_app _ _ _ _ _ Ha0
            (run_app _ _ _ _ _ Ha1
              (run_app _ _ _ _ _ Ha2
                (run_app _ _ _ _ _ Ha3 (run_app _ _ _ _ _ Ha4 H)))))).
Qed.

Lemma feature_engineering_inr df out :
  feature_engineering str_of_float df = inr out ->
  exists pre,
    clean_and_derive df = inr pre /\
    encode_categoricals str_of_float pre = inr out.
Proof.
  unfold feature_engineering; rewrite try_except_inr.
  unfold feature_engineering_body; intros H; inv_bind H; eauto.
Qed.

Lemma feature_engineering_run df out :
  feature_engineering str_of_float df = inr out ->
  run (clean_ops ++ encode_ops) df out.
Proof.
  intros H; apply feature_engineering_inr in H; destruct H as (pre & H1 & H2).
  eapply run_app; [apply clean_and_derive_run | apply encode_categoricals_run];
    eauto.
Qed.

Lemma feature_engineering_stages df out :
  feature_engineering str_of_float df = inr out ->
  exists df1 df2 df3 df4,
    fix_room_count df = inr df1 /\
    clean_garage_sqft df1 = inr df2 /\
    engineered_features df2 = inr df3 /\
    binary_flags df3 = inr df4 /\
    encode_categoricals str_of_float df4 = inr out.
Proof.
  intros H; apply feature_engineering_inr in H; destruct H as (pre & H1 & H2).
  unfold clean_and_derive in H1; inv_bind H1.
  exists a, a0, a1, pre; auto.
Qed.

(** *** What each step computes *)

Lemma numeric_inr df n xs :
  forall s, getitem df n = inr s -> as_float64 s = inr xs ->
  lookup n (columns df) = Some (of_floats xs).
Proof.
  intros s Hs Hxs; apply getitem_inr in Hs; apply as_float64_inr in Hxs.
  congruence.
Qed.

Lemma fix_room_count_spec df df' :
  fix_room_count df = inr df' ->
  exists room bed bath,
    lookup "roomcnt" (columns df) = Some (of_floats room) /\
    lookup "bedroomcnt" (columns df) = Some (of_floats bed) /\
    lookup "bathroomcnt" (columns df) = Some (of_floats bath) /\
    lookup "roomcnt_fixed" (columns df') =
      Some (of_floats (roomcnt_fixed_col room bed bath)) /\
    lookup "roomcnt" (columns df') = None.
Proof.
  unfold fix_room_count; intros H; inv_bind H.
  apply drop_inr in H; subst df'.
  exists a0, a3, a4; simpl.
  repeat split; eauto using numeric_inr.
  - rewrite lookup_remove_other by reflexivity. apply lookup_assign_same.
  - now apply lookup_remove_same.
Qed.

Lemma nth_error_roomcnt_fixed_col room bed bath i r b a :
  nth_error room i = Some r -> nth_error bed i = Some b ->
  nth_error bath i = Some a ->
  nth_error (roomcnt_fixed_col room bed bath) i = Some (roomcnt_fixed r b a).
Proof.
  intros Hr Hb Ha; unfold roomcnt_fixed_col.
  erewrite nth_error_map2; [reflexivity | exact Hr |].
  rewrite nth_error_map.
  now rewrite (nth_error_map2 add bed bath i b a Hb Ha).
Qed.

Lemma of_floats_inj xs ys : of_floats xs = of_floats ys -> xs = ys.
Proof.
  revert ys; induction xs as [| x r IH]; intros [| y t]; simpl;
    intros H; try discriminate; [reflexivity |].
  inversion H; f_equal; auto.
Qed.

Definition after_room_ops : list op :=
  [Assign "garagetotalsqft"] ++ engineered_ops ++ flag_ops ++ encode_ops.

Lemma after_room_run df1 df2 df3 df4 out :
  clean_garage_sqft df1 = inr df2 ->
  engineered_features df2 = inr df3 ->
  binary_flags df3 = inr df4 ->
  encode_categoricals str_of_float df4 = inr out ->
  run after_room_ops df1 out.
Proof.
  intros H2 H3 H4 H5.
  apply clean_garage_sqft_run in H2; apply engineered_features_run in H3.
  apply binary_flags_run in H4; apply encode_categoricals_run in H5.
  exact (run_app _ _ _ _ _ H2
           (run_app _ _ _ _ _ H3 (run_app _ _ _ _ _ H4 H5))).
Qed.

(** C5.  When the transformation succeeds, the column [roomcnt_fixed] of
    its output holds, row by row, [roomcnt] where [roomcnt > 0] and
    [bedroomcnt + bathroomcnt + 1] otherwise, over the cells of the input
    table, and the output has no column [roomcnt].  A row with
    [roomcnt = 0], [bedroomcnt = 2], [bathroomcnt = 1] is repaired to 4 and
    a row with [roomcnt = 5] keeps 5. *)
Theorem room_count_repair df out :
  feature_engineering str_of_float df = inr out ->
  exists room bed bath fixed,
    lookup "roomcnt" (columns df) = Some (of_floats room) /\
    lookup "bedroomcnt" (columns df) = Some (of_floats bed) /\
    lookup "bathroomcnt" (columns df) = Some (of_floats bath) /\
    lookup "roomcnt_fixed" (columns out) = Some (of_floats fixed) /\
    (forall i r b a,
        nth_error room i = Some r -> nth_error bed i = Some b ->
        nth_error bath i = Some a ->
        nth_error fixed i =
          Some (if gtb r (of_Z 0) then r else add (add b a) (of_Z 1))) /\
    ~ In "roomcnt" (names out) /\
    roomcnt_fixed (of_Z 0) (of_Z 2) (of_Z 1) = of_Z 4 /\
    (forall b a, roomcnt_fixed (of_Z 5) b a = of_Z 5).
Proof.
  intros H; apply feature_engineering_stages in H.
  destruct H as (df1 & df2 & df3 & df4 & H1 & H2 & H3 & H4 & H5).
  pose proof (after_room_run _ _ _ _ _ H2 H3 H4 H5) as Hrun.
  apply fix_room_count_spec in H1.
  destruct H1 as (room & bed & bath & Hroom & Hbed & Hbath & Hfixed & Hgone).
  exists room, bed, bath, (roomcnt_fixed_col room bed bath).
  repeat split; try assumption.
  - rewrite <- Hfixed; apply (run_lookup _ _ _ _ Hrun); reflexivity.
  - intros i r b a Hr Hb Ha.
    exact (nth_error_roomcnt_fixed_col _ _ _ _ _ _ _ Hr Hb Ha).
  - apply lookup_None; rewrite <- Hgone.
    apply (run_lookup _ _ _ _ Hrun); reflexivity.
Qed.

Lemma clean_garage_sqft_spec df df' :
  clean_garage_sqft df = inr df' ->
  exists sqft car,
    lookup "garagetotalsqft" (columns df) = Some (of_floats sqft) /\
    lookup "garagecarcnt" (columns df) = Some (of_floats car) /\
    lookup "garagetotalsqft" (columns df') =
      Some (of_floats (clean_garage_col sqft car)).
Proof.
  unfold clean_garage_sqft; intros H; inv_bind H.
  inversion H; subst df'; exists a2, a1; simpl.
  repeat split; eauto using numeric_inr, lookup_assign_same.
Qed.

Lemma gtb_not_nan x y : gtb x y = true -> is_nan x = false.
Proof. now destruct x; destruct y. Qed.

(** One row of the cleaned garage area. *)
Lemma nth_error_clean_garage_col sqft car i g c :
  nth_error sqft i = Some g -> nth_error car i = Some c ->
  nth_error (clean_garage_col sqft car) i =
    Some (if is_nan c then nan
          else fillna (mark_sentinel g c)
                 (median (group_values car (map2 mark_sentinel sqft car) c))).
Proof.
  intros Hg Hc; unfold clean_garage_col, groupby_fillna_median.
  pose proof (nth_error_map2 mark_sentinel sqft car i g c Hg Hc) as Hm.
  now rewrite (nth_error_map2 _ _ _ _ _ _ Hc Hm).
Qed.

Lemma median_all_missing xs :
  Forall (fun x => is_nan x = true) xs -> median xs = nan.
Proof.
  intros H; unfold median.
  replace (filter (fun x => negb (is_nan x)) xs) with (@nil float64);
    [reflexivity |].
  induction H as [| x r Hx Hr IH]; simpl; [reflexivity |].
  now rewrite Hx.
Qed.

Definition after_garage_ops : list op :=
  engineered_ops ++ flag_ops ++ encode_ops.

Lemma after_garage_run df2 df3 df4 out :
  engineered_features df2 = inr df3 ->
  binary_flags df3 = inr df4 ->
  encode_categoricals str_of_float df4 = inr out ->
  run after_garage_ops df2 out.
Proof.
  intros H3 H4 H5.
  apply engineered_features_run in H3.
  apply binary_flags_run in H4; apply encode_categoricals_run in H5.
  exact (run_app _ _ _ _ _ H3 (run_app _ _ _ _ _ H4 H5)).
Qed.

(** The garage columns from the input table to the output table. *)
Lemma garage_columns df out :
  feature_engineering str_of_float df = inr out ->
  exists sqft car,
    lookup "garagetotalsqft" (columns df) = Some (of_floats sqft) /\
    lookup "garagecarcnt" (columns df) = Some (of_floats car) /\
    lookup "garagetotalsqft" (columns out) =
      Some (of_floats (clean_garage_col sqft car)) /\
    lookup "garagecarcnt" (columns out) = Some (of_floats car).
Proof.
  intros H; apply feature_engineering_stages in H.
  destruct H as (df1 & df2 & df3 & df4 & H1 & H2 & H3 & H4 & H5).
  pose proof (after_garage_run _ _ _ _ H3 H4 H5) as Hafter.
  pose proof (clean_garage_sqft_run _ _ H2) as Hstep.
  apply fix_room_count_run in H1.
  apply clean_garage_sqft_spec in H2.
  destruct H2 as (sqft & car & Hsqft & Hcar & Hclean).
  exists sqft, car; repeat split.
  - rewrite <- Hsqft; symmetry; apply (run_lookup _ _ _ _ H1); reflexivity.
  - rewrite <- Hcar; symmetry; apply (run_lookup _ _ _ _ H1); reflexivity.
  - rewrite <- Hclean; apply (run_lookup _ _ _ _ Hafter); reflexivity.
  - rewrite <- Hcar.
    rewrite (run_lookup "garagecarcnt" _ _ _ Hafter) by reflexivity.
    apply (run_lookup _ _ _ _ Hstep); reflexivity.
Qed.

(** C2.  When the transformation succeeds, a row whose input has
    [garagetotalsqft == 0] and [garagecarcnt > 0] is first marked missing
    and then holds, in the output, the median of the marked garage areas of
    the rows with the same [garagecarcnt]; that median, and so the cell, is
    missing when the group has no valid area.  With [garagecarcnt = 2] on
    three rows of areas 0, 400 and 600 the first row becomes 500. *)
Theorem garage_imputation df out :
  feature_engineering str_of_float df = inr out ->
  exists sqft car cleaned,
    lookup "garagetotalsqft" (columns df) = Some (of_floats sqft) /\
    lookup "garagecarcnt" (columns df) = Some (of_floats car) /\
    lookup "garagetotalsqft" (columns out) = Some (of_floats cleaned) /\
    (forall i g c,
        nth_error sqft i = Some g -> nth_error car i = Some c ->
        F64.eqb g (of_Z 0) = true -> gtb c (of_Z 0) = true ->
        nth_error (map2 mark_sentinel sqft car) i = Some nan /\
        nth_error cleaned i =
          Some (median (group_values car (map2 mark_sentinel sqft car) c))) /\
    (forall c,
        Forall (fun x => is_nan x = true)
               (group_values car (map2 mark_sentinel sqft car) c) ->
        median (group_values car (map2 mark_sentinel sqft car) c) = nan) /\
    clean_garage_col [of_Z 0; of_Z 400; of_Z 600] [of_Z 2; of_Z 2; of_Z 2]
      = [of_Z 500; of_Z 400; of_Z 600].
Proof.
  intros H; apply garage_columns in H.
  destruct H as (sqft & car & Hsqft & Hcar & Hclean & _).
  exists sqft, car, (clean_garage_col sqft car).
  repeat split; try assumption.
  - rewrite (nth_error_map2 mark_sentinel sqft car i g c) by assumption.
    unfold mark_sentinel; now rewrite H1, H2.
  - rewrite (nth_error_clean_garage_col sqft car i g c) by assumption.
    rewrite (gtb_not_nan _ _ H2).
    unfold mark_sentinel; now rewrite H1, H2.
  - intros c; apply median_all_missing.
Qed.

Lemma binary_flags_spec df df' :
  binary_flags df = inr df' ->
  exists unit car sqft,
    lookup "unitcnt" (columns df) = Some (of_floats unit) /\
    lookup "garagecarcnt" (columns df) = Some (of_floats car) /\
    lookup "garagetotalsqft" (columns df) = Some (of_floats sqft) /\
    lookup "multi_unit" (columns df') = Some (of_floats (map multi_unit unit)) /\
    lookup "has_garage" (columns df') =
      Some (of_floats (map2 has_garage car sqft)).
Proof.
  unfold binary_flags; intros H; inv_bind H.
  inversion H; subst df'; clear H.
  apply (numeric_inr _ _ _ _ Ha) in Ha0.
  apply (numeric_inr _ _ _ _ Ha1) in Ha2.
  apply (numeric_inr _ _ _ _ Ha3) in Ha4.
  simpl in Ha2, Ha4; rewrite lookup_assign_other in Ha2, Ha4 by reflexivity.
  exists a0, a2, a4; simpl; repeat split; try assumption.
  - rewrite lookup_assign_other by reflexivity; apply lookup_assign_same.
  - apply lookup_assign_same.
Qed.

Definition before_flags_ops : list op :=
  [Assign "roomcnt_fixed"; Remove ["roomcnt"]; Assign "garagetotalsqft"]
  ++ engineered_ops.

(** The flag columns of the output table over the columns they are
    computed from. *)
Lemma flag_columns df out :
  feature_engineering str_of_float df = inr out ->
  exists unit car sqft,
    lookup "unitcnt" (columns df) = Some (of_floats unit) /\
    lookup "garagecarcnt" (columns df) = Some (of_floats car) /\
    lookup "garagetotalsqft" (columns out) = Some (of_floats sqft) /\
    lookup "multi_unit" (columns out) = Some (of_floats (map multi_unit unit)) /\
    lookup "has_garage" (columns out) =
      Some (of_floats (map2 has_garage car sqft)).
Proof.
  intros H; apply feature_engineering_stages in H.
  destruct H as (df1 & df2 & df3 & df4 & H1 & H2 & H3 & H4 & H5).
  assert (Hbefore : run before_flags_ops df df3).
  { apply fix_room_count_run in H1; apply clean_garage_sqft_run in H2.
    apply engineered_features_run in H3.
    exact (run_app _ _ _ _ _ (run_app _ _ _ _ _ H1 H2) H3). }
  pose proof (binary_flags_run _ _ H4) as Hflags.
  apply encode_categoricals_run in H5.
  apply binary_flags_spec in H4.
  destruct H4 as (unit & car & sqft & Hunit & Hcar & Hsqft & Hmu & Hhg).
  exists unit, car, sqft; repeat split.
  - rewrite <- Hunit; symmetry; apply (run_lookup _ _ _ _ Hbefore); reflexivity.
  - rewrite <- Hcar; symmetry; apply (run_lookup _ _ _ _ Hbefore); reflexivity.
  - rewrite <- Hsqft.
    rewrite (run_lookup "garagetotalsqft" _ _ _ H5) by reflexivity.
    apply (run_lookup _ _ _ _ Hflags); reflexivity.
  - rewrite <- Hmu; apply (run_lookup _ _ _ _ H5); reflexivity.
  - rewrite <- Hhg; apply (run_lookup _ _ _ _ H5); reflexivity.
Qed.

(** C6.  When the transformation succeeds, row by row, [multi_unit] is 1
    if [unitcnt > 1] and 0 otherwise, and [has_garage] is 1 if
    [garagecarcnt], taken as 0 when missing, is positive or the garage
    area, taken as 0 when missing, is positive, and 0 otherwise; the
    garage area is the column [garagetotalsqft] as the flag reads it,
    which is the one of the output table.  A row of the input with
    [garagecarcnt] missing and a garage area of 0 has [has_garage = 0]; a
    row with [garagecarcnt = 0] and a garage area of 300 has
    [has_garage = 1]. *)
Theorem binary_flag_values df out :
  feature_engineering str_of_float df = inr out ->
  exists unit car raw_sqft sqft mu hg,
    lookup "unitcnt" (columns df) = Some (of_floats unit) /\
    lookup "garagecarcnt" (columns df) = Some (of_floats car) /\
    lookup "garagetotalsqft" (columns df) = Some (of_floats raw_sqft) /\
    lookup "garagetotalsqft" (columns out) = Some (of_floats sqft) /\
    lookup "multi_unit" (columns out) = Some (of_floats mu) /\
    lookup "has_garage" (columns out) = Some (of_floats hg) /\
    (forall i u,
        nth_error unit i = Some u ->
        nth_error mu i = Some (if gtb u (of_Z 1) then of_Z 1 else of_Z 0)) /\
    (forall i c g,
        nth_error car i = Some c -> nth_error sqft i = Some g ->
        nth_error hg i =
          Some (if gtb (if is_nan c then of_Z 0 else c) (of_Z 0)
                   || gtb (if is_nan g then of_Z 0 else g) (of_Z 0)
                then of_Z 1 else of_Z 0)) /\
    (forall i,
        nth_error car i = Some nan -> nth_error raw_sqft i = Some (of_Z 0) ->
        nth_error hg i = Some (of_Z 0)) /\
    (forall i,
        nth_error car i = Some (of_Z 0) ->
        nth_error raw_sqft i = Some (of_Z 300) ->
        nth_error hg i = Some (of_Z 1)).
Proof.
  intros H.
  destruct (garage_columns _ _ H) as (raw & car & Hraw & Hcar & Hclean & _).
  destruct (flag_columns _ _ H)
    as (unit & car' & sqft & Hunit & Hcar' & Hsqft & Hmu & Hhg).
  assert (car' = car) by (apply of_floats_inj; congruence).
  assert (sqft = clean_garage_col raw car) by (apply of_floats_inj; congruence).
  subst car' sqft.
  exists unit, car, raw, (clean_garage_col raw car),
    (map multi_unit unit), (map2 has_garage car (clean_garage_col raw car)).
  repeat split; try assumption.
  - intros i u Hu; rewrite nth_error_map, Hu; reflexivity.
  - intros i c g Hc Hg.
    rewrite (nth_error_map2 has_garage _ _ i c g Hc Hg); reflexivity.
  - intros i Hc Hg.
    pose proof (nth_error_clean_garage_col raw car i _ _ Hg Hc) as Hrow.
    rewrite (nth_error_map2 has_garage _ _ i _ _ Hc Hrow); reflexivity.
  - intros i Hc Hg.
    pose proof (nth_error_clean_garage_col raw car i _ _ Hg Hc) as Hrow.
    rewrite (nth_error_map2 has_garage _ _ i _ _ Hc Hrow); reflexivity.
Qed.

(** C10.  When the transformation succeeds, a row whose [unitcnt] is
    missing has [multi_unit = 0]. *)
Theorem multi_unit_missing df out :
  feature_engineering str_of_float df = inr out ->
  exists unit mu,
    lookup "unitcnt" (columns df) = Some (of_floats unit) /\
    lookup "multi_unit" (columns out) = Some (of_floats mu) /\
    List.length mu = List.length unit /\
    forall i u,
      nth_error unit i = Some u -> is_nan u = true ->
      nth_error mu i = Some (of_Z 0).
Proof.
  intros H.
  destruct (flag_columns _ _ H) as (unit & _ & _ & Hunit & _ & _ & Hmu & _).
  exists unit, (map multi_unit unit); repeat split; try assumption.
  - apply length_map.
  - intros i u Hu Hnan; rewrite nth_error_map, Hu; simpl.
    destruct u; try discriminate; reflexivity.
Qed.

Lemma add_ratio_spec out num den df df' :
  add_ratio out num den df = inr df' ->
  exists n d,
    lookup num (columns df) = Some (of_floats n) /\
    lookup den (columns df) = Some (of_floats d) /\
    lookup out (columns df') = Some (of_floats (map2 ratio n d)).
Proof.
  unfold add_ratio; intros H; inv_bind H.
  inversion H; subst df'; exists a2, a1; simpl.
  repeat split; eauto using numeric_inr, lookup_assign_same.
Qed.

Lemma add_age_of_home_spec df df' :
  add_age_of_home df = inr df' ->
  exists year,
    lookup "yearbuilt" (columns df) = Some (of_floats year) /\
    lookup "age_of_home" (columns df') =
      Some (of_floats (map age_of_home year)).
Proof.
  unfold add_age_of_home; intros H; inv_bind H.
  inversion H; subst df'; exists a0; simpl.
  split; eauto using numeric_inr, lookup_assign_same.
Qed.

Lemma engineered_features_spec df df' :
  engineered_features df = inr df' ->
  exists tax sqft year bath bed rooms garage,
    lookup "taxvaluedollarcnt" (columns df) = Some (of_floats tax) /\
    lookup "calculatedfinishedsquarefeet" (columns df) = Some (of_floats sqft) /\
    lookup "yearbuilt" (columns df) = Some (of_floats year) /\
    lookup "bathroomcnt" (columns df) = Some (of_floats bath) /\
    lookup "bedroomcnt" (columns df) = Some (of_floats bed) /\
    lookup "roomcnt_fixed" (columns df) = Some (of_floats rooms) /\
    lookup "garagetotalsqft" (columns df) = Some (of_floats garage) /\
    lookup "price_per_sqft" (columns df') =
      Some (of_floats (map2 ratio tax sqft)) /\
    lookup "age_of_home" (columns df') =
      Some (of_floats (map age_of_home year)) /\
    lookup "bath_per_bed" (columns df') =
      Some (of_floats (map2 ratio bath bed)) /\
    lookup "rooms_per_sqft" (columns df') =
      Some (of_floats (map2 ratio rooms sqft)) /\
    lookup "garage_sqft_ratio" (columns df') =
      Some (of_floats (map2 ratio garage sqft)).
Proof.
  unfold engineered_features; intros H; inv_bind H.
  pose proof (add_ratio_run _ _ _ _ _ Ha) as R1.
  pose proof (add_age_of_home_run _ _ Ha0) as R2.
  pose proof (add_ratio_run _ _ _ _ _ Ha1) as R3.
  pose proof (add_ratio_run _ _ _ _ _ Ha2) as R4.
  pose proof (add_ratio_run _ _ _ _ _ H) as R5.
  pose proof (run_app _ _ _ _ _ R1 R2) as R12.
  pose proof (run_app _ _ _ _ _ R12 R3) as R13.
  pose proof (run_app _ _ _ _ _ R13 R4) as R14.
  pose proof (run_app _ _ _ _ _ R2 (run_app _ _ _ _ _ R3
               (run_app _ _ _ _ _ R4 R5))) as R25.
  pose proof (run_app _ _ _ _ _ R3 (run_app _ _ _ _ _ R4 R5)) as R35.
  pose proof (run_app _ _ _ _ _ R4 R5) as R45.
  apply add_ratio_spec in Ha, Ha1, Ha2, H; apply add_age_of_home_spec in Ha0.
  destruct Ha as (tax & sqft & Htax & Hsqft & Hprice).
  destruct Ha0 as (year & Hyear & Hage).
  destruct Ha1 as (bath & bed & Hbath & Hbed & Hbpb).
  destruct Ha2 as (rooms & sqft' & Hrooms & Hsqft' & Hrps).
  destruct H as (garage & sqft'' & Hgarage & Hsqft'' & Hgsr).
  rewrite (run_lookup _ _ _ _ R1) in Hyear by reflexivity.
  rewrite (run_lookup _ _ _ _ R12) in Hbath by reflexivity.
  rewrite (run_lookup _ _ _ _ R12) in Hbed by reflexivity.
  rewrite (run_lookup _ _ _ _ R13) in Hrooms by reflexivity.
  rewrite (run_lookup _ _ _ _ R13) in Hsqft' by reflexivity.
  rewrite (run_lookup _ _ _ _ R14) in Hgarage by reflexivity.
  rewrite (run_lookup _ _ _ _ R14) in Hsqft'' by reflexivity.
  assert (sqft' = sqft) by (apply of_floats_inj; congruence).
  assert (sqft'' = sqft) by (apply of_floats_inj; congruence).
  subst sqft' sqft''.
  exists tax, sqft, year, bath, bed, rooms, garage.
  repeat split; try assumption.
  - rewrite <- Hprice; apply (run_lookup _ _ _ _ R25); reflexivity.
  - rewrite <- Hage; apply (run_lookup _ _ _ _ R35); reflexivity.
  - rewrite <- Hbpb; apply (run_lookup _ _ _ _ R45); reflexivity.
  - rewrite <- Hrps; apply (run_lookup _ _ _ _ R5); reflexivity.
Qed.

Definition after_engineered_ops : list op := flag_ops ++ encode_ops.

(** The derived columns of the output table over the columns they are
    computed from. *)
Lemma derived_columns df out :
  feature_engineering str_of_float df = inr out ->
  exists tax sqft year bath bed rooms garage,
    lookup "taxvaluedollarcnt" (columns df) = Some (of_floats tax) /\
    lookup "calculatedfinishedsquarefeet" (columns df) = Some (of_floats sqft) /\
    lookup "yearbuilt" (columns df) = Some (of_floats year) /\
    lookup "bathroomcnt" (columns df) = Some (of_floats bath) /\
    lookup "bedroomcnt" (columns df) = Some (of_floats bed) /\
    lookup "roomcnt_fixed" (columns out) = Some (of_floats rooms) /\
    lookup "garagetotalsqft" (columns out) = Some (of_floats garage) /\
    lookup "price_per_sqft" (columns out) =
      Some (of_floats (map2 ratio tax sqft)) /\
    lookup "age_of_home" (columns out) =
      Some (of_floats (map age_of_home year)) /\
    lookup "bath_per_bed" (columns out) =
      Some (of_floats (map2 ratio bath bed)) /\
    lookup "rooms_per_sqft" (columns out) =
      Some (of_floats (map2 ratio rooms sqft)) /\
    lookup "garage_sqft_ratio" (columns out) =
      Some (of_floats (map2 ratio garage sqft)).
Proof.
  intros H; apply feature_engineering_stages in H.
  destruct H as (df1 & df2 & df3 & df4 & H1 & H2 & H3 & H4 & H5).
  assert (Hbefore : run [Assign "roomcnt_fixed"; Remove ["roomcnt"];
                         Assign "garagetotalsqft"] df df2).
  { apply fix_room_count_run in H1; apply clean_garage_sqft_run in H2.
    exact (run_app _ _ _ _ _ H1 H2). }
  pose proof (engineered_features_run _ _ H3) as Hstep.
  assert (Hafter : run after_engineered_ops df3 out).
  { apply binary_flags_run in H4; apply encode_categoricals_run in H5.
    exact (run_app _ _ _ _ _ H4 H5). }
  apply engineered_features_spec in H3.
  destruct H3 as (tax & sqft & year & bath & bed & rooms & garage & Htax &
    Hsqft & Hyear & Hbath & Hbed & Hrooms & Hgarage & Hp & Ha & Hb & Hr & Hg).
  exists tax, sqft, year, bath, bed, rooms, garage.
  rewrite (run_lookup _ _ _ _ Hbefore) in Htax by reflexivity.
  rewrite (run_lookup _ _ _ _ Hbefore) in Hsqft by reflexivity.
  rewrite (run_lookup _ _ _ _ Hbefore) in Hyear by reflexivity.
  rewrite (run_lookup _ _ _ _ Hbefore) in Hbath by reflexivity.
  rewrite (run_lookup _ _ _ _ Hbefore) in Hbed by reflexivity.
  rewrite <- (run_lookup _ _ _ _ Hstep) in Hrooms by reflexivity.
  rewrite <- (run_lookup _ _ _ _ Hstep) in Hgarage by reflexivity.
  rewrite <- (run_lookup _ _ _ _ Hafter) in Hrooms by reflexivity.
  rewrite <- (run_lookup _ _ _ _ Hafter) in Hgarage by reflexivity.
  rewrite <- (run_lookup _ _ _ _ Hafter) in Hp by reflexivity.
  rewrite <- (run_lookup _ _ _ _ Hafter) in Ha by reflexivity.
  rewrite <- (run_lookup _ _ _ _ Hafter) in Hb by reflexivity.
  rewrite <- (run_lookup _ _ _ _ Hafter) in Hr by reflexivity.
  rewrite <- (run_lookup _ _ _ _ Hafter) in Hg by reflexivity.
  repeat split; assumption.
Qed.

(** C9.  When the transformation of a table with one cell per row in each
    column succeeds, the output table has the row count of the input and
    each of its columns has that many cells. *)
Theorem row_count_preserved df out :
  feature_engineering str_of_float df = inr out ->
  well_formed df ->
  nrows out = nrows df /\
  Forall (fun c => List.length (snd c) = nrows df) (columns out).
Proof.
  intros H Hwf; apply feature_engineering_run in H.
  pose proof (run_nrows _ _ _ H) as Hn.
  pose proof (run_well_formed _ _ _ H Hwf) as Hout.
  split; [exact Hn |].
  unfold well_formed in Hout; now rewrite Hn in Hout.
Qed.

(** ** The pipeline *)

Section Run.

Variable World : Type.
Variable read_csv : string -> World -> result DataFrame.
Variable makedirs : string -> World -> result World.
Variable to_csv : DataFrame -> string -> World -> result World.

Local Abbreviation pipeline_body :=
  (initiate_body str_of_float World read_csv makedirs to_csv).
Local Abbreviation pipeline :=
  (initiate_data_transformation str_of_float World read_csv makedirs to_csv).

Lemma initiate_snd train_path test_path w :
  snd (pipeline train_path test_path w) =
  try_except (snd (pipeline_body train_path test_path w)).
Proof.
  unfold initiate_data_transformation.
  now destruct (pipeline_body train_path test_path w).
Qed.

(** The stages of a run that returns. *)
Lemma initiate_inr train_path test_path w X_train X_test y_train y_test :
  snd (pipeline train_path test_path w) =
    inr (X_train, X_test, y_train, y_test) ->
  exists train_df test_df train_out test_out w1 w2 w3,
    read_csv train_path w = inr train_df /\
    read_csv test_path w = inr test_df /\
    feature_engineering str_of_float train_df = inr train_out /\
    feature_engineering str_of_float test_df = inr test_out /\
    drop train_out [target_col] = inr X_train /\
    getitem train_out target_col = inr y_train /\
    drop test_out [target_col] = inr X_test /\
    getitem test_out target_col = inr y_test /\
    makedirs artifacts_dir w = inr w1 /\
    to_csv (concat_target X_train y_train) transformed_train_path w1 = inr w2 /\
    to_csv (concat_target X_test y_test) transformed_test_path w2 = inr w3 /\
    fst (pipeline train_path test_path w) = w3.
Proof.
  rewrite initiate_snd, try_except_inr.
  unfold initiate_data_transformation, initiate_body.
  destruct (read_csv train_path w) as [e | train_df] eqn:R1; [discriminate |].
  destruct (read_csv test_path w) as [e | test_df] eqn:R2; [discriminate |].
  destruct (feature_engineering str_of_float train_df) as [e | train_out]
    eqn:F1; [discriminate |].
  destruct (feature_engineering str_of_float test_df) as [e | test_out]
    eqn:F2; [discriminate |].
  destruct (drop train_out [target_col]) as [e | X1] eqn:D1; [discriminate |].
  destruct (getitem train_out target_col) as [e | y1] eqn:G1; [discriminate |].
  destruct (drop test_out [target_col]) as [e | X2] eqn:D2; [discriminate |].
  destruct (getitem test_out target_col) as [e | y2] eqn:G2; [discriminate |].
  destruct (makedirs artifacts_dir w) as [e | w1] eqn:M; [discriminate |].
  destruct (to_csv (concat_target X1 y1) transformed_train_path w1)
    as [e | w2] eqn:E1; [discriminate |].
  destruct (to_csv (concat_target X2 y2) transformed_test_path w2)
    as [e | w3] eqn:E2; [discriminate |].
  simpl; intros H; inversion H; subst.
  exists train_df, test_df, train_out, test_out, w1, w2, w3.
  repeat split; assumption.
Qed.

Lemma split_target df out X y :
  feature_engineering str_of_float df = inr out ->
  well_formed df ->
  drop out [target_col] = inr X ->
  getitem out target_col = inr y ->
  ~ In target_col (names X) /\
  List.length y = nrows X /\
  well_formed X /\
  columns X = remove_columns [target_col] (columns out) /\
  lookup target_col (columns out) = Some y /\
  lookup target_col (columns df) = Some y /\
  nrows X = nrows df.
Proof.
  intros Hfe Hwf HX Hy; apply feature_engineering_run in Hfe.
  pose proof (run_well_formed _ _ _ Hfe Hwf) as Hout.
  pose proof (run_nrows _ _ _ Hfe) as Hn.
  apply drop_inr in HX; subst X; apply getitem_inr in Hy; simpl.
  repeat split; try assumption.
  - apply lookup_None; now apply lookup_remove_same.
  - eapply well_formed_lookup; eauto.
  - unfold well_formed; simpl; now apply Forall_remove_columns.
  - rewrite <- Hy; symmetry; apply (run_lookup _ _ _ _ Hfe); reflexivity.
Qed.

(** C7.  When a run over tables with one cell per row in each column
    returns, neither feature table has the column [taxvaluedollarcnt];
    each target vector is the [taxvaluedollarcnt] column of the
    transformed table its feature table is the rest of, it has as many
    cells as the feature table has rows and as each of its columns has
    cells, and it is the target column of the table that was read. *)
Theorem target_removed train_path test_path w X_train X_test y_train y_test :
  snd (pipeline train_path test_path w) =
    inr (X_train, X_test, y_train, y_test) ->
  (forall df, read_csv train_path w = inr df -> well_formed df) ->
  (forall df, read_csv test_path w = inr df -> well_formed df) ->
  (~ In target_col (names X_train) /\ ~ In target_col (names X_test)) /\
  (List.length y_train = nrows X_train /\ well_formed X_train) /\
  (List.length y_test = nrows X_test /\ well_formed X_test) /\
  exists train_df test_df train_out test_out,
    read_csv train_path w = inr train_df /\
    read_csv test_path w = inr test_df /\
    feature_engineering str_of_float train_df = inr train_out /\
    feature_engineering str_of_float test_df = inr test_out /\
    columns X_train = remove_columns [target_col] (columns train_out) /\
    lookup target_col (columns train_out) = Some y_train /\
    lookup target_col (columns train_df) = Some y_train /\
    nrows X_train = nrows train_df /\
    columns X_test = remove_columns [target_col] (columns test_out) /\
    lookup target_col (columns test_out) = Some y_test /\
    lookup target_col (columns test_df) = Some y_test /\
    nrows X_test = nrows test_df.
Proof.
  intros H Htrain Htest; apply initiate_inr in H.
  destruct H as (train_df & test_df & train_out & test_out & w1 & w2 & w3 &
    R1 & R2 & F1 & F2 & D1 & G1 & D2 & G2 & _).
  destruct (split_target _ _ _ _ F1 (Htrain _ R1) D1 G1)
    as (A1 & A2 & A3 & A4 & A5 & A6 & A7).
  destruct (split_target _ _ _ _ F2 (Htest _ R2) D2 G2)
    as (B1 & B2 & B3 & B4 & B5 & B6 & B7).
  repeat split; try assumption.
  exists train_df, test_df, train_out, test_out.
  repeat split; assumption.
Qed.

(** C8.  An exception raised inside the transformation leaves it as
    [CustomException] of that exception, and an exception that leaves it
    has that form.  An exception raised by any stage of a run (reading
    either table, transforming either table, creating the directory,
    writing either table) leaves the run as [CustomException] of that
    exception: no later stage is run and no outputs are returned.  A run
    returns outputs only when every stage has succeeded. *)
Theorem error_propagation :
  (forall df e,
      feature_engineering_body str_of_float df = inl e ->
      feature_engineering str_of_float df = inl (CustomException e)) /\
  (forall df err,
      feature_engineering str_of_float df = inl err ->
      exists e, err = CustomException e /\
                feature_engineering_body str_of_float df = inl e) /\
  (forall train_path test_path w err,
      snd (pipeline train_path test_path w) = inl err ->
      exists e, err = CustomException e /\
                snd (pipeline_body train_path test_path w) = inl e) /\
  (forall train_path test_path w e,
      read_csv train_path w = inl e ->
      pipeline train_path test_path w = (w, inl (CustomException e))) /\
  (forall train_path test_path w train_df e,
      read_csv train_path w = inr train_df ->
      read_csv test_path w = inl e ->
      pipeline train_path test_path w = (w, inl (CustomException e))) /\
  (forall train_path test_path w train_df test_df e,
      read_csv train_path w = inr train_df ->
      read_csv test_path w = inr test_df ->
      feature_engineering str_of_float train_df = inl e ->
      pipeline train_path test_path w = (w, inl (CustomException e))) /\
  (forall train_path test_path w train_df test_df train_out e,
      read_csv train_path w = inr train_df ->
      read_csv test_path w = inr test_df ->
      feature_engineering str_of_float train_df = inr train_out ->
      feature_engineering str_of_float test_df = inl e ->
      pipeline train_path test_path w = (w, inl (CustomException e))) /\
  (forall train_path test_path w train_df test_df train_out test_out
          X_train y_train X_test y_test,
      read_csv train_path w = inr train_df ->
      read_csv test_path w = inr test_df ->
      feature_engineering str_of_float train_df = inr train_out ->
      feature_engineering str_of_float test_df = inr test_out ->
      drop train_out [target_col] = inr X_train ->
      getitem train_out target_col = inr y_train ->
      drop test_out [target_col] = inr X_test ->
      getitem test_out target_col = inr y_test ->
      (forall e,
          makedirs artifacts_dir w = inl e ->
          pipeline train_path test_path w = (w, inl (CustomException e))) /\
      (forall w1 e,
          makedirs artifacts_dir w = inr w1 ->
          to_csv (concat_target X_train y_train) transformed_train_path w1
            = inl e ->
          pipeline train_path test_path w = (w1, inl (CustomException e))) /\
      (forall w1 w2 e,
          makedirs artifacts_dir w = inr w1 ->
          to_csv (concat_target X_train y_train) transformed_train_path w1
            = inr w2 ->
          to_csv (concat_target X_test y_test) transformed_test_path w2
            = inl e ->
          pipeline train_path test_path w = (w2, inl (CustomException e)))) /\
  (forall train_path test_path w outputs,
      snd (pipeline train_path test_path w) = inr outputs ->
      exists train_df test_df train_out test_out w1 w2 w3,
        read_csv train_path w = inr train_df /\
        read_csv test_path w = inr test_df /\
        feature_engineering str_of_float train_df = inr train_out /\
        feature_engineering str_of_float test_df = inr test_out /\
        makedirs artifacts_dir w = inr w1 /\
        to_csv (concat_target (fst (fst (fst outputs))) (snd (fst outputs)))
               transformed_train_path w1 = inr w2 /\
        to_csv (concat_target (snd (fst (fst outputs))) (snd outputs))
               transformed_test_path w2 = inr w3).
Proof.
  repeat split.
  - intros df e H; unfold feature_engineering; now rewrite H.
  - intros df err H; unfold feature_engineering in H.
    now apply try_except_inl in H.
  - intros train_path test_path w err H; rewrite initiate_snd in H.
    now apply try_except_inl in H.
  - intros train_path test_path w e H.
    unfold initiate_data_transformation, initiate_body; now rewrite H.
  - intros train_path test_path w train_df e H1 H2.
    unfold initiate_data_transformation, initiate_body; now rewrite H1, H2.
  - intros train_path test_path w train_df test_df e H1 H2 H3.
    unfold initiate_data_transformation, initiate_body.
    now rewrite H1, H2, H3.
  - intros train_path test_path w train_df test_df train_out e H1 H2 H3 H4.
    unfold initiate_data_transformation, initiate_body.
    now rewrite H1, H2, H3, H4.
  - intros e H9; unfold initiate_data_transformation, initiate_body.
    now rewrite H, H0, H1, H2, H3, H4, H5, H6, H9.
  - intros w1 e H9 H10; unfold initiate_data_transformation, initiate_body.
    now rewrite H, H0, H1, H2, H3, H4, H5, H6, H9, H10.
  - intros w1 w2 e H9 H10 H11.
    unfold initiate_data_transformation, initiate_body.
    now rewrite H, H0, H1, H2, H3, H4, H5, H6, H9, H10, H11.
  - intros train_path test_path w [[[X_train X_test] y_train] y_test] H.
    apply initiate_inr in H.
    destruct H as (train_df & test_df & train_out & test_out & w1 & w2 & w3 &
      R1 & R2 & F1 & F2 & D1 & G1 & D2 & G2 & M & T1 & T2 & _).
    exists train_df, test_df, train_out, test_out, w1, w2, w3.
    repeat split; assumption.
Qed.

End Run.

(** ** Encoded columns *)

(** A column of 0/1 cells. *)
Definition is_indicator (s : Series) : Prop :=
  Forall (fun c => c = Num (of_Z 0) \/ c = Num (of_Z 1)) s.

Lemma indicator_is_indicator level s : is_indicator (indicator level s).
Proof.
  unfold is_indicator, indicator; rewrite Forall_map, Forall_forall.
  intros c _; destruct (cell_eqb c level); simpl; auto.
Qed.

Definition removes (n : string) (o : op) : bool :=
  match o with
  | Assign _ => false
  | Remove l => mem n l
  | Dummies l => mem n l && negb (dummy_prefixed l n)
  end.

(** Some operation takes the column [n] out and no later one brings a
    column of that name back. *)
Fixpoint removed (n : string) (ops : list op) : bool :=
  match ops with
  | [] => false
  | o :: r => (removes n o && forallb (inert n) r) || removed n r
  end.

Lemma performs_removes n o df df' :
  performs o df df' -> removes n o = true -> lookup n (columns df') = None.
Proof.
  destruct 1 as [df m s Hs | df l | df l]; simpl; intros Hr.
  - discriminate.
  - now apply lookup_remove_same.
  - apply andb_true_iff in Hr; destruct Hr as [H1 H2].
    apply negb_true_iff in H2.
    now rewrite lookup_app, lookup_remove_same, lookup_dummies_None.
Qed.

Lemma run_removed n ops df df' :
  run ops df df' -> removed n ops = true -> lookup n (columns df') = None.
Proof.
  induction 1 as [| o ops a b c Hp Hr IH]; simpl; [discriminate |].
  intros H; apply orb_true_iff in H; destruct H as [H | H]; [| auto].
  apply andb_true_iff in H; destruct H as [H1 H2].
  rewrite (run_lookup _ _ _ _ Hr H2).
  eapply performs_removes; eauto.
Qed.

Fixpoint assigned (ops : list op) : list string :=
  match ops with
  | [] => []
  | Assign n :: r => n :: assigned r
  | _ :: r => assigned r
  end.

Lemma performs_columns o df df' c :
  performs o df df' -> In c (columns df') ->
  In c (columns df) \/ is_indicator (snd c) \/ In (fst c) (assigned [o]).
Proof.
  destruct 1 as [df m s Hs | df l | df l]; simpl; intros Hc.
  - apply In_assign in Hc; destruct Hc as [-> | Hc]; simpl; auto.
  - apply In_remove_columns in Hc; tauto.
  - apply in_app_or in Hc; destruct Hc as [Hc | Hc].
    + apply In_remove_columns in Hc; tauto.
    + apply In_dummies in Hc; destruct Hc as (n & s & level & _ & _ & _ & ->).
      right; left; apply indicator_is_indicator.
Qed.

Lemma assigned_app ops1 ops2 :
  assigned (ops1 ++ ops2) = assigned ops1 ++ assigned ops2.
Proof.
  induction ops1 as [| [n | l | l] r IH]; simpl; now rewrite ?IH.
Qed.

(** A column of the table after the operations is a column of the table
    before them, an indicator column, or a column one of them has set. *)
Lemma run_columns ops df df' c :
  run ops df df' -> In c (columns df') ->
  In c (columns df) \/ is_indicator (snd c) \/ In (fst c) (assigned ops).
Proof.
  induction 1 as [| o ops a b d Hp Hr IH]; [auto |].
  intros Hc; destruct (IH Hc) as [H | [H | H]].
  - destruct (performs_columns _ _ _ _ Hp H) as [H' | [H' | H']]; auto.
    right; right; change (o :: ops) with ([o] ++ ops).
    rewrite assigned_app; apply in_or_app; auto.
  - auto.
  - right; right; change (o :: ops) with ([o] ++ ops).
    rewrite assigned_app; apply in_or_app; auto.
Qed.

Lemma encode_top_k_reads col k df df' :
  encode_top_k str_of_float col k df = inr df' ->
  exists s, lookup col (columns df) = Some s.
Proof.
  unfold encode_top_k; intros H; inv_bind H.
  apply getitem_inr in Ha; eauto.
Qed.

Lemma encode_top_k_other_reads col new k df df' :
  encode_top_k_other str_of_float col new k df = inr df' ->
  exists s, lookup col (columns df) = Some s.
Proof.
  unfold encode_top_k_other; intros H; inv_bind H.
  apply getitem_inr in Ha; eauto.
Qed.

Lemma kept_between n ops1 ops2 df d out :
  run ops1 df d -> run ops2 d out ->
  forallb (inert n) ops1 = true -> forallb (inert n) ops2 = true ->
  (exists s, lookup n (columns d) = Some s) ->
  exists s, lookup n (columns df) = Some s /\ lookup n (columns out) = Some s.
Proof.
  intros R1 R2 I1 I2 (s & Hs); exists s.
  rewrite (run_lookup _ _ _ _ R2 I2), <- (run_lookup _ _ _ _ R1 I1); auto.
Qed.

Definition top_k_sources : list string :=
  ["regionidcity"; "regionidzip"; "regionidneighborhood";
   "propertycountylandusecode"; "propertylandusetypeid"].

Definition encoded_away : list string :=
  ["regionidcity_top"; "regionidzip_top"; "regionidneighborhood_top";
   "propertycountylanduse_top"; "propertylandusetype_top";
   "airconditioningtypeid"; "heatingorsystemtypeid"; "fips";
   "regionidcounty"; "propertyzoningdesc"].

Lemma sources_kept df out :
  feature_engineering str_of_float df = inr out ->
  forall n, In n top_k_sources ->
  exists s, lookup n (columns df) = Some s /\ lookup n (columns out) = Some s.
Proof.
  intros H; apply feature_engineering_inr in H.
  destruct H as (pre & Hpre & Henc).
  apply clean_and_derive_run in Hpre.
  unfold encode_categoricals in Henc; inv_bind Henc.
  pose proof (encode_top_k_reads _ _ _ _ Ha) as S1.
  pose proof (encode_top_k_reads _ _ _ _ Ha0) as S2.
  pose proof (encode_top_k_reads _ _ _ _ Ha1) as S3.
  pose proof (encode_top_k_other_reads _ _ _ _ _ Ha2) as S4.
  pose proof (encode_top_k_other_reads _ _ _ _ _ Ha3) as S5.
  apply encode_top_k_run in Ha, Ha0, Ha1.
  apply encode_top_k_other_run in Ha2, Ha3.
  apply get_dummies_run in Ha4; apply drop_messy_run in Henc.
  pose proof (run_app _ _ _ _ _ Ha4 Henc) as T6.
  pose proof (run_app _ _ _ _ _ Ha3 T6) as T5.
  pose proof (run_app _ _ _ _ _ Ha2 T5) as T4.
  pose proof (run_app _ _ _ _ _ Ha1 T4) as T3.
  pose proof (run_app _ _ _ _ _ Ha0 T3) as T2.
  pose proof (run_app _ _ _ _ _ Ha T2) as T1.
  pose proof (run_app _ _ _ _ _ Hpre Ha) as P2.
  pose proof (run_app _ _ _ _ _ P2 Ha0) as P3.
  pose proof (run_app _ _ _ _ _ P3 Ha1) as P4.
  pose proof (run_app _ _ _ _ _ P4 Ha2) as P5.
  intros n [<- | [<- | [<- | [<- | [<- | []]]]]].
  - eapply kept_between;
      [exact Hpre | exact T1 | reflexivity | reflexivity | exact S1].
  - eapply kept_between;
      [exact P2 | exact T2 | reflexivity | reflexivity | exact S2].
  - eapply kept_between;
      [exact P3 | exact T3 | reflexivity | reflexivity | exact S3].
  - eapply kept_between;
      [exact P4 | exact T4 | reflexivity | reflexivity | exact S4].
  - eapply kept_between;
      [exact P5 | exact T5 | reflexivity | reflexivity | exact S5].
Qed.

(** C1, as the code has it.  When the transformation succeeds, the four
    low-cardinality columns, the five reduced columns [<col>_top] the
    top-K steps work on and [propertyzoningdesc] are no columns of the
    output; every column of the output is a 0/1 indicator column or a
    column of the table as it stood before the encodings; and the five
    columns the top-K steps read ([regionidcity], [regionidzip],
    [regionidneighborhood], [propertycountylandusecode],
    [propertylandusetypeid]) are still columns of the output, with the
    cells the input had. *)
Theorem categorical_encoding df out :
  feature_engineering str_of_float df = inr out ->
  (forall n, In n encoded_away -> ~ In n (names out)) /\
  (exists pre,
      clean_and_derive df = inr pre /\
      forall c, In c (columns out) ->
                is_indicator (snd c) \/ In c (columns pre)) /\
  (forall n, In n top_k_sources ->
             exists s, lookup n (columns df) = Some s /\
                       lookup n (columns out) = Some s).
Proof.
  intros H; split; [| split].
  - pose proof (feature_engineering_run _ _ H) as Hrun.
    intros n Hn; apply lookup_None.
    apply (run_removed _ _ _ _ Hrun).
    repeat (destruct Hn as [<- | Hn]; [reflexivity |]); destruct Hn.
  - destruct (feature_engineering_inr _ _ H) as (pre & Hpre & Henc).
    exists pre; split; [exact Hpre |].
    apply encode_categoricals_run in Henc.
    intros c Hc; destruct (run_columns _ _ _ _ Henc Hc) as [Hin | [Hi | Ha]];
      [auto | auto |].
    exfalso.
    assert (Hgone : lookup (fst c) (columns out) = None).
    { apply (run_removed _ _ _ _ Henc).
      simpl in Ha.
      repeat (destruct Ha as [<- | Ha]; [reflexivity |]); destruct Ha. }
    apply lookup_None in Hgone; apply Hgone.
    apply in_map_iff; exists c; auto.
  - exact (sources_kept _ _ H).
Qed.

(** ** Equality of cells *)

Lemma eqb_cases x y :
  F64.eqb x y = true ->
  (exists s s', x = S754_zero s /\ y = S754_zero s') \/
  (x = y /\ is_nan x = false).
Proof.
  unfold F64.eqb, SFeqb.
  destruct x as [s | s | | s m e]; destruct y as [s' | s' | | s' m' e'];
    simpl; try discriminate; try (destruct s; discriminate);
    try (destruct s'; discriminate).
  - intros _; left; eauto.
  - destruct s, s'; try discriminate; intros _; right; auto.
  - destruct s, s'; try discriminate;
      destruct (Z.compare e e') eqn:Ee; try discriminate;
      destruct (Pos.compare_cont Eq m m') eqn:Em; try discriminate;
      intros _; right; split; try reflexivity;
      apply Z.compare_eq in Ee; apply Pos.compare_eq in Em; now subst.
Qed.

Lemma eqb_refl x : is_nan x = false -> F64.eqb x x = true.
Proof.
  unfold F64.eqb, SFeqb; destruct x as [s | s | | s m e]; simpl;
    try discriminate; intros _; try reflexivity.
  - now destruct s.
  - rewrite Z.compare_refl.
    change (Pos.compare_cont Eq m m) with (Pos.compare m m).
    rewrite Pos.compare_refl; now destruct s.
Qed.

Lemma eqb_zero s s' z :
  F64.eqb (S754_zero s) z = F64.eqb (S754_zero s') z.
Proof. now destruct z. Qed.

Lemma cell_eqb_refl c : is_null c = false -> cell_eqb c c = true.
Proof.
  destruct c as [x | s]; simpl; [apply eqb_refl | intros _; apply String.eqb_refl].
Qed.

(** Two equal cells are equal to the same cells. *)
Lemma cell_eqb_left a b c :
  cell_eqb a b = true -> cell_eqb a c = cell_eqb b c.
Proof.
  destruct a as [x | s]; destruct b as [y | t]; simpl; try discriminate.
  - intros H; destruct (eqb_cases _ _ H) as [(u & u' & -> & ->) | [-> _]];
      [| reflexivity].
    destruct c; [apply eqb_zero | reflexivity].
  - intros H; apply String.eqb_eq in H; now subst.
Qed.

Lemma count_cell_eqb a b s :
  cell_eqb a b = true -> count_cell a s = count_cell b s.
Proof.
  intros H; unfold count_cell; f_equal.
  apply filter_ext; intros c; now apply cell_eqb_left.
Qed.

(** ** Counting and sorting *)

Lemma In_insert_count x y l : In x (insert_count y l) <-> x = y \/ In x l.
Proof.
  induction l as [| z r IH]; simpl.
  - intuition.
  - destruct (Nat.leb (snd z) (snd y)); simpl; rewrite ?IH; intuition.
Qed.

Lemma In_sort_counts x l : In x (sort_counts l) <-> In x l.
Proof.
  induction l as [| y r IH]; simpl; [tauto |].
  rewrite In_insert_count, IH; intuition.
Qed.

Lemma In_insert_cell x y l : In x (insert_cell y l) <-> x = y \/ In x l.
Proof.
  induction l as [| z r IH]; simpl.
  - intuition.
  - destruct (cell_leb y z); simpl; rewrite ?IH; intuition.
Qed.

Lemma In_sort_cells x l : In x (sort_cells l) <-> In x l.
Proof.
  induction l as [| y r IH]; simpl; [tauto |].
  rewrite In_insert_cell, IH; intuition.
Qed.

Lemma In_uniques x s : In x (uniques s) -> In x s /\ is_null x = false.
Proof.
  induction s as [| c r IH]; simpl; [tauto |].
  destruct (is_null c) eqn:E.
  - intros H; destruct (IH H); auto.
  - intros [<- | H]; [auto |].
    apply filter_In in H; destruct H as [H _]; destruct (IH H); auto.
Qed.

(** Every value of a column has its first occurrence among the distinct
    values. *)
Lemma uniques_complete x s :
  In x s -> is_null x = false ->
  exists y, In y (uniques s) /\ cell_eqb y x = true.
Proof.
  intros Hx Hnull; induction s as [| c r IH]; simpl in *; [contradiction |].
  destruct Hx as [-> | Hx].
  - rewrite Hnull; exists x; split; [now left | now apply cell_eqb_refl].
  - destruct (IH Hx) as (y & Hy & Hyx).
    destruct (is_null c); [eauto |].
    destruct (cell_eqb c y) eqn:E.
    + exists c; split; [now left |].
      now rewrite (cell_eqb_left _ _ x E).
    + exists y; split; [| exact Hyx].
      right; apply filter_In; split; [exact Hy | now rewrite E].
Qed.

Lemma In_value_counts v c s :
  In (v, c) (value_counts s) ->
  c = count_cell v s /\ In v s /\ is_null v = false.
Proof.
  unfold value_counts; rewrite In_sort_counts, in_map_iff.
  intros (x & Hx & Hin); inversion Hx; subst.
  split; [reflexivity | now apply In_uniques].
Qed.

(** ** Top-K encoding *)

(** What [np.where(s.isin(top), s, "other")] leaves of a cell it keeps. *)
Definition kept_as (s : Series) (x : cell) : cell :=
  if is_object s then x else Str (cell_str str_of_float x).

Lemma where_isin_other_map top s :
  where_isin_other str_of_float top s =
  map (fun x => if isin x top then kept_as s x else Str "other") s.
Proof.
  unfold where_isin_other, kept_as; destruct (is_object s);
    apply map_ext; intros x; now destruct (isin x top).
Qed.

Lemma remove_assign n s cs :
  remove_columns [n] (assign n s cs) = remove_columns [n] cs.
Proof.
  induction cs as [| [k t] r IH]; simpl.
  - unfold mem; simpl; now rewrite String.eqb_refl.
  - destruct (String.eqb k n) eqn:E; simpl; unfold mem; simpl;
      rewrite ?String.eqb_refl, ?E; simpl; [reflexivity |].
    f_equal; exact IH.
Qed.

Lemma encode_top_k_other_spec col new k df out s :
  lookup col (columns df) = Some s ->
  encode_top_k_other str_of_float col new k df = inr out ->
  nrows out = nrows df /\
  columns out =
    remove_columns [new] (columns df)
    ++ dummies_1d str_of_float new
         (where_isin_other str_of_float (top_values k s) s).
Proof.
  intros Hs; unfold encode_top_k_other, getitem; rewrite Hs; simpl.
  intros H; apply get_dummies_inr in H; subst out; simpl.
  unfold dummies_of; rewrite lookup_assign_same, remove_assign, app_nil_r.
  auto.
Qed.

Lemma kept_as_not_null s x : is_null x = false -> is_null (kept_as s x) = false.
Proof. unfold kept_as; now destruct (is_object s). Qed.

(** C3.  The step that encodes [propertylandusetypeid] with K = 5, on a
    column of seven distinct values whose counts are strictly ordered
    ([v1] the most frequent, [v7] the least): every cell holding one of the
    two least frequent values becomes ["other"]; the columns the step adds
    are the indicator columns of the categories of the reduced column but
    the first; each category is ["other"] or what a cell holding one of the
    five most frequent values was kept as, so no column is made for the
    two least frequent values; and each of the five most frequent values
    has a category, which is the first one (the dropped reference) or has
    its indicator column in the result. *)
Theorem top_5_encoding df out s v1 v2 v3 v4 v5 v6 v7 c1 c2 c3 c4 c5 c6 c7 :
  lookup "propertylandusetypeid" (columns df) = Some s ->
  value_counts s =
    [(v1, c1); (v2, c2); (v3, c3); (v4, c4); (v5, c5); (v6, c6); (v7, c7)] ->
  c7 < c6 /\ c6 < c5 /\ c5 < c4 /\ c4 < c3 /\ c3 < c2 /\ c2 < c1 ->
  encode_top_k_other str_of_float "propertylandusetypeid"
                     "propertylandusetype_top" 5 df = inr out ->
  let top := [v1; v2; v3; v4; v5] in
  let reduced := where_isin_other str_of_float top s in
  (forall i x,
      nth_error s i = Some x ->
      cell_eqb x v6 = true \/ cell_eqb x v7 = true ->
      nth_error reduced i = Some (Str "other")) /\
  columns out =
    remove_columns ["propertylandusetype_top"] (columns df)
    ++ map (fun level =>
              (dummy_name str_of_float "propertylandusetype_top" level,
               indicator level reduced))
           (tl (levels reduced)) /\
  (forall level,
      In level (levels reduced) ->
      level = Str "other" \/
      exists x, In x s /\ isin x top = true /\ level = kept_as s x) /\
  (forall v,
      In v top ->
      exists level,
        cell_eqb level (kept_as s v) = true /\
        (hd_error (levels reduced) = Some level \/
         In (dummy_name str_of_float "propertylandusetype_top" level,
             indicator level reduced) (columns out))).
Proof.
  intros Hs Hvc Hlt Henc top reduced.
  assert (Htop : top_values 5 s = top).
  { unfold top_values; rewrite Hvc; reflexivity. }
  destruct (encode_top_k_other_spec _ _ _ _ _ _ Hs Henc) as (_ & Hcols).
  rewrite Htop in Hcols; fold reduced in Hcols.
  assert (Hin : forall v c, In (v, c) (value_counts s) ->
                c = count_cell v s /\ In v s /\ is_null v = false).
  { intros v c; apply In_value_counts. }
  rewrite Hvc in Hin.
  assert (Hlow : forall x, cell_eqb x v6 = true \/ cell_eqb x v7 = true ->
                 isin x top = false).
  { intros x Hx.
    assert (Hc : count_cell x s = c6 \/ count_cell x s = c7).
    { destruct Hx as [Hx | Hx]; rewrite (count_cell_eqb _ _ s Hx);
        [left; symmetry; apply (Hin v6 c6) | right; symmetry; apply (Hin v7 c7)];
        simpl; tauto. }
    apply not_true_is_false; intros Hisin.
    unfold isin in Hisin; apply existsb_exists in Hisin.
    destruct Hisin as (v & Hv & Hxv).
    rewrite (count_cell_eqb _ _ s Hxv) in Hc.
    unfold top in Hv; simpl in Hv.
    destruct Hv as [<- | [<- | [<- | [<- | [<- | []]]]]].
    - destruct (Hin v1 c1) as (E & _); [simpl; tauto |]; lia.
    - destruct (Hin v2 c2) as (E & _); [simpl; tauto |]; lia.
    - destruct (Hin v3 c3) as (E & _); [simpl; tauto |]; lia.
    - destruct (Hin v4 c4) as (E & _); [simpl; tauto |]; lia.
    - destruct (Hin v5 c5) as (E & _); [simpl; tauto |]; lia. }
  assert (Hred : reduced =
            map (fun x => if isin x top then kept_as s x else Str "other") s).
  { apply where_isin_other_map. }
  split; [| split; [| split]].
  - intros i x Hx Hv; rewrite Hred, nth_error_map, Hx; cbn [option_map].
    now rewrite (Hlow x Hv).
  - exact Hcols.
  - intros level Hl; unfold levels in Hl.
    apply In_sort_cells, In_uniques in Hl; destruct Hl as [Hl _].
    rewrite Hred in Hl; apply in_map_iff in Hl.
    destruct Hl as (x & Hx & Hxs).
    destruct (isin x top) eqn:E; [right; exists x; auto | left; auto].
  - intros v Hv.
    assert (Hvs : In v s /\ is_null v = false).
    { unfold top in Hv; simpl in Hv.
      destruct Hv as [<- | [<- | [<- | [<- | [<- | []]]]]].
      - apply (Hin v1 c1); simpl; tauto.
      - apply (Hin v2 c2); simpl; tauto.
      - apply (Hin v3 c3); simpl; tauto.
      - apply (Hin v4 c4); simpl; tauto.
      - apply (Hin v5 c5); simpl; tauto. }
    destruct Hvs as [Hvs Hnull].
    assert (Hisin : isin v top = true).
    { unfold isin; apply existsb_exists; exists v; split;
        [exact Hv | now apply cell_eqb_refl]. }
    assert (Hk : In (kept_as s v) reduced).
    { rewrite Hred; apply in_map_iff; exists v; now rewrite Hisin. }
    destruct (uniques_complete _ _ Hk (kept_as_not_null s v Hnull))
      as (level & Hlevel & Heq).
    exists level; split; [exact Heq |].
    assert (Hl : In level (levels reduced)).
    { unfold levels; now apply In_sort_cells. }
    rewrite Hcols; unfold dummies_1d.
    destruct (levels reduced) as [| first rest]; [contradiction |].
    destruct Hl as [-> | Hl]; [left; reflexivity | right].
    apply in_or_app; right; simpl.
    apply in_map_iff; exists level; auto.
Qed.

(** ** Derived features *)

(** The division of [add_ratio] raises on no value: with its two columns
    numeric the step succeeds, whatever the denominators. *)
Lemma add_ratio_total out num den df n d :
  lookup num (columns df) = Some (of_floats n) ->
  lookup den (columns df) = Some (of_floats d) ->
  add_ratio out num den df =
    inr (setitem df out (of_floats (map2 ratio n d))).
Proof.
  intros Hn Hd; unfold add_ratio, getitem; rewrite Hn, Hd; simpl.
  now rewrite !as_float64_of_floats.
Qed.

(** C4, as the code has it.  When the transformation succeeds, row by
    row: [price_per_sqft] is the assessed value over the finished area
    plus [1e-5], [age_of_home] is 2025 minus the year built,
    [bath_per_bed] is the bathrooms over the bedrooms plus [1e-5],
    [rooms_per_sqft] is the repaired room count over the finished area
    plus [1e-5] and [garage_sqft_ratio] is the cleaned garage area over
    the finished area plus [1e-5].  The divisions raise on no value.  On
    a row with a finished area of 0 the divisor is [1e-5] itself and
    [price_per_sqft] is finite when the assessed value is finite and
    below [2^1006] in magnitude. *)
Theorem derived_features df out :
  feature_engineering str_of_float df = inr out ->
  exists tax sqft year bath bed rooms garage price age bpb rps gsr,
    (lookup "taxvaluedollarcnt" (columns df) = Some (of_floats tax) /\
     lookup "calculatedfinishedsquarefeet" (columns df)
       = Some (of_floats sqft) /\
     lookup "yearbuilt" (columns df) = Some (of_floats year) /\
     lookup "bathroomcnt" (columns df) = Some (of_floats bath) /\
     lookup "bedroomcnt" (columns df) = Some (of_floats bed) /\
     lookup "roomcnt_fixed" (columns out) = Some (of_floats rooms) /\
     lookup "garagetotalsqft" (columns out) = Some (of_floats garage)) /\
    (lookup "price_per_sqft" (columns out) = Some (of_floats price) /\
     lookup "age_of_home" (columns out) = Some (of_floats age) /\
     lookup "bath_per_bed" (columns out) = Some (of_floats bpb) /\
     lookup "rooms_per_sqft" (columns out) = Some (of_floats rps) /\
     lookup "garage_sqft_ratio" (columns out) = Some (of_floats gsr)) /\
    (forall i v a,
        nth_error tax i = Some v -> nth_error sqft i = Some a ->
        nth_error price i = Some (div v (add a eps))) /\
    (forall i y,
        nth_error year i = Some y ->
        nth_error age i = Some (sub (of_Z 2025) y)) /\
    (forall i b d,
        nth_error bath i = Some b -> nth_error bed i = Some d ->
        nth_error bpb i = Some (div b (add d eps))) /\
    (forall i r a,
        nth_error rooms i = Some r -> nth_error sqft i = Some a ->
        nth_error rps i = Some (div r (add a eps))) /\
    (forall i g a,
        nth_error garage i = Some g -> nth_error sqft i = Some a ->
        nth_error gsr i = Some (div g (add a eps))) /\
    (forall t n d,
        lookup "taxvaluedollarcnt" (columns t) = Some (of_floats n) ->
        lookup "calculatedfinishedsquarefeet" (columns t)
          = Some (of_floats d) ->
        exists t',
          add_ratio "price_per_sqft" "taxvaluedollarcnt"
                    "calculatedfinishedsquarefeet" t = inr t') /\
    (forall i v,
        nth_error tax i = Some v -> nth_error sqft i = Some (of_Z 0) ->
        nth_error price i = Some (div v eps) /\
        (magnitude_below 1006 v = true -> is_finite (div v eps) = true)).
Proof.
  intros H; apply derived_columns in H.
  destruct H as (tax & sqft & year & bath & bed & rooms & garage & Htax &
    Hsqft & Hyear & Hbath & Hbed & Hrooms & Hgarage & Hp & Ha & Hb & Hr & Hg).
  exists tax, sqft, year, bath, bed, rooms, garage.
  exists (map2 ratio tax sqft), (map age_of_home year), (map2 ratio bath bed),
    (map2 ratio rooms sqft), (map2 ratio garage sqft).
  split; [repeat split; assumption |].
  split; [repeat split; assumption |].
  split; [intros i v a Hv Ha'; exact (nth_error_map2 ratio _ _ i v a Hv Ha') |].
  split; [intros i y Hy; now rewrite nth_error_map, Hy |].
  split; [intros i b d Hb' Hd; exact (nth_error_map2 ratio _ _ i b d Hb' Hd) |].
  split; [intros i r a Hr' Ha'; exact (nth_error_map2 ratio _ _ i r a Hr' Ha') |].
  split; [intros i g a Hg' Ha'; exact (nth_error_map2 ratio _ _ i g a Hg' Ha') |].
  split.
  - intros t n d Hn Hd; eexists; apply add_ratio_total; eassumption.
  - intros i v Hv Hz; split.
    + rewrite (nth_error_map2 ratio _ _ i v _ Hv Hz).
      now rewrite ratio_zero_den.
    + apply div_eps_finite.
Qed.

(** * Further properties of the transformation *)

(** ** A second application *)

(** X1.  The output of the transformation cannot be transformed again:
    it has no column [roomcnt], which the first statement reads, so a
    second application raises the wrapped [KeyError] of [roomcnt]. *)
Theorem transform_once df out :
  feature_engineering str_of_float df = inr out ->
  feature_engineering str_of_float out
    = inl (CustomException (KeyError "roomcnt")).
Proof.
  intros H; apply feature_engineering_run in H.
  assert (Hgone : lookup "roomcnt" (columns out) = None)
    by (apply (run_removed _ _ _ _ H); reflexivity).
  unfold feature_engineering, feature_engineering_body, clean_and_derive,
    fix_room_count, getitem.
  now rewrite Hgone.
Qed.

(** ** Columns the transformation does not name *)

(** The columns a statement of the transformation sets or removes. *)
Definition named_columns : list string :=
  ["roomcnt_fixed"; "roomcnt"; "garagetotalsqft"; "price_per_sqft";
   "age_of_home"; "bath_per_bed"; "rooms_per_sqft"; "garage_sqft_ratio";
   "multi_unit"; "has_garage"; "regionidcity_top"; "regionidzip_top";
   "regionidneighborhood_top"; "propertycountylanduse_top";
   "propertylandusetype_top"; "airconditioningtypeid";
   "heatingorsystemtypeid"; "fips"; "regionidcounty"; "propertyzoningdesc"].

(** The columns [pd.get_dummies] is called on. *)
Definition encoded_columns : list string :=
  ["regionidcity_top"; "regionidzip_top"; "regionidneighborhood_top";
   "propertycountylanduse_top"; "propertylandusetype_top";
   "airconditioningtypeid"; "heatingorsystemtypeid"; "fips";
   "regionidcounty"].

Lemma inert_everywhere n :
  mem n named_columns = false ->
  dummy_prefixed encoded_columns n = false ->
  forallb (inert n) (clean_ops ++ encode_ops) = true.
Proof.
  unfold mem, dummy_prefixed, named_columns, encoded_columns.
  cbn [existsb]; intros Hm Hp.
  repeat (apply orb_false_iff in Hm; destruct Hm as [? Hm]).
  repeat (apply orb_false_iff in Hp; destruct Hp as [? Hp]).
  cbn [forallb app clean_ops engineered_ops flag_ops encode_ops low_card inert
       mem dummy_prefixed existsb].
  repeat match goal with
         | H : String.eqb n ?m = false |- _ =>
             rewrite ?H; rewrite (String.eqb_sym n m) in H; rewrite ?H;
             clear H
         end.
  repeat match goal with
         | H : _ = false |- _ => rewrite ?H; clear H
         end.
  reflexivity.
Qed.

(** X2.  A column the transformation does not name, and whose name does
    not begin like an indicator column of an encoded column, goes
    through unchanged: the output has it exactly when the input has it,
    with the same cells. *)
Theorem unnamed_columns_unchanged df out n :
  feature_engineering str_of_float df = inr out ->
  mem n named_columns = false ->
  dummy_prefixed encoded_columns n = false ->
  lookup n (columns out) = lookup n (columns df).
Proof.
  intros H Hm Hp; apply feature_engineering_run in H.
  apply (run_lookup _ _ _ _ H); now apply inert_everywhere.
Qed.

(** ** The columns the transformation needs *)

(** The measures the transformation computes with. *)
Definition measure_columns : list string :=
  ["roomcnt"; "bedroomcnt"; "bathroomcnt"; "garagetotalsqft";
   "garagecarcnt"; "taxvaluedollarcnt"; "calculatedfinishedsquarefeet";
   "yearbuilt"; "unitcnt"].

(** The columns it encodes. *)
Definition categorical_columns : list string := top_k_sources ++ low_card.

Definition present (df : DataFrame) (n : string) : Prop :=
  exists s, lookup n (columns df) = Some s.

Definition numeric (df : DataFrame) (n : string) : Prop :=
  exists xs, lookup n (columns df) = Some (of_floats xs).

Lemma numeric_present df n : numeric df n -> present df n.
Proof. intros (xs & H); exists (of_floats xs); exact H. Qed.

Lemma run_present n ops df df' :
  run ops df df' -> forallb (inert n) ops = true ->
  (present df' n <-> present df n).
Proof.
  intros Hr Hi; unfold present; now rewrite (run_lookup _ _ _ _ Hr Hi).
Qed.

Lemma run_numeric n ops df df' :
  run ops df df' -> forallb (inert n) ops = true ->
  (numeric df' n <-> numeric df n).
Proof.
  intros Hr Hi; unfold numeric; now rewrite (run_lookup _ _ _ _ Hr Hi).
Qed.

Lemma first_missing_None l cs :
  first_missing l cs = None <->
  forall n, In n l -> exists s, lookup n cs = Some s.
Proof.
  induction l as [| m r IH]; simpl.
  - split; [intros _ n [] | reflexivity].
  - destruct (lookup m cs) as [s |] eqn:E.
    + rewrite IH; split.
      * intros H n [<- | Hn]; eauto.
      * intros H n Hn; apply H; now right.
    + split; [discriminate |].
      intros H; destruct (H m (or_introl eq_refl)) as (s & Hs); congruence.
Qed.

Lemma get_dummies_present df l df' :
  get_dummies str_of_float df l = inr df' ->
  forall n, In n l -> present df n.
Proof.
  unfold get_dummies; destruct (first_missing l (columns df)) eqn:E;
    [discriminate |].
  intros _; now apply first_missing_None.
Qed.

Definition before_low_card_ops : list op :=
  clean_ops
  ++ [Assign "regionidcity_top"; Dummies ["regionidcity_top"];
      Assign "regionidzip_top"; Dummies ["regionidzip_top"];
      Assign "regionidneighborhood_top"; Dummies ["regionidneighborhood_top"];
      Assign "propertycountylanduse_top"; Dummies ["propertycountylanduse_top"];
      Assign "propertylandusetype_top"; Dummies ["propertylandusetype_top"]].

Lemma low_card_present df out :
  feature_engineering str_of_float df = inr out ->
  forall n, In n low_card -> present df n.
Proof.
  intros H; apply feature_engineering_inr in H.
  destruct H as (pre & Hpre & Henc).
  apply clean_and_derive_run in Hpre.
  unfold encode_categoricals in Henc; inv_bind Henc.
  pose proof (get_dummies_present _ _ _ Ha4) as Hlow.
  apply encode_top_k_run in Ha, Ha0, Ha1.
  apply encode_top_k_other_run in Ha2, Ha3.
  assert (Hrun : run before_low_card_ops df a3).
  { exact (run_app _ _ _ _ _ Hpre
             (run_app _ _ _ _ _ Ha
                (run_app _ _ _ _ _ Ha0
                   (run_app _ _ _ _ _ Ha1 (run_app _ _ _ _ _ Ha2 Ha3))))). }
  intros n Hn; specialize (Hlow n Hn).
  simpl in Hn.
  repeat (destruct Hn as [<- | Hn];
          [apply (run_present _ _ _ _ Hrun); [reflexivity | exact Hlow] |]).
  destruct Hn.
Qed.

(** The columns a successful transformation has read. *)
Lemma columns_read df out :
  feature_engineering str_of_float df = inr out ->
  (forall n, In n measure_columns -> numeric df n) /\
  (forall n, In n categorical_columns -> present df n).
Proof.
  intros H; split.
  - destruct (feature_engineering_stages _ _ H)
      as (df1 & _ & _ & _ & H1 & _).
    destruct (fix_room_count_spec _ _ H1)
      as (room & bed & bath & Hroom & Hbed & Hbath & _).
    destruct (garage_columns _ _ H) as (sqft & car & Hsqft & Hcar & _).
    destruct (derived_columns _ _ H)
      as (tax & fin & year & _ & _ & _ & _ & Htax & Hfin & Hyear & _).
    destruct (flag_columns _ _ H) as (unit & _ & _ & Hunit & _).
    intros n Hn; simpl in Hn; unfold numeric.
    repeat (destruct Hn as [<- | Hn]; [eauto |]); destruct Hn.
  - intros n Hn; apply in_app_or in Hn; destruct Hn as [Hn | Hn].
    + destruct (sources_kept _ _ H n Hn) as (s & Hs & _); exists s; exact Hs.
    + exact (low_card_present _ _ H n Hn).
Qed.

(** X3.  The transformation needs each of its nine measure columns and
    nine categorical columns: when one of them is not a column of the
    table, it raises, and what it raises is a [CustomException]. *)
Theorem missing_column_raises df n :
  In n (measure_columns ++ categorical_columns) ->
  lookup n (columns df) = None ->
  exists e, feature_engineering str_of_float df = inl (CustomException e).
Proof.
  intros Hn Hnone.
  destruct (feature_engineering str_of_float df) as [err | out] eqn:E.
  - unfold feature_engineering in E; apply try_except_inl in E.
    destruct E as (e & -> & _); eauto.
  - exfalso; destruct (columns_read _ _ E) as (Hm & Hc).
    apply in_app_or in Hn; destruct Hn as [Hn | Hn].
    + destruct (Hm n Hn) as (xs & Hxs); congruence.
    + destruct (Hc n Hn) as (s & Hs); congruence.
Qed.

(** ** When the transformation succeeds *)

Lemma fix_room_count_total df :
  numeric df "roomcnt" -> numeric df "bedroomcnt" ->
  numeric df "bathroomcnt" ->
  exists df', fix_room_count df = inr df'.
Proof.
  intros (room & Hroom) (bed & Hbed) (bath & Hbath).
  unfold fix_room_count, getitem; rewrite Hroom, Hbed, Hbath; simpl.
  rewrite !as_float64_of_floats; simpl.
  unfold drop, setitem; simpl.
  rewrite lookup_assign_other, Hroom by reflexivity; eauto.
Qed.

Lemma clean_garage_sqft_total df :
  numeric df "garagetotalsqft" -> numeric df "garagecarcnt" ->
  exists df', clean_garage_sqft df = inr df'.
Proof.
  intros (sqft & Hsqft) (car & Hcar).
  unfold clean_garage_sqft, getitem; rewrite Hsqft, Hcar; simpl.
  rewrite !as_float64_of_floats; simpl; eauto.
Qed.

Lemma add_ratio_succeeds out num den df :
  numeric df num -> numeric df den ->
  exists df', add_ratio out num den df = inr df'.
Proof.
  intros (n & Hn) (d & Hd); eexists; apply add_ratio_total; eassumption.
Qed.

Lemma add_age_of_home_total df :
  numeric df "yearbuilt" -> exists df', add_age_of_home df = inr df'.
Proof.
  intros (year & Hyear).
  unfold add_age_of_home, getitem; rewrite Hyear; simpl.
  rewrite as_float64_of_floats; simpl; eauto.
Qed.

Lemma engineered_features_total df :
  numeric df "taxvaluedollarcnt" ->
  numeric df "calculatedfinishedsquarefeet" ->
  numeric df "yearbuilt" -> numeric df "bathroomcnt" ->
  numeric df "bedroomcnt" -> numeric df "roomcnt_fixed" ->
  numeric df "garagetotalsqft" ->
  exists df', engineered_features df = inr df'.
Proof.
  intros Htax Hfin Hyear Hbath Hbed Hrooms Hgarage.
  unfold engineered_features.
  destruct (add_ratio_succeeds "price_per_sqft" _ _ _ Htax Hfin) as (d1 & E1).
  pose proof (add_ratio_run _ _ _ _ _ E1) as R1.
  rewrite E1; simpl.
  destruct (add_age_of_home_total d1) as (d2 & E2);
    [apply (run_numeric _ _ _ _ R1); [reflexivity | exact Hyear] |].
  pose proof (run_app _ _ _ _ _ R1 (add_age_of_home_run _ _ E2)) as R2.
  rewrite E2; simpl.
  destruct (add_ratio_succeeds "bath_per_bed" "bathroomcnt" "bedroomcnt" d2)
    as (d3 & E3);
    [apply (run_numeric _ _ _ _ R2); [reflexivity | exact Hbath]
    |apply (run_numeric _ _ _ _ R2); [reflexivity | exact Hbed] |].
  pose proof (run_app _ _ _ _ _ R2 (add_ratio_run _ _ _ _ _ E3)) as R3.
  rewrite E3; simpl.
  destruct (add_ratio_succeeds "rooms_per_sqft" "roomcnt_fixed"
              "calculatedfinishedsquarefeet" d3) as (d4 & E4);
    [apply (run_numeric _ _ _ _ R3); [reflexivity | exact Hrooms]
    |apply (run_numeric _ _ _ _ R3); [reflexivity | exact Hfin] |].
  pose proof (run_app _ _ _ _ _ R3 (add_ratio_run _ _ _ _ _ E4)) as R4.
  rewrite E4; simpl.
  apply add_ratio_succeeds;
    (apply (run_numeric _ _ _ _ R4); [reflexivity | assumption]).
Qed.

Lemma binary_flags_total df :
  numeric df "unitcnt" -> numeric df "garagecarcnt" ->
  numeric df "garagetotalsqft" ->
  exists df', binary_flags df = inr df'.
Proof.
  intros (unit & Hunit) (car & Hcar) (sqft & Hsqft).
  unfold binary_flags, getitem; rewrite Hunit; simpl.
  rewrite as_float64_of_floats; simpl.
  rewrite !lookup_assign_other by reflexivity.
  rewrite Hcar; simpl; rewrite as_float64_of_floats; simpl.
  rewrite Hsqft; simpl; rewrite as_float64_of_floats; simpl; eauto.
Qed.

Lemma get_dummies_total df l :
  (forall n, In n l -> present df n) ->
  exists df', get_dummies str_of_float df l = inr df'.
Proof.
  intros H; unfold get_dummies.
  replace (first_missing l (columns df)) with (@None string);
    [eauto | symmetry; now apply first_missing_None].
Qed.

Lemma encode_top_k_total col k df :
  present df col -> exists df', encode_top_k str_of_float col k df = inr df'.
Proof.
  intros (s & Hs); unfold encode_top_k, getitem; rewrite Hs; simpl.
  apply get_dummies_total; intros n [<- | []].
  eexists; simpl; apply lookup_assign_same.
Qed.

Lemma encode_top_k_other_total col new k df :
  present df col ->
  exists df', encode_top_k_other str_of_float col new k df = inr df'.
Proof.
  intros (s & Hs); unfold encode_top_k_other, getitem; rewrite Hs; simpl.
  apply get_dummies_total; intros n [<- | []].
  eexists; simpl; apply lookup_assign_same.
Qed.

Lemma drop_messy_total df : exists df', drop_messy df = inr df'.
Proof.
  unfold drop_messy; destruct (mem "propertyzoningdesc" (names df)) eqn:E;
    [| eauto].
  unfold drop; replace (first_missing ["propertyzoningdesc"] (columns df))
    with (@None string); [eauto |].
  symmetry; apply first_missing_None; intros n [<- | []].
  destruct (lookup "propertyzoningdesc" (columns df)) as [s |] eqn:L; [eauto |].
  apply lookup_None in L; exfalso; apply L.
  unfold mem in E; apply existsb_exists in E; destruct E as (m & Hm & E).
  apply String.eqb_eq in E; now subst m.
Qed.

Lemma encode_categoricals_total df :
  (forall n, In n categorical_columns -> present df n) ->
  exists out, encode_categoricals str_of_float df = inr out.
Proof.
  intros H; unfold encode_categoricals.
  destruct (encode_top_k_total "regionidcity" 50 df) as (d1 & E1);
    [apply H; simpl; tauto |].
  pose proof (encode_top_k_run _ _ _ _ E1) as R1.
  rewrite E1; simpl.
  destruct (encode_top_k_total "regionidzip" 50 d1) as (d2 & E2);
    [apply (run_present _ _ _ _ R1); [reflexivity | apply H; simpl; tauto] |].
  pose proof (run_app _ _ _ _ _ R1 (encode_top_k_run _ _ _ _ E2)) as R2.
  rewrite E2; simpl.
  destruct (encode_top_k_total "regionidneighborhood" 50 d2) as (d3 & E3);
    [apply (run_present _ _ _ _ R2); [reflexivity | apply H; simpl; tauto] |].
  pose proof (run_app _ _ _ _ _ R2 (encode_top_k_run _ _ _ _ E3)) as R3.
  rewrite E3; simpl.
  destruct (encode_top_k_other_total "propertycountylandusecode"
              "propertycountylanduse_top" 15 d3) as (d4 & E4);
    [apply (run_present _ _ _ _ R3); [reflexivity | apply H; simpl; tauto] |].
  pose proof (run_app _ _ _ _ _ R3 (encode_top_k_other_run _ _ _ _ _ E4)) as R4.
  rewrite E4; simpl.
  destruct (encode_top_k_other_total "propertylandusetypeid"
              "propertylandusetype_top" 5 d4) as (d5 & E5);
    [apply (run_present _ _ _ _ R4); [reflexivity | apply H; simpl; tauto] |].
  pose proof (run_app _ _ _ _ _ R4 (encode_top_k_other_run _ _ _ _ _ E5)) as R5.
  rewrite E5; simpl.
  destruct (get_dummies_total d5 low_card) as (d6 & E6).
  { intros n Hn.
    assert (Hc : present df n) by (apply H, in_or_app; now right).
    simpl in Hn.
    repeat (destruct Hn as [<- | Hn];
            [apply (run_present _ _ _ _ R5); [reflexivity | exact Hc] |]).
    destruct Hn. }
  rewrite E6; simpl.
  apply drop_messy_total.
Qed.

(** X4.  The transformation succeeds on every table that has its nine
    measure columns as columns of numbers (missing values allowed) and
    its nine categorical columns: no value of a cell makes it raise. *)
Theorem transform_succeeds df :
  (forall n, In n measure_columns -> numeric df n) ->
  (forall n, In n categorical_columns -> present df n) ->
  exists out, feature_engineering str_of_float df = inr out.
Proof.
  intros Hm Hc.
  destruct (fix_room_count_total df) as (d1 & E1);
    try (apply Hm; simpl; tauto).
  pose proof (fix_room_count_run _ _ E1) as R1.
  destruct (fix_room_count_spec _ _ E1)
    as (room & bed & bath & _ & _ & _ & Hfixed & _).
  destruct (clean_garage_sqft_total d1) as (d2 & E2);
    try (apply (run_numeric _ _ _ _ R1); [reflexivity | apply Hm; simpl; tauto]).
  pose proof (run_app _ _ _ _ _ R1 (clean_garage_sqft_run _ _ E2)) as R2.
  destruct (clean_garage_sqft_spec _ _ E2) as (sqft & car & _ & _ & Hclean).
  destruct (engineered_features_total d2) as (d3 & E3);
    try (apply (run_numeric _ _ _ _ R2); [reflexivity | apply Hm; simpl; tauto]).
  { exists (roomcnt_fixed_col room bed bath).
    rewrite <- Hfixed.
    apply (run_lookup _ _ _ _ (clean_garage_sqft_run _ _ E2)); reflexivity. }
  { eexists; exact Hclean. }
  pose proof (engineered_features_run _ _ E3) as S3.
  pose proof (run_app _ _ _ _ _ R2 S3) as R3.
  destruct (binary_flags_total d3) as (d4 & E4);
    try (apply (run_numeric _ _ _ _ R3); [reflexivity | apply Hm; simpl; tauto]).
  { apply (run_numeric _ _ _ _ S3); [reflexivity | eexists; exact Hclean]. }
  pose proof (run_app _ _ _ _ _ R3 (binary_flags_run _ _ E4)) as R4.
  destruct (encode_categoricals_total d4) as (out & E5).
  { intros n Hn; specialize (Hc n Hn).
    apply in_app_or in Hn; simpl in Hn.
    destruct Hn as [Hn | Hn];
      repeat (destruct Hn as [<- | Hn];
              [apply (run_present _ _ _ _ R4); [reflexivity | exact Hc] |]);
      destruct Hn. }
  exists out.
  unfold feature_engineering, feature_engineering_body, clean_and_derive.
  now rewrite E1; simpl; rewrite E2; simpl; rewrite E3; simpl; rewrite E4;
    simpl; rewrite E5.
Qed.

(** ** The garage area of the other rows *)

Lemma ratio_nan_num d : ratio nan d = nan.
Proof. unfold ratio; now destruct (add d eps). Qed.

(** X5.  A row whose [garagecarcnt] is missing belongs to no group of
    the imputation: whatever garage area it had, its [garagetotalsqft] is
    missing in the output, and so is its [garage_sqft_ratio], and its
    [has_garage] is 0. *)
Theorem garage_area_lost_without_car_count df out :
  feature_engineering str_of_float df = inr out ->
  exists raw car fin cleaned gsr hg,
    (lookup "garagetotalsqft" (columns df) = Some (of_floats raw) /\
     lookup "garagecarcnt" (columns df) = Some (of_floats car) /\
     lookup "calculatedfinishedsquarefeet" (columns df)
       = Some (of_floats fin)) /\
    (lookup "garagetotalsqft" (columns out) = Some (of_floats cleaned) /\
     lookup "garage_sqft_ratio" (columns out) = Some (of_floats gsr) /\
     lookup "has_garage" (columns out) = Some (of_floats hg)) /\
    forall i c g,
      nth_error car i = Some c -> is_nan c = true ->
      nth_error raw i = Some g ->
      nth_error cleaned i = Some nan /\
      nth_error hg i = Some (of_Z 0) /\
      (forall a, nth_error fin i = Some a -> nth_error gsr i = Some nan).
Proof.
  intros H.
  destruct (garage_columns _ _ H) as (raw & car & Hraw & Hcar & Hclean & _).
  destruct (flag_columns _ _ H)
    as (unit & car' & sqft & _ & Hcar' & Hsqft & _ & Hhg).
  destruct (derived_columns _ _ H)
    as (tax & fin & year & bath & bed & rooms & garage & _ & Hfin & _ & _ & _ &
        _ & Hgarage & _ & _ & _ & _ & Hgsr).
  assert (car' = car) by (apply of_floats_inj; congruence).
  assert (sqft = clean_garage_col raw car) by (apply of_floats_inj; congruence).
  assert (garage = clean_garage_col raw car)
    by (apply of_floats_inj; congruence).
  subst car' sqft garage.
  exists raw, car, fin, (clean_garage_col raw car),
    (map2 ratio (clean_garage_col raw car) fin),
    (map2 has_garage car (clean_garage_col raw car)).
  split; [repeat split; assumption |].
  split; [repeat split; assumption |].
  intros i c g Hc Hnan Hg.
  pose proof (nth_error_clean_garage_col raw car i g c Hg Hc) as Hrow.
  rewrite Hnan in Hrow.
  split; [exact Hrow |]; split.
  - rewrite (nth_error_map2 has_garage _ _ i c nan Hc Hrow).
    unfold has_garage, fillna; rewrite Hnan; reflexivity.
  - intros a Ha; rewrite (nth_error_map2 ratio _ _ i nan a Hrow Ha).
    now rewrite ratio_nan_num.
Qed.

(** X6.  A row whose [garagecarcnt] is there keeps its garage area when
    that area is there and is not the sentinel (an area of 0 with a
    positive car count); a row with a missing area is imputed as a
    sentinel row is, with the median of its group. *)
Theorem garage_area_of_other_rows df out :
  feature_engineering str_of_float df = inr out ->
  exists raw car cleaned,
    lookup "garagetotalsqft" (columns df) = Some (of_floats raw) /\
    lookup "garagecarcnt" (columns df) = Some (of_floats car) /\
    lookup "garagetotalsqft" (columns out) = Some (of_floats cleaned) /\
    (forall i c g,
        nth_error car i = Some c -> nth_error raw i = Some g ->
        is_nan c = false -> is_nan g = false ->
        F64.eqb g (of_Z 0) && gtb c (of_Z 0) = false ->
        nth_error cleaned i = Some g) /\
    (forall i c g,
        nth_error car i = Some c -> nth_error raw i = Some g ->
        is_nan c = false -> is_nan g = true ->
        nth_error cleaned i =
          Some (median (group_values car (map2 mark_sentinel raw car) c))).
Proof.
  intros H.
  destruct (garage_columns _ _ H) as (raw & car & Hraw & Hcar & Hclean & _).
  exists raw, car, (clean_garage_col raw car).
  repeat split; try assumption.
  - intros i c g Hc Hg Hcn Hgn Hs.
    rewrite (nth_error_clean_garage_col raw car i g c Hg Hc), Hcn.
    unfold mark_sentinel; rewrite Hs; unfold fillna; now rewrite Hgn.
  - intros i c g Hc Hg Hcn Hgn.
    rewrite (nth_error_clean_garage_col raw car i g c Hg Hc), Hcn.
    assert (Hm : is_nan (mark_sentinel g c) = true).
    { unfold mark_sentinel;
        destruct (F64.eqb g (of_Z 0) && gtb c (of_Z 0)); [reflexivity | exact Hgn]. }
    unfold fillna; now rewrite Hm.
Qed.

(** ** The categories of an encoded column *)

Lemma cell_eqb_not_null a b : cell_eqb a b = true -> is_null a = false.
Proof.
  destruct a as [x | s]; destruct b as [y | t]; simpl; try discriminate; auto.
  now destruct x.
Qed.

Lemma cell_eqb_sym a b : cell_eqb a b = cell_eqb b a.
Proof.
  assert (H : forall x y, cell_eqb x y = true -> cell_eqb y x = true).
  { intros x y E; rewrite <- (cell_eqb_left _ _ x E).
    apply cell_eqb_refl; eapply cell_eqb_not_null; eauto. }
  destruct (cell_eqb a b) eqn:E1; destruct (cell_eqb b a) eqn:E2;
    try reflexivity.
  - apply H in E1; congruence.
  - apply H in E2; congruence.
Qed.

Lemma cell_eqb_null c d : is_null c = true -> cell_eqb c d = false.
Proof.
  destruct c as [x | s]; simpl; [| discriminate].
  destruct x; try discriminate; intros _; now destruct d.
Qed.

(** No two cells of the list are equal. *)
Fixpoint distinct_cells (l : list cell) : Prop :=
  match l with
  | [] => True
  | a :: r => Forall (fun b => cell_eqb a b = false) r /\ distinct_cells r
  end.

Lemma distinct_cells_filter f l :
  distinct_cells l -> distinct_cells (filter f l).
Proof.
  induction l as [| a r IH]; simpl; [auto |].
  intros [Ha Hr]; destruct (f a); simpl; [split |]; auto.
  rewrite Forall_forall in *; intros b Hb; apply Ha.
  apply filter_In in Hb; tauto.
Qed.

Lemma uniques_distinct s : distinct_cells (uniques s).
Proof.
  induction s as [| c r IH]; simpl; [exact I |].
  destruct (is_null c); [exact IH |]; simpl; split.
  - rewrite Forall_forall; intros b Hb; apply filter_In in Hb.
    now apply negb_true_iff.
  - now apply distinct_cells_filter.
Qed.

Lemma Forall_insert_cell (P : cell -> Prop) x l :
  P x -> Forall P l -> Forall P (insert_cell x l).
Proof.
  intros Hx Hl; rewrite Forall_forall in *; intros b Hb.
  apply In_insert_cell in Hb; destruct Hb as [-> | Hb]; auto.
Qed.

Lemma insert_cell_distinct x l :
  Forall (fun b => cell_eqb x b = false) l ->
  distinct_cells l -> distinct_cells (insert_cell x l).
Proof.
  induction l as [| a r IH]; simpl; intros Hx Hl; [auto |].
  destruct (cell_leb x a); simpl; [auto |].
  destruct Hl as [Ha Hr]; split.
  - apply Forall_insert_cell; [| exact Ha].
    rewrite cell_eqb_sym; now inversion Hx.
  - apply IH; [now inversion Hx | exact Hr].
Qed.

Lemma sort_cells_distinct l : distinct_cells l -> distinct_cells (sort_cells l).
Proof.
  induction l as [| a r IH]; simpl; [auto |].
  intros [Ha Hr]; apply insert_cell_distinct; [| auto].
  rewrite Forall_forall in *; intros b Hb; apply Ha.
  now apply In_sort_cells.
Qed.

Lemma levels_distinct s : distinct_cells (levels s).
Proof. apply sort_cells_distinct, uniques_distinct. Qed.

Lemma distinct_cells_nth l : distinct_cells l ->
  forall j1 j2 a b,
    j1 <> j2 -> nth_error l j1 = Some a -> nth_error l j2 = Some b ->
    cell_eqb a b = false.
Proof.
  induction l as [| c r IH]; simpl; intros Hd j1 j2 a b Hne H1 H2.
  - destruct j1; discriminate.
  - destruct Hd as [Hc Hr]; rewrite Forall_forall in Hc.
    destruct j1 as [| j1]; destruct j2 as [| j2]; simpl in *.
    + congruence.
    + inversion H1; subst; apply Hc; eapply nth_error_In; eauto.
    + inversion H2; subst; rewrite cell_eqb_sym.
      apply Hc; eapply nth_error_In; eauto.
    + apply (IH Hr j1 j2); auto.
Qed.

Lemma insert_cell_length x l :
  List.length (insert_cell x l) = S (List.length l).
Proof.
  induction l as [| a r IH]; simpl; [reflexivity |].
  destruct (cell_leb x a); simpl; now rewrite ?IH.
Qed.

Lemma levels_length s : List.length (levels s) = List.length (uniques s).
Proof.
  unfold levels, sort_cells.
  induction (uniques s) as [| a r IH]; simpl; [reflexivity |].
  now rewrite insert_cell_length, IH.
Qed.

Lemma filter_none {A} (f : A -> bool) l :
  Forall (fun a => f a = false) l -> filter f l = [].
Proof.
  induction 1 as [| a r Ha Hr IH]; simpl; [reflexivity |].
  now rewrite Ha.
Qed.

Lemma count_equal_le_one b l :
  distinct_cells l ->
  List.length (filter (fun a => cell_eqb a b) l) <= 1.
Proof.
  induction l as [| a r IH]; simpl; intros Hd; [lia |].
  destruct Hd as [Ha Hr]; destruct (cell_eqb a b) eqn:E; [| auto].
  rewrite filter_none; [simpl; lia |].
  rewrite Forall_forall in *; intros c Hc.
  rewrite cell_eqb_sym, <- (cell_eqb_left _ _ c E); auto.
Qed.

Lemma filter_split_length {A} (f : A -> bool) l :
  List.length l =
  List.length (filter f l) + List.length (filter (fun x => negb (f x)) l).
Proof.
  induction l as [| a r IH]; simpl; [reflexivity |].
  destruct (f a); simpl; lia.
Qed.

(** Distinct cells that are each equal to a cell of [m] are no more than
    the cells of [m]. *)
Lemma distinct_cells_bound m : forall l,
  distinct_cells l ->
  (forall a, In a l -> exists b, In b m /\ cell_eqb a b = true) ->
  List.length l <= List.length m.
Proof.
  induction m as [| b0 m IH]; intros l Hd Hm.
  - destruct l as [| a r]; [simpl; lia |].
    destruct (Hm a (or_introl eq_refl)) as (b & [] & _).
  - rewrite (filter_split_length (fun a => cell_eqb a b0) l).
    pose proof (count_equal_le_one b0 l Hd) as H1.
    assert (H2 : List.length (filter (fun x => negb (cell_eqb x b0)) l)
                 <= List.length m).
    { apply IH; [now apply distinct_cells_filter |].
      intros a Ha; apply filter_In in Ha; destruct Ha as [Ha Hne].
      apply negb_true_iff in Hne.
      destruct (Hm a Ha) as (b & [<- | Hb] & Hab); [congruence | eauto]. }
    simpl; lia.
Qed.

Lemma of_bool_one b : of_bool b = of_Z 1 -> b = true.
Proof. destruct b; [reflexivity | discriminate]. Qed.

Lemma nth_error_indicator level s i x :
  nth_error s i = Some x ->
  nth_error (indicator level s) i = Some (Num (of_bool (cell_eqb x level))).
Proof. intros H; unfold indicator; now rewrite nth_error_map, H. Qed.

Lemma nth_error_dummies_1d prefix s j c :
  nth_error (dummies_1d str_of_float prefix s) j = Some c ->
  exists level,
    nth_error (tl (levels s)) j = Some level /\
    c = (dummy_name str_of_float prefix level, indicator level s).
Proof.
  unfold dummies_1d; rewrite nth_error_map.
  destruct (nth_error (tl (levels s)) j) as [level |]; simpl;
    [| discriminate].
  intros H; inversion H; eauto.
Qed.

(** X7.  One-hot rows.  Of the indicator columns [pd.get_dummies] makes
    from one column, all of which are columns of its result, a row has a
    1 in one at most: where one holds 1 every other holds 0, and a row
    whose cell is missing holds 0 in each. *)
Theorem indicators_exclusive df l out n s :
  get_dummies str_of_float df l = inr out ->
  In n l ->
  lookup n (columns df) = Some s ->
  (forall c, In c (dummies_1d str_of_float n s) -> In c (columns out)) /\
  (forall j1 j2 c1 c2 i,
      j1 <> j2 ->
      nth_error (dummies_1d str_of_float n s) j1 = Some c1 ->
      nth_error (dummies_1d str_of_float n s) j2 = Some c2 ->
      nth_error (snd c1) i = Some (Num (of_Z 1)) ->
      nth_error (snd c2) i = Some (Num (of_Z 0))) /\
  (forall c i x,
      In c (dummies_1d str_of_float n s) ->
      nth_error s i = Some x -> is_null x = true ->
      nth_error (snd c) i = Some (Num (of_Z 0))).
Proof.
  intros H Hn Hs; apply get_dummies_inr in H; subst out; simpl.
  split; [| split].
  - intros c Hc; apply in_or_app; right.
    apply in_flat_map; exists n; split; [exact Hn |].
    unfold dummies_of; now rewrite Hs.
  - intros j1 j2 c1 c2 i Hne H1 H2 Hone.
    apply nth_error_dummies_1d in H1, H2.
    destruct H1 as (L1 & HL1 & ->); destruct H2 as (L2 & HL2 & ->).
    simpl in *.
    assert (Hd : distinct_cells (tl (levels s))).
    { pose proof (levels_distinct s) as Hd.
      destruct (levels s); simpl in *; tauto. }
    pose proof (distinct_cells_nth _ Hd j1 j2 L1 L2 Hne HL1 HL2) as Hneq.
    unfold indicator in Hone; rewrite nth_error_map in Hone.
    destruct (nth_error s i) as [x |] eqn:Hx; [| discriminate].
    simpl in Hone; inversion Hone as [Hb]; apply of_bool_one in Hb.
    rewrite (nth_error_indicator L2 s i x Hx).
    now rewrite (cell_eqb_left _ _ L2 Hb), Hneq.
  - intros c i x Hc Hx Hnull.
    apply In_dummies_1d in Hc; destruct Hc as (level & _ & ->); simpl.
    rewrite (nth_error_indicator level s i x Hx).
    now rewrite (cell_eqb_null x level Hnull).
Qed.

(** ** The reduced column of a top-K step *)

Lemma encode_top_k_spec col k df out s :
  lookup col (columns df) = Some s ->
  encode_top_k str_of_float col k df = inr out ->
  columns out =
    remove_columns [(col ++ "_top")%string] (columns df)
    ++ dummies_1d str_of_float (col ++ "_top")
         (where_isin_minus_one (top_values k s) s).
Proof.
  intros Hs; unfold encode_top_k, getitem; rewrite Hs; simpl.
  intros H; apply get_dummies_inr in H; subst out; simpl.
  unfold dummies_of; now rewrite lookup_assign_same, remove_assign, app_nil_r.
Qed.

Lemma top_values_length k s : List.length (top_values k s) <= k.
Proof.
  unfold top_values; rewrite length_map; apply firstn_le_length.
Qed.

Lemma reduced_levels_bound k s :
  List.length (levels (where_isin_minus_one (top_values k s) s)) <= S k.
Proof.
  rewrite levels_length.
  apply Nat.le_trans
    with (List.length (top_values k s ++ [Num (of_Z (-1))])).
  - apply distinct_cells_bound; [apply uniques_distinct |].
    intros a Ha; apply In_uniques in Ha; destruct Ha as [Ha _].
    unfold where_isin_minus_one in Ha; apply in_map_iff in Ha.
    destruct Ha as (c & Hc & _).
    destruct (isin c (top_values k s)) eqn:E.
    + subst a; unfold isin in E; apply existsb_exists in E.
      destruct E as (b & Hb & E); exists b; split; [| exact E].
      apply in_or_app; now left.
    + subst a; exists (Num (of_Z (-1))); split; [| reflexivity].
      apply in_or_app; right; now left.
  - rewrite length_app; simpl; pose proof (top_values_length k s); lia.
Qed.

(** X8.  A round of the loop over the region identifiers adds at most K
    columns to the table: the result has the columns of the table, but
    the one named [<col>_top] if there was one, followed by at most K
    indicator columns. *)
Theorem top_k_adds_at_most_k col k df out :
  encode_top_k str_of_float col k df = inr out ->
  exists added,
    columns out =
      remove_columns [(col ++ "_top")%string] (columns df) ++ added /\
    List.length added <= k /\
    List.length (columns out) <= List.length (columns df) + k.
Proof.
  intros H; destruct (encode_top_k_reads _ _ _ _ H) as (s & Hs).
  pose proof (encode_top_k_spec _ _ _ _ _ Hs H) as Hcols.
  eexists; split; [exact Hcols |].
  assert (Hlen : List.length
            (dummies_1d str_of_float (col ++ "_top")
               (where_isin_minus_one (top_values k s) s)) <= k).
  { unfold dummies_1d; rewrite length_map.
    pose proof (reduced_levels_bound k s) as Hb.
    destruct (levels (where_isin_minus_one (top_values k s) s)); simpl in *;
      lia. }
  split; [exact Hlen |].
  rewrite Hcols, length_app.
  pose proof (filter_length_le
                (fun c => negb (mem (fst c) [(col ++ "_top")%string]))
                (columns df)) as Hf.
  unfold remove_columns; lia.
Qed.

Lemma sort_counts_length l : List.length (sort_counts l) = List.length l.
Proof.
  unfold sort_counts; induction l as [| a r IH]; simpl; [reflexivity |].
  rewrite <- IH; generalize (fold_right insert_count [] r); intros m.
  induction m as [| b t IHm]; simpl; [reflexivity |].
  destruct (Nat.leb (snd b) (snd a)); simpl; now rewrite ?IHm.
Qed.

(** X9.  What a top-K step puts in the sentinel bucket.  A missing cell
    always becomes the sentinel -1.  When the column has no more than K
    distinct values, nothing else does: every cell that is there is
    kept. *)
Theorem top_k_bucket k s :
  (forall i c,
      nth_error s i = Some c -> is_null c = true ->
      nth_error (where_isin_minus_one (top_values k s) s) i
        = Some (Num (of_Z (-1)))) /\
  (List.length (uniques s) <= k ->
   forall i c,
     nth_error s i = Some c -> is_null c = false ->
     nth_error (where_isin_minus_one (top_values k s) s) i = Some c).
Proof.
  split.
  - intros i c Hc Hnull; unfold where_isin_minus_one.
    rewrite nth_error_map, Hc; simpl.
    replace (isin c (top_values k s)) with false; [reflexivity |].
    symmetry; apply not_true_is_false; intros E.
    unfold isin in E; apply existsb_exists in E; destruct E as (b & _ & E).
    rewrite (cell_eqb_null c b Hnull) in E; discriminate.
  - intros Hk i c Hc Hnull; unfold where_isin_minus_one.
    rewrite nth_error_map, Hc; simpl.
    replace (isin c (top_values k s)) with true; [reflexivity |].
    symmetry; unfold isin; apply existsb_exists.
    destruct (uniques_complete c s (nth_error_In _ _ Hc) Hnull)
      as (y & Hy & Hyc).
    exists y; split; [| now rewrite cell_eqb_sym].
    unfold top_values, value_counts.
    rewrite firstn_all2
      by (now rewrite sort_counts_length, length_map).
    apply in_map_iff; exists (y, count_cell y s); split; [reflexivity |].
    apply In_sort_counts, in_map_iff; exists y; auto.
Qed.

(** ** What a run writes and returns *)

(** Taking the target column out of a table and putting it back last
    loses no column. *)
Lemma concat_target_lookup T X y n :
  drop T [target_col] = inr X ->
  getitem T target_col = inr y ->
  lookup n (columns (concat_target X y)) = lookup n (columns T).
Proof.
  intros HX Hy; apply drop_inr in HX; subst X; apply getitem_inr in Hy.
  unfold concat_target; simpl; rewrite lookup_app.
  destruct (String.eqb n target_col) eqn:E.
  - apply String.eqb_eq in E; subst n.
    rewrite lookup_remove_same by reflexivity; cbn [lookup].
    now rewrite String.eqb_refl, Hy.
  - rewrite lookup_remove_other by (unfold mem; simpl; now rewrite E).
    destruct (lookup n (columns T)); [reflexivity |]; cbn [lookup].
    now rewrite String.eqb_sym, E.
Qed.

Section Run_more.

Variable World : Type.
Variable read_csv : string -> World -> result DataFrame.
Variable makedirs : string -> World -> result World.
Variable to_csv : DataFrame -> string -> World -> result World.

Local Abbreviation pipeline' :=
  (initiate_data_transformation str_of_float World read_csv makedirs to_csv).

(** X10.  A run that returns has created the directory [artifacts] and
    then written two tables, the training one first: each is the feature
    table with the target vector as its last column, and, column by
    column, it is the transformed table (what is written holds every
    column of the transformed table, with the same cells).  The world
    the run leaves is the one after the second write. *)
Theorem written_tables train_path test_path w X_train X_test y_train y_test :
  snd (pipeline' train_path test_path w)
    = inr (X_train, X_test, y_train, y_test) ->
  exists train_df test_df train_out test_out w1 w2,
    (read_csv train_path w = inr train_df /\
     read_csv test_path w = inr test_df /\
     feature_engineering str_of_float train_df = inr train_out /\
     feature_engineering str_of_float test_df = inr test_out) /\
    (makedirs artifacts_dir w = inr w1 /\
     to_csv (concat_target X_train y_train) transformed_train_path w1
       = inr w2 /\
     to_csv (concat_target X_test y_test) transformed_test_path w2
       = inr (fst (pipeline' train_path test_path w))) /\
    (forall n, lookup n (columns (concat_target X_train y_train))
               = lookup n (columns train_out)) /\
    (forall n, lookup n (columns (concat_target X_test y_test))
               = lookup n (columns test_out)) /\
    (columns (concat_target X_train y_train)
       = columns X_train ++ [(target_col, y_train)] /\
     ~ In target_col (names X_train)) /\
    (columns (concat_target X_test y_test)
       = columns X_test ++ [(target_col, y_test)] /\
     ~ In target_col (names X_test)).
Proof.
  intros H; apply initiate_inr in H.
  destruct H as (train_df & test_df & train_out & test_out & w1 & w2 & w3 &
    R1 & R2 & F1 & F2 & D1 & G1 & D2 & G2 & M & T1 & T2 & W).
  exists train_df, test_df, train_out, test_out, w1, w2.
  split; [repeat split; assumption |].
  split; [rewrite W; repeat split; assumption |].
  split; [intros n; exact (concat_target_lookup _ _ _ n D1 G1) |].
  split; [intros n; exact (concat_target_lookup _ _ _ n D2 G2) |].
  apply drop_inr in D1, D2; subst X_train X_test.
  split; (split; [reflexivity |]); apply lookup_None;
    now apply lookup_remove_same.
Qed.

Lemma target_in_features df out X y :
  feature_engineering str_of_float df = inr out ->
  drop out [target_col] = inr X ->
  getitem out target_col = inr y ->
  exists tax fin,
    y = of_floats tax /\
    lookup "calculatedfinishedsquarefeet" (columns X) = Some (of_floats fin) /\
    lookup "price_per_sqft" (columns X)
      = Some (of_floats (map2 ratio tax fin)).
Proof.
  intros Hfe HX Hy.
  pose proof (feature_engineering_run _ _ Hfe) as Hrun.
  destruct (derived_columns _ _ Hfe)
    as (tax & fin & year & bath & bed & rooms & garage & Htax & Hfin & _ & _ &
        _ & _ & _ & Hp & _).
  apply drop_inr in HX; subst X; apply getitem_inr in Hy; simpl.
  exists tax, fin; split; [| split].
  - rewrite (run_lookup target_col _ _ _ Hrun) in Hy by reflexivity.
    unfold target_col in Hy; congruence.
  - rewrite lookup_remove_other by reflexivity.
    rewrite <- Hfin; apply (run_lookup _ _ _ _ Hrun); reflexivity.
  - rewrite lookup_remove_other by reflexivity; exact Hp.
Qed.

(** X11.  The feature tables a run returns still hold a column computed
    from the target: row by row, [price_per_sqft] of [X_train] is the
    cell of [y_train] over the finished area plus [1e-5], and likewise
    for the test table. *)
Theorem features_hold_the_target
        train_path test_path w X_train X_test y_train y_test :
  snd (pipeline' train_path test_path w)
    = inr (X_train, X_test, y_train, y_test) ->
  (exists y fin price,
      y_train = of_floats y /\
      lookup "calculatedfinishedsquarefeet" (columns X_train)
        = Some (of_floats fin) /\
      lookup "price_per_sqft" (columns X_train) = Some (of_floats price) /\
      forall i v a,
        nth_error y i = Some v -> nth_error fin i = Some a ->
        nth_error price i = Some (div v (add a eps))) /\
  (exists y fin price,
      y_test = of_floats y /\
      lookup "calculatedfinishedsquarefeet" (columns X_test)
        = Some (of_floats fin) /\
      lookup "price_per_sqft" (columns X_test) = Some (of_floats price) /\
      forall i v a,
        nth_error y i = Some v -> nth_error fin i = Some a ->
        nth_error price i = Some (div v (add a eps))).
Proof.
  intros H; apply initiate_inr in H.
  destruct H as (train_df & test_df & train_out & test_out & w1 & w2 & w3 &
    R1 & R2 & F1 & F2 & D1 & G1 & D2 & G2 & _).
  destruct (target_in_features _ _ _ _ F1 D1 G1) as (y & fin & A1 & A2 & A3).
  destruct (target_in_features _ _ _ _ F2 D2 G2) as (y' & fin' & B1 & B2 & B3).
  split.
  - exists y, fin, (map2 ratio y fin); repeat split; try assumption.
    intros i v a Hv Ha; exact (nth_error_map2 ratio _ _ i v a Hv Ha).
  - exists y', fin', (map2 ratio y' fin'); repeat split; try assumption.
    intros i v a Hv Ha; exact (nth_error_map2 ratio _ _ i v a Hv Ha).
Qed.

(** X12.  Each table is encoded on its own: what a run returns for the
    test table does not depend on the training table it was run with,
    and what it returns for the training table does not depend on the
    test table. *)
Theorem tables_encoded_separately
        train_path train_path' test_path test_path' w
        X_train X_test y_train y_test X_train' X_test' y_train' y_test'
        X_train'' X_test'' y_train'' y_test'' :
  snd (pipeline' train_path test_path w)
    = inr (X_train, X_test, y_train, y_test) ->
  snd (pipeline' train_path' test_path w)
    = inr (X_train', X_test', y_train', y_test') ->
  snd (pipeline' train_path test_path' w)
    = inr (X_train'', X_test'', y_train'', y_test'') ->
  (X_test' = X_test /\ y_test' = y_test) /\
  (X_train'' = X_train /\ y_train'' = y_train).
Proof.
  intros H H' H''; apply initiate_inr in H, H', H''.
  destruct H as (a1 & a2 & a3 & a4 & _ & _ & _ &
    R1 & R2 & F1 & F2 & D1 & G1 & D2 & G2 & _).
  destruct H' as (b1 & b2 & b3 & b4 & _ & _ & _ &
    _ & R2' & _ & F2' & _ & _ & D2' & G2' & _).
  destruct H'' as (c1 & c2 & c3 & c4 & _ & _ & _ &
    R1'' & _ & F1'' & _ & D1'' & G1'' & _).
  assert (b2 = a2) by congruence; subst b2.
  assert (b4 = a4) by congruence; subst b4.
  assert (c1 = a1) by congruence; subst c1.
  assert (c3 = a3) by congruence; subst c3.
  repeat split; congruence.
Qed.

End Run_more.

(** ** The table that is passed in *)

Lemma assign_assign n s t cs : assign n t (assign n s cs) = assign n t cs.
Proof.
  induction cs as [| [k u] r IH]; simpl.
  - now rewrite String.eqb_refl.
  - destruct (String.eqb k n) eqn:E; simpl.
    + now rewrite String.eqb_refl.
    + now rewrite E, IH.
Qed.

Lemma map2_mark_cell sqft car :
  map2 mark_cell (of_floats sqft) car = of_floats (map2 mark_sentinel sqft car).
Proof.
  revert car; induction sqft as [| g r IH]; intros [| c t]; simpl;
    try reflexivity.
  unfold map2 in *; simpl; f_equal; apply IH.
Qed.

(** The statements that make up each step. *)
Lemma fix_room_count_statements df df' :
  fix_room_count df = inr df' ->
  exists d, set_roomcnt_fixed df = inr d /\ drop_roomcnt d = inr df'.
Proof.
  unfold fix_room_count, set_roomcnt_fixed, drop_roomcnt; intros H; inv_bind H.
  rewrite Ha, Ha1, Ha2; simpl; rewrite Ha0; simpl; rewrite Ha3, Ha4; simpl.
  eauto.
Qed.

Lemma clean_garage_sqft_statements df df' :
  clean_garage_sqft df = inr df' ->
  exists d, mark_garagetotalsqft df = inr d /\
            impute_garagetotalsqft d = inr df'.
Proof.
  unfold clean_garage_sqft, mark_garagetotalsqft, impute_garagetotalsqft.
  intros H; inv_bind H; inversion H; subst df'; clear H.
  rewrite Ha, Ha0; simpl; rewrite Ha1; simpl.
  eexists; split; [reflexivity |].
  apply getitem_inr in Ha, Ha0; apply as_float64_inr in Ha1, Ha2; subst a a0.
  unfold getitem; simpl.
  rewrite lookup_assign_other, Ha0 by reflexivity; simpl.
  rewrite lookup_assign_same; simpl.
  rewrite as_float64_of_floats; simpl.
  rewrite map2_mark_cell, as_float64_of_floats; simpl.
  unfold setitem; simpl; now rewrite assign_assign.
Qed.

Lemma binary_flags_statements df df' :
  binary_flags df = inr df' ->
  exists d, set_multi_unit df = inr d /\ set_has_garage d = inr df'.
Proof.
  unfold binary_flags, set_multi_unit, set_has_garage; intros H; inv_bind H.
  rewrite Ha; simpl; rewrite Ha0; simpl.
  eexists; split; [reflexivity |].
  rewrite Ha1; simpl; rewrite Ha2; simpl; rewrite Ha3; simpl; rewrite Ha4.
  exact H.
Qed.

Lemma in_place_success df out :
  feature_engineering str_of_float df = inr out ->
  exists pre s,
    clean_and_derive df = inr pre /\
    lookup "regionidcity" (columns pre) = Some s /\
    run_in_place in_place_statements df =
      (setitem pre "regionidcity_top"
         (where_isin_minus_one (top_values 50 s) s), None).
Proof.
  intros H.
  destruct (feature_engineering_inr _ _ H) as (pre & Hpre & Henc).
  destruct (feature_engineering_stages _ _ H)
    as (d1 & d2 & d3 & d4 & H1 & H2 & H3 & H4 & H5).
  assert (pre = d4).
  { unfold clean_and_derive in Hpre.
    rewrite H1 in Hpre; simpl in Hpre; rewrite H2 in Hpre; simpl in Hpre.
    rewrite H3 in Hpre; simpl in Hpre; congruence. }
  subst d4.
  destruct (fix_room_count_statements _ _ H1) as (a & A1 & A2).
  destruct (clean_garage_sqft_statements _ _ H2) as (b & B1 & B2).
  destruct (binary_flags_statements _ _ H4) as (c & C1 & C2).
  unfold engineered_features in H3; inv_bind H3.
  unfold encode_categoricals in H5; inv_bind H5.
  destruct (encode_top_k_reads _ _ _ _ Ha3) as (s & Hs).
  exists pre, s; split; [exact Hpre |]; split; [exact Hs |].
  unfold in_place_statements; cbn [run_in_place].
  rewrite A1, A2, B1, B2, Ha, Ha0, Ha1, Ha2, H3, C1, C2.
  unfold set_regionidcity_top, getitem; now rewrite Hs.
Qed.

(** X13.  A call that returns has changed the table it was given: that
    table has lost [roomcnt] and holds the repaired, cleaned, derived
    and flag columns the returned table holds, and the working column
    [regionidcity_top]; it is not encoded (its low-cardinality columns
    are as they were) and has its rows. *)
Theorem argument_changed_in_place df out :
  feature_engineering str_of_float df = inr out ->
  ~ In "roomcnt" (names (argument_after df)) /\
  In "regionidcity_top" (names (argument_after df)) /\
  (forall n,
      In n ["roomcnt_fixed"; "garagetotalsqft"; "price_per_sqft";
            "age_of_home"; "bath_per_bed"; "rooms_per_sqft";
            "garage_sqft_ratio"; "multi_unit"; "has_garage"] ->
      exists s, lookup n (columns (argument_after df)) = Some s /\
                lookup n (columns out) = Some s) /\
  (forall n, In n low_card ->
             exists s, lookup n (columns (argument_after df)) = Some s /\
                       lookup n (columns df) = Some s) /\
  nrows (argument_after df) = nrows df.
Proof.
  intros H.
  destruct (in_place_success _ _ H) as (pre & s & Hpre & Hs & Hrun).
  destruct (feature_engineering_inr _ _ H) as (pre' & Hpre' & Henc).
  assert (pre' = pre) by congruence; subst pre'.
  pose proof (clean_and_derive_run _ _ Hpre) as Rpre.
  pose proof (encode_categoricals_run _ _ Henc) as Renc.
  unfold argument_after; rewrite Hrun.
  cbn [fst]; unfold names, setitem; cbn [columns nrows].
  split; [| split; [| split; [| split]]].
  - apply (proj1 (lookup_None _ _)).
    rewrite lookup_assign_other by reflexivity.
    apply (run_removed _ _ _ _ Rpre); reflexivity.
  - apply lookup_In, (in_map fst) in Hs.
    assert (L : lookup "regionidcity_top"
                  (assign "regionidcity_top"
                     (where_isin_minus_one (top_values 50 s) s) (columns pre))
                <> None) by (rewrite lookup_assign_same; discriminate).
    destruct (in_dec string_dec "regionidcity_top"
                (map fst (assign "regionidcity_top"
                            (where_isin_minus_one (top_values 50 s) s)
                            (columns pre)))) as [Hin | Hout]; [exact Hin |].
    apply lookup_None in Hout; contradiction.
  - destruct (garage_columns _ _ H) as (raw & car & _ & _ & Hg & _).
    destruct (derived_columns _ _ H)
      as (tax & fin & year & bath & bed & rooms & garage & _ & _ & _ & _ & _ &
          Hrooms & _ & Hp & Ha & Hb & Hr & Hgs).
    destruct (flag_columns _ _ H)
      as (unit & car' & sqft & _ & _ & _ & Hmu & Hhg).
    intros n Hn; simpl in Hn.
    repeat (destruct Hn as [<- | Hn];
            [eexists; split; [| eassumption];
             rewrite lookup_assign_other by reflexivity;
             rewrite <- (run_lookup _ _ _ _ Renc) by reflexivity;
             eassumption |]).
    destruct Hn.
  - intros n Hn.
    destruct (low_card_present _ _ H n Hn) as (c & Hc).
    exists c; split; [| exact Hc].
    simpl in Hn.
    repeat (destruct Hn as [<- | Hn];
            [rewrite lookup_assign_other by reflexivity;
             rewrite (run_lookup _ _ _ _ Rpre) by reflexivity; exact Hc |]).
    destruct Hn.
  - apply (run_nrows _ _ _ Rpre).
Qed.

(** X14.  A call that raises can leave the table it was given changed.
    On a table that has the columns of the first two steps and the two
    of the price ratio but no [yearbuilt], the call raises
    [CustomException] of [KeyError "yearbuilt"] (line 91), and the
    table is left without [roomcnt] and with the column
    [price_per_sqft] that line 90 computed. *)
Theorem failed_call_changes_argument df tax fin :
  (forall n, In n ["roomcnt"; "bedroomcnt"; "bathroomcnt";
                   "garagetotalsqft"; "garagecarcnt"] -> numeric df n) ->
  lookup "taxvaluedollarcnt" (columns df) = Some (of_floats tax) ->
  lookup "calculatedfinishedsquarefeet" (columns df) = Some (of_floats fin) ->
  lookup "yearbuilt" (columns df) = None ->
  feature_engineering str_of_float df =
    inl (CustomException (KeyError "yearbuilt")) /\
  lookup "roomcnt" (columns (argument_after df)) = None /\
  lookup "price_per_sqft" (columns (argument_after df)) =
    Some (of_floats (map2 ratio tax fin)).
Proof.
  intros Hnum Htax Hfin Hyear.
  destruct (fix_room_count_total df) as (df1 & H1);
    try (apply Hnum; simpl; tauto).
  pose proof (fix_room_count_run _ _ H1) as R1.
  destruct (clean_garage_sqft_total df1) as (df2 & H2);
    try (apply (run_numeric _ _ _ _ R1); [reflexivity |];
         apply Hnum; simpl; tauto).
  pose proof (run_app _ _ _ _ _ R1 (clean_garage_sqft_run _ _ H2)) as R2.
  assert (Htax2 : lookup "taxvaluedollarcnt" (columns df2) = Some (of_floats tax))
    by (rewrite (run_lookup _ _ _ _ R2) by reflexivity; exact Htax).
  assert (Hfin2 : lookup "calculatedfinishedsquarefeet" (columns df2) =
                  Some (of_floats fin))
    by (rewrite (run_lookup _ _ _ _ R2) by reflexivity; exact Hfin).
  pose proof (add_ratio_total "price_per_sqft" _ _ _ _ _ Htax2 Hfin2) as H3.
  pose proof (run_app _ _ _ _ _ R2 (add_ratio_run _ _ _ _ _ H3)) as R3.
  assert (Hage : add_age_of_home
                   (setitem df2 "price_per_sqft" (of_floats (map2 ratio tax fin)))
                 = inl (KeyError "yearbuilt")).
  { unfold add_age_of_home, getitem.
    rewrite (run_lookup _ _ _ _ R3), Hyear by reflexivity; reflexivity. }
  destruct (fix_room_count_statements _ _ H1) as (a & A1 & A2).
  destruct (clean_garage_sqft_statements _ _ H2) as (b & B1 & B2).
  split; [| split].
  - unfold feature_engineering, feature_engineering_body, clean_and_derive.
    rewrite H1; cbn [bind]; rewrite H2; cbn [bind].
    unfold engineered_features; rewrite H3; cbn [bind]; rewrite Hage.
    reflexivity.
  - unfold argument_after, in_place_statements; cbn [run_in_place].
    rewrite A1, A2, B1, B2, H3, Hage; cbn [fst].
    apply (run_removed _ _ _ _ R3); reflexivity.
  - unfold argument_after, in_place_statements; cbn [run_in_place].
    rewrite A1, A2, B1, B2, H3, Hage; cbn [fst].
    unfold setitem; cbn [columns]; apply lookup_assign_same.
Qed.

End Properties.

(** * The properties on the sample tables *)

Import Sample.

Lemma train_transformed : feature_engineering show_float train = inr train_out.
Proof. vm_compute; reflexivity. Qed.

Lemma test_transformed : feature_engineering show_float test = inr test_out.
Proof. vm_compute; reflexivity. Qed.

Lemma train_well_formed : well_formed train.
Proof. unfold well_formed; simpl; repeat constructor. Qed.

Lemma test_well_formed : well_formed test.
Proof. unfold well_formed; simpl; repeat constructor. Qed.

(** The room count of the three sample rows: 0 is repaired to 2 + 1 + 1,
    5 is kept, a missing one is repaired to 1 + 1 + 1. *)
Lemma room_count_repair_witness :
  feature_engineering show_float train = inr train_out /\
  lookup "roomcnt_fixed" (columns train_out) = Some [N 4; N 5; N 3] /\
  ~ In "roomcnt" (names train_out).
Proof.
  destruct (room_count_repair show_float train train_out train_transformed)
    as (room & bed & bath & fixed & _ & _ & _ & _ & _ & Hgone & _).
  split; [exact train_transformed |].
  split; [vm_compute; reflexivity | exact Hgone].
Defined.

(** The garage area of the first sample row, 0 with two cars, becomes the
    median 500 of the areas 400 and 600 of its group. *)
Lemma garage_imputation_witness :
  feature_engineering show_float train = inr train_out /\
  lookup "garagetotalsqft" (columns train_out) = Some [N 500; N 400; N 600] /\
  clean_garage_col [of_Z 0; of_Z 400; of_Z 600] [of_Z 2; of_Z 2; of_Z 2]
    = [of_Z 500; of_Z 400; of_Z 600].
Proof.
  destruct (garage_imputation show_float train train_out train_transformed)
    as (sqft & car & cleaned & _ & _ & _ & _ & _ & Hex).
  split; [exact train_transformed |].
  split; [vm_compute; reflexivity | exact Hex].
Defined.

Lemma landuse_encoded :
  encode_top_k_other show_float "propertylandusetypeid"
    "propertylandusetype_top" 5 landuse = inr landuse_out.
Proof. vm_compute; reflexivity. Qed.

(** Seven land-use types of counts 7 to 1: the rows of the two rarest
    types, 247 and 31, become ["other"]; 246, the first category, is the
    reference; 248, 261, 266, 269 and ["other"] have a column. *)
Lemma top_5_encoding_witness :
  value_counts landuse_types =
    [(N 261, 7); (N 266, 6); (N 246, 5); (N 269, 4); (N 248, 3);
     (N 247, 2); (N 31, 1)] /\
  nth_error
    (where_isin_other show_float [N 261; N 266; N 246; N 269; N 248]
       landuse_types) 27 = Some (Str "other") /\
  map fst (columns landuse_out) =
    ["propertylandusetypeid"; "propertylandusetype_top_248.0";
     "propertylandusetype_top_261.0"; "propertylandusetype_top_266.0";
     "propertylandusetype_top_269.0"; "propertylandusetype_top_other"].
Proof.
  assert (Hvc : value_counts landuse_types =
    [(N 261, 7); (N 266, 6); (N 246, 5); (N 269, 4); (N 248, 3);
     (N 247, 2); (N 31, 1)]) by (vm_compute; reflexivity).
  assert (Hlt : 1 < 2 /\ 2 < 3 /\ 3 < 4 /\ 4 < 5 /\ 5 < 6 /\ 6 < 7) by lia.
  destruct (top_5_encoding show_float landuse landuse_out landuse_types
              _ _ _ _ _ _ _ _ _ _ _ _ _ _ eq_refl Hvc Hlt landuse_encoded)
    as (Hother & _).
  split; [exact Hvc |].
  split; [| vm_compute; reflexivity].
  apply (Hother 27 (N 31)); [reflexivity | right; reflexivity].
Defined.

(** The flags of the two rows of the second sample table: no car and an
    area of 300 is a garage, a missing car count and an area of 0 is
    none. *)
Lemma binary_flag_values_witness :
  feature_engineering show_float test = inr test_out /\
  lookup "has_garage" (columns test_out) = Some [N 1; N 0] /\
  lookup "multi_unit" (columns test_out) = Some [N 0; N 0].
Proof.
  destruct (binary_flag_values show_float test test_out test_transformed)
    as (unit & car & raw & sqft & mu & hg & Hunit & Hcar & Hraw & Hsqft &
        Hmu & Hhg & _).
  split; [exact test_transformed |].
  split; vm_compute; reflexivity.
Defined.

(** The first sample row has no unit count and is no multi-unit
    property. *)
Lemma multi_unit_missing_witness :
  feature_engineering show_float train = inr train_out /\
  lookup "unitcnt" (columns train) = Some [NaN; N 2; N 1] /\
  lookup "multi_unit" (columns train_out) = Some [N 0; N 1; N 0].
Proof.
  destruct (multi_unit_missing show_float train train_out train_transformed)
    as (unit & mu & Hunit & Hmu & _).
  split; [exact train_transformed |].
  split; vm_compute; reflexivity.
Defined.

(** Three rows in, three rows out. *)
Lemma row_count_preserved_witness :
  feature_engineering show_float train = inr train_out /\
  well_formed train /\
  nrows train_out = 3 /\
  Forall (fun c => List.length (snd c) = 3) (columns train_out).
Proof.
  split; [exact train_transformed |].
  split; [exact train_well_formed |].
  exact (row_count_preserved show_float train train_out train_transformed
           train_well_formed).
Defined.

Definition X_train : DataFrame :=
  Eval vm_compute in
    mkDataFrame 3 (remove_columns [target_col] (columns train_out)).
Definition X_test : DataFrame :=
  Eval vm_compute in
    mkDataFrame 2 (remove_columns [target_col] (columns test_out)).
Definition y_train : Series := [N 100000; N 200000; NaN].
Definition y_test : Series := [N 350000; N 120000].

Lemma pipeline_returns :
  snd (initiate_data_transformation show_float Files read_csv makedirs to_csv
         "train.csv" "test.csv" files)
  = inr (X_train, X_test, y_train, y_test).
Proof. vm_compute; reflexivity. Qed.

Lemma read_train_well_formed df :
  read_csv "train.csv" files = inr df -> well_formed df.
Proof. intros H; inversion H; exact train_well_formed. Qed.

Lemma read_test_well_formed df :
  read_csv "test.csv" files = inr df -> well_formed df.
Proof. intros H; inversion H; exact test_well_formed. Qed.

(** The run over the two sample tables returns feature tables of three
    and two rows without the target column and target vectors of three
    and two cells. *)
Lemma target_removed_witness :
  snd (initiate_data_transformation show_float Files read_csv makedirs to_csv
         "train.csv" "test.csv" files)
  = inr (X_train, X_test, y_train, y_test) /\
  ~ In target_col (names X_train) /\ ~ In target_col (names X_test) /\
  List.length y_train = 3 /\ nrows X_train = 3 /\
  List.length y_test = 2 /\ nrows X_test = 2.
Proof.
  destruct (target_removed show_float Files read_csv makedirs to_csv
              "train.csv" "test.csv" files X_train X_test y_train y_test
              pipeline_returns read_train_well_formed read_test_well_formed)
    as ((H1 & H2) & _).
  split; [exact pipeline_returns |].
  split; [exact H1 |].
  split; [exact H2 |].
  repeat split.
Defined.

(** A table without the column [roomcnt]. *)
Definition no_roomcnt : DataFrame :=
  mkDataFrame 1 [("bedroomcnt", [N 2]); ("bathroomcnt", [N 1])].

(** The transformation of a table without [roomcnt] raises the wrapped
    [KeyError]; a run that cannot read its first table leaves the files
    as they were and raises the wrapped error of the read. *)
Lemma error_propagation_witness :
  feature_engineering show_float no_roomcnt
    = inl (CustomException (KeyError "roomcnt")) /\
  initiate_data_transformation show_float Files read_csv makedirs to_csv
    "missing.csv" "test.csv" files
  = (files, inl (CustomException (OSError "missing.csv"))).
Proof.
  destruct (error_propagation show_float Files read_csv makedirs to_csv)
    as (Hbody & _ & _ & Hread & _).
  split; [apply Hbody | apply Hread]; reflexivity.
Defined.

(** C1 fails as stated: after the transformation of the sample table the
    five columns the top-K steps read are still there, and one of them,
    [propertycountylandusecode], is a column of texts. *)
Lemma categorical_encoding_counterexample :
  feature_engineering show_float train = inr train_out /\
  lookup "propertycountylandusecode" (columns train_out)
    = Some [Str "0100"; Str "010C"; Str "0100"] /\
  forallb is_num [Str "0100"; Str "010C"; Str "0100"] = false /\
  In "regionidcity" (names train_out) /\
  In "regionidzip" (names train_out) /\
  In "regionidneighborhood" (names train_out) /\
  In "propertycountylandusecode" (names train_out) /\
  In "propertylandusetypeid" (names train_out).
Proof.
  split; [exact train_transformed |].
  vm_compute; intuition.
Qed.

(** What holds of the sample table instead. *)
Lemma categorical_encoding_witness :
  feature_engineering show_float train = inr train_out /\
  ~ In "fips" (names train_out) /\
  ~ In "propertylandusetype_top" (names train_out) /\
  lookup "regionidcity" (columns train_out)
    = lookup "regionidcity" (columns train).
Proof.
  destruct (categorical_encoding show_float train train_out train_transformed)
    as (Hgone & _ & Hkept).
  split; [exact train_transformed |].
  split; [apply Hgone; simpl; tauto |].
  split; [apply Hgone; simpl; tauto |].
  destruct (Hkept "regionidcity") as (s & H1 & H2); [simpl; tauto |].
  now rewrite H1, H2.
Defined.

(** The binary64 nearest to [1e308]. *)
Definition huge : float64 := S754_finite false 5010420900022432 971.

(** C4 fails as stated: the third sample row has a finished area of 0
    and no assessed value, and its [price_per_sqft] is missing, not a
    finite value; and an assessed value of [1e308] over the same area
    overflows to infinity. *)
Lemma derived_features_counterexample :
  feature_engineering show_float train = inr train_out /\
  (exists tax sqft price,
      lookup "taxvaluedollarcnt" (columns train) = Some (of_floats tax) /\
      lookup "calculatedfinishedsquarefeet" (columns train)
        = Some (of_floats sqft) /\
      lookup "price_per_sqft" (columns train_out) = Some (of_floats price) /\
      nth_error tax 2 = Some nan /\
      nth_error sqft 2 = Some (of_Z 0) /\
      nth_error price 2 = Some nan /\
      is_finite nan = false) /\
  valid huge = true /\
  ratio huge (of_Z 0) = S754_infinity false.
Proof.
  split; [exact train_transformed |].
  split; [| split; vm_compute; reflexivity].
  exists [of_Z 100000; of_Z 200000; nan], [of_Z 0; of_Z 1000; of_Z 0].
  exists [ratio (of_Z 100000) (of_Z 0); ratio (of_Z 200000) (of_Z 1000);
          nan].
  repeat split; vm_compute; reflexivity.
Qed.

(** What holds of the sample table instead: the first row has a finished
    area of 0 and an assessed value of 100000, and its [price_per_sqft]
    is the finite [100000 / 1e-5]. *)
Lemma derived_features_witness :
  feature_engineering show_float train = inr train_out /\
  magnitude_below 1006 (of_Z 100000) = true /\
  is_finite (div (of_Z 100000) eps) = true /\
  div (of_Z 100000) eps = of_Z 10000000000.
Proof.
  destruct (derived_features show_float train train_out train_transformed)
    as (tax & sqft & year & bath & bed & rooms & garage & price & age & bpb &
        rps & gsr & (Htax & Hsqft & _) & _ & _ & _ & _ & _ & _ & _ & Hzero).
  assert (tax = [of_Z 100000; of_Z 200000; nan])
    by (apply of_floats_inj; injection Htax as <-; reflexivity).
  assert (sqft = [of_Z 0; of_Z 1000; of_Z 0])
    by (apply of_floats_inj; injection Hsqft as <-; reflexivity).
  subst tax sqft.
  destruct (Hzero 0%nat (of_Z 100000) eq_refl eq_refl) as (_ & Hfin).
  split; [exact train_transformed |].
  split; [reflexivity |].
  split; [apply Hfin; reflexivity | vm_compute; reflexivity].
Defined.

(** ** Further properties on the sample tables *)

Lemma numeric_of df n s xs :
  lookup n (columns df) = Some s -> as_float64 s = inr xs -> numeric df n.
Proof.
  intros H1 H2; apply as_float64_inr in H2; subst s; exists xs; exact H1.
Qed.

(** The transformed sample table has no [roomcnt] to start from. *)
Lemma transform_once_witness :
  feature_engineering show_float train = inr train_out /\
  feature_engineering show_float train_out
    = inl (CustomException (KeyError "roomcnt")).
Proof.
  split; [exact train_transformed |].
  exact (transform_once show_float train train_out train_transformed).
Defined.

(** [yearbuilt] is read and never set: it is in the output as it was. *)
Lemma unnamed_columns_unchanged_witness :
  feature_engineering show_float train = inr train_out /\
  lookup "yearbuilt" (columns train_out) = Some [N 2000; N 1990; NaN].
Proof.
  split; [exact train_transformed |].
  rewrite (unnamed_columns_unchanged show_float train train_out "yearbuilt"
             train_transformed eq_refl eq_refl).
  reflexivity.
Defined.

(** The first sample table without its column [fips]. *)
Definition no_fips : DataFrame :=
  Eval vm_compute in
    mkDataFrame 3 (remove_columns ["fips"] (columns train)).

(** [fips] is read last of all; without it the call still raises. *)
Lemma missing_column_raises_witness :
  lookup "fips" (columns no_fips) = None /\
  exists e, feature_engineering show_float no_fips = inl (CustomException e).
Proof.
  split; [reflexivity |].
  apply (missing_column_raises show_float no_fips "fips");
    [simpl; tauto | reflexivity].
Defined.

(** The first sample table has the nine measures as numbers and the
    nine columns to encode. *)
Lemma transform_succeeds_witness :
  (forall n, In n measure_columns -> numeric train n) /\
  (forall n, In n categorical_columns -> present train n) /\
  exists out, feature_engineering show_float train = inr out.
Proof.
  assert (Hm : forall n, In n measure_columns -> numeric train n).
  { intros n Hn; simpl in Hn.
    repeat (destruct Hn as [<- | Hn];
            [eapply numeric_of; reflexivity |]).
    destruct Hn. }
  assert (Hc : forall n, In n categorical_columns -> present train n).
  { intros n Hn; simpl in Hn.
    repeat (destruct Hn as [<- | Hn]; [eexists; reflexivity |]).
    destruct Hn. }
  split; [exact Hm |]; split; [exact Hc |].
  exact (transform_succeeds show_float train Hm Hc).
Defined.

(** The second row of the second sample table has no car count: its
    area of 0 comes out missing, and it has no garage. *)
Lemma garage_area_lost_without_car_count_witness :
  feature_engineering show_float test = inr test_out /\
  lookup "garagecarcnt" (columns test) = Some [N 0; NaN] /\
  lookup "garagetotalsqft" (columns test) = Some [N 300; N 0] /\
  exists cleaned hg,
    lookup "garagetotalsqft" (columns test_out) = Some (of_floats cleaned) /\
    lookup "has_garage" (columns test_out) = Some (of_floats hg) /\
    nth_error cleaned 1 = Some nan /\
    nth_error hg 1 = Some (of_Z 0).
Proof.
  destruct (garage_area_lost_without_car_count show_float test test_out
              test_transformed)
    as (raw & car & fin & cleaned & gsr & hg & (Hraw & Hcar & _) &
        (Hcleaned & _ & Hhg) & Hrow).
  assert (raw = [of_Z 300; of_Z 0])
    by (apply of_floats_inj; injection Hraw as <-; reflexivity).
  assert (car = [of_Z 0; nan])
    by (apply of_floats_inj; injection Hcar as <-; reflexivity).
  subst raw car.
  destruct (Hrow 1%nat nan (of_Z 0) eq_refl eq_refl eq_refl) as (H1 & H2 & _).
  split; [exact test_transformed |].
  split; [reflexivity |]; split; [reflexivity |].
  exists cleaned, hg; auto.
Defined.

(** The second row of the first sample table has two cars and an area of
    400, which it keeps. *)
Lemma garage_area_of_other_rows_witness :
  feature_engineering show_float train = inr train_out /\
  exists cleaned,
    lookup "garagetotalsqft" (columns train_out) = Some (of_floats cleaned) /\
    nth_error cleaned 1 = Some (of_Z 400).
Proof.
  destruct (garage_area_of_other_rows show_float train train_out
              train_transformed)
    as (raw & car & cleaned & Hraw & Hcar & Hcleaned & Hkept & _).
  assert (raw = [of_Z 0; of_Z 400; of_Z 600])
    by (apply of_floats_inj; injection Hraw as <-; reflexivity).
  assert (car = [of_Z 2; of_Z 2; of_Z 2])
    by (apply of_floats_inj; injection Hcar as <-; reflexivity).
  subst raw car.
  split; [exact train_transformed |].
  exists cleaned; split; [exact Hcleaned |].
  apply (Hkept 1%nat (of_Z 2) (of_Z 400)); reflexivity.
Defined.

(** Four rows of three county codes, one of them missing. *)
Definition counties : DataFrame :=
  mkDataFrame 4 [("fips", [N 6037; N 6059; NaN; N 6111])].

Definition counties_out : DataFrame :=
  mkDataFrame 4
    [("fips_6059.0", [N 0; N 1; N 0; N 0]);
     ("fips_6111.0", [N 0; N 0; N 0; N 1])].

Lemma counties_encoded :
  get_dummies show_float counties ["fips"] = inr counties_out.
Proof. vm_compute; reflexivity. Qed.

(** The row of county 6059 has a 1 in the first indicator column and so
    a 0 in the second; the row without a county has a 0 in both. *)
Lemma indicators_exclusive_witness :
  get_dummies show_float counties ["fips"] = inr counties_out /\
  dummies_1d show_float "fips" [N 6037; N 6059; NaN; N 6111]
    = columns counties_out /\
  nth_error [N 0; N 0; N 0; N 1] 1 = Some (Num (of_Z 0)) /\
  nth_error [N 0; N 1; N 0; N 0] 2 = Some (Num (of_Z 0)).
Proof.
  destruct (indicators_exclusive show_float counties ["fips"] counties_out
              "fips" [N 6037; N 6059; NaN; N 6111]
              counties_encoded (or_introl eq_refl) eq_refl)
    as (_ & Hex & Hnull).
  split; [exact counties_encoded |].
  split; [vm_compute; reflexivity |].
  split.
  - apply (Hex 0%nat 1%nat ("fips_6059.0"%string, [N 0; N 1; N 0; N 0])
             ("fips_6111.0"%string, [N 0; N 0; N 0; N 1]) 1%nat);
      [discriminate | vm_compute; reflexivity | vm_compute; reflexivity
      | reflexivity].
  - apply (Hnull ("fips_6059.0"%string, [N 0; N 1; N 0; N 0]) 2%nat NaN);
      [vm_compute; auto | reflexivity | reflexivity].
Defined.

(** Six rows of four cities. *)
Definition cities : DataFrame :=
  mkDataFrame 6 [("regionidcity", [N 1; N 1; N 2; N 2; N 3; N 4])].

Definition cities_out : DataFrame :=
  Eval vm_compute in
    match encode_top_k show_float "regionidcity" 2 cities with
    | inr out => out
    | inl _ => mkDataFrame 0 []
    end.

Lemma cities_encoded :
  encode_top_k show_float "regionidcity" 2 cities = inr cities_out.
Proof. vm_compute; reflexivity. Qed.

(** With [k = 2] the four cities give two indicator columns. *)
Lemma top_k_adds_at_most_k_witness :
  encode_top_k show_float "regionidcity" 2 cities = inr cities_out /\
  names cities_out = ["regionidcity"; "regionidcity_top_1.0";
                      "regionidcity_top_2.0"] /\
  List.length (columns cities_out) <= List.length (columns cities) + 2.
Proof.
  destruct (top_k_adds_at_most_k show_float "regionidcity" 2 cities cities_out
              cities_encoded) as (added & _ & _ & Hlen).
  split; [exact cities_encoded |].
  split; [vm_compute; reflexivity | exact Hlen].
Defined.

(** A missing city becomes [-1] whatever [k] is; with three distinct
    cities and [k = 3] every city is kept. *)
Lemma top_k_bucket_witness :
  nth_error (where_isin_minus_one (top_values 3 [N 7; NaN; N 8; N 9; N 7])
               [N 7; NaN; N 8; N 9; N 7]) 1 = Some (Num (of_Z (-1))) /\
  nth_error (where_isin_minus_one (top_values 3 [N 7; NaN; N 8; N 9; N 7])
               [N 7; NaN; N 8; N 9; N 7]) 3 = Some (N 9).
Proof.
  destruct (top_k_bucket 3 [N 7; NaN; N 8; N 9; N 7]) as (Hmissing & Hkept).
  split.
  - apply (Hmissing 1%nat NaN); reflexivity.
  - apply (Hkept ltac:(vm_compute; lia) 3%nat (N 9)); reflexivity.
Defined.

(** The run over the sample files writes the two transformed tables to
    [artifacts/], the training table first. *)
Lemma written_tables_witness :
  snd (initiate_data_transformation show_float Files read_csv makedirs to_csv
         "train.csv" "test.csv" files)
  = inr (X_train, X_test, y_train, y_test) /\
  (forall n, lookup n (columns (concat_target X_train y_train))
             = lookup n (columns train_out)) /\
  (forall n, lookup n (columns (concat_target X_test y_test))
             = lookup n (columns test_out)) /\
  fst (initiate_data_transformation show_float Files read_csv makedirs to_csv
         "train.csv" "test.csv" files)
  = (transformed_test_path, concat_target X_test y_test)
      :: (transformed_train_path, concat_target X_train y_train) :: files.
Proof.
  destruct (written_tables show_float Files read_csv makedirs to_csv
              "train.csv" "test.csv" files X_train X_test y_train y_test
              pipeline_returns)
    as (train_df & test_df & train_out' & test_out' & w1 & w2 &
        (R1 & R2 & F1 & F2) & (M & W1 & W2) & L1 & L2 & _).
  assert (train_df = train) by (now inversion R1).
  assert (test_df = test) by (now inversion R2).
  subst train_df test_df.
  assert (train_out' = train_out)
    by (rewrite train_transformed in F1; now inversion F1).
  assert (test_out' = test_out)
    by (rewrite test_transformed in F2; now inversion F2).
  subst train_out' test_out'.
  assert (w1 = files) by (now inversion M).
  subst w1.
  assert (w2 = (transformed_train_path, concat_target X_train y_train) :: files)
    by (now inversion W1).
  subst w2.
  split; [exact pipeline_returns |].
  split; [exact L1 |]; split; [exact L2 |].
  now inversion W2.
Defined.

(** The first row of the training features holds the target 100000 over
    the area 0 plus [1e-5]. *)
Lemma features_hold_the_target_witness :
  snd (initiate_data_transformation show_float Files read_csv makedirs to_csv
         "train.csv" "test.csv" files)
  = inr (X_train, X_test, y_train, y_test) /\
  exists price,
    lookup "price_per_sqft" (columns X_train) = Some (of_floats price) /\
    nth_error price 0 = Some (div (of_Z 100000) (add (of_Z 0) eps)).
Proof.
  destruct (features_hold_the_target show_float Files read_csv makedirs to_csv
              "train.csv" "test.csv" files X_train X_test y_train y_test
              pipeline_returns)
    as ((y & fin & price & Hy & Hfin & Hprice & Hrow) & _).
  assert (y = [of_Z 100000; of_Z 200000; nan])
    by (apply of_floats_inj; rewrite <- Hy; reflexivity).
  assert (fin = [of_Z 0; of_Z 1000; of_Z 0])
    by (apply of_floats_inj; injection Hfin as <-; reflexivity).
  subst y fin.
  split; [exact pipeline_returns |].
  exists price; split; [exact Hprice |].
  apply (Hrow 0%nat); reflexivity.
Defined.

Lemma pipeline_returns_test_twice :
  snd (initiate_data_transformation show_float Files read_csv makedirs to_csv
         "test.csv" "test.csv" files)
  = inr (X_test, X_test, y_test, y_test).
Proof. vm_compute; reflexivity. Qed.

Lemma pipeline_returns_train_twice :
  snd (initiate_data_transformation show_float Files read_csv makedirs to_csv
         "train.csv" "train.csv" files)
  = inr (X_train, X_train, y_train, y_train).
Proof. vm_compute; reflexivity. Qed.

(** The second sample table is encoded the same way whichever table is
    given as the training table, and so is the first. *)
Lemma tables_encoded_separately_witness :
  snd (initiate_data_transformation show_float Files read_csv makedirs to_csv
         "train.csv" "test.csv" files)
  = inr (X_train, X_test, y_train, y_test) /\
  snd (initiate_data_transformation show_float Files read_csv makedirs to_csv
         "test.csv" "test.csv" files)
  = inr (X_test, X_test, y_test, y_test) /\
  snd (initiate_data_transformation show_float Files read_csv makedirs to_csv
         "train.csv" "train.csv" files)
  = inr (X_train, X_train, y_train, y_train) /\
  (X_test = X_test /\ y_test = y_test) /\
  (X_train = X_train /\ y_train = y_train).
Proof.
  split; [exact pipeline_returns |].
  split; [exact pipeline_returns_test_twice |].
  split; [exact pipeline_returns_train_twice |].
  exact (tables_encoded_separately show_float Files read_csv makedirs to_csv
           "train.csv" "test.csv" "test.csv" "train.csv" files
           _ _ _ _ _ _ _ _ _ _ _ _
           pipeline_returns pipeline_returns_test_twice
           pipeline_returns_train_twice).
Defined.

(** After the call on the first sample table that table has lost
    [roomcnt] and gained [roomcnt_fixed], and its [fips] is not
    encoded. *)
Lemma argument_changed_in_place_witness :
  feature_engineering show_float train = inr train_out /\
  ~ In "roomcnt" (names (argument_after train)) /\
  lookup "roomcnt_fixed" (columns (argument_after train))
    = Some [N 4; N 5; N 3] /\
  lookup "fips" (columns (argument_after train))
    = Some [N 6037; N 6059; N 6037].
Proof.
  destruct (argument_changed_in_place show_float train train_out
              train_transformed) as (Hgone & _ & Hnew & Hlow & _).
  split; [exact train_transformed |].
  split; [exact Hgone |].
  split.
  - destruct (Hnew "roomcnt_fixed") as (s & H1 & H2); [simpl; tauto |].
    rewrite H1, <- H2; reflexivity.
  - destruct (Hlow "fips") as (s & H1 & H2); [simpl; tauto |].
    rewrite H1, <- H2; reflexivity.
Defined.

(** The first sample table without its column [yearbuilt]. *)
Definition no_yearbuilt : DataFrame :=
  Eval vm_compute in
    mkDataFrame 3 (remove_columns ["yearbuilt"] (columns train)).

(** The call on it raises at line 91 and leaves it without [roomcnt] and
    with a [price_per_sqft]. *)
Lemma failed_call_changes_argument_witness :
  lookup "yearbuilt" (columns no_yearbuilt) = None /\
  lookup "roomcnt" (columns no_yearbuilt) = Some [N 0; N 5; NaN] /\
  feature_engineering show_float no_yearbuilt
    = inl (CustomException (KeyError "yearbuilt")) /\
  lookup "roomcnt" (columns (argument_after no_yearbuilt)) = None /\
  lookup "price_per_sqft" (columns (argument_after no_yearbuilt))
    = Some (of_floats (map2 ratio [of_Z 100000; of_Z 200000; nan]
                         [of_Z 0; of_Z 1000; of_Z 0])).
Proof.
  split; [reflexivity |]; split; [reflexivity |].
  apply (failed_call_changes_argument show_float no_yearbuilt);
    try reflexivity.
  intros n Hn; simpl in Hn.
  repeat (destruct Hn as [<- | Hn]; [eapply numeric_of; reflexivity |]).
  destruct Hn.
Defined.
